(** * Datex-Ohmeda DRI decoder (package [serial]): model and properties

    A shallow embedding of the binary decoders of [driver/serial]:
    the record header and its descriptor table, the waveform decoder,
    the physiological database record, the alarm status message, the
    subrecord scans and the multi-record splitters.

    Go values are modelled as follows.
    - [[]byte] is [list byte] ([Init.Byte.byte], 256 constructors); the
      little-endian readers of [encoding/binary] are coqutil's
      [le_combine] and [le_split].
    - [int], [int16], [uint16], [uint32] are [Z]; conversions between
      them write the wrap-around out.
    - [float64] is the kernel's binary64 [float].
    - A run-time panic (index out of range, slice bounds out of range,
      [make] with a negative length) is an outcome of its own, distinct
      from a returned [error]. *)

From Stdlib Require Import ZArith List String Ascii Bool Lia.
From Stdlib Require Import DecimalString.
From Stdlib Require Import Floats Uint63.
From coqutil Require Import Byte Word.LittleEndianList Z.bitblast.
Import ListNotations.

Local Open Scope Z_scope.
Local Open Scope list_scope.

(** ** The Go run time *)

Inductive panic : Type :=
| IndexOutOfRange (index len : Z)
| SliceBoundsOutOfRange (bound len : Z)
| MakeSliceLenOutOfRange (len : Z).

(** [error] values: the package's [ErrInvalidDataLength] and the
    strings built by [fmt.Errorf]. *)
Inductive error : Type :=
| ErrInvalidDataLength
| Errorf (msg : string).

(** Outcome of a call that returns [(T, error)] or mutates its receiver
    and returns [error]. *)
Inductive result (A : Type) : Type :=
| Ok (a : A)
| Err (e : error)
| Panic (p : panic).
Arguments Ok {A} a.
Arguments Err {A} e.
Arguments Panic {A} p.

Definition bind {A B} (m : result A) (k : A -> result B) : result B :=
  match m with
  | Ok a => k a
  | Err e => Err e
  | Panic p => Panic p
  end.

Declare Scope go_scope.
Delimit Scope go_scope with go.
Notation "x <- m ;; k" := (bind m (fun x => k))
  (at level 61, m at next level, right associativity) : go_scope.
Notation "' pat <- m ;; k" := (bind m (fun x => match x with pat => k end))
  (at level 61, pat pattern, m at next level, right associativity) : go_scope.
Local Open Scope go_scope.

Definition len {A} (s : list A) : Z := Z.of_nat (List.length s).

(** [s[i]] *)
Definition elem {A} (s : list A) (i : Z) : result A :=
  if (i <? 0) || (len s <=? i) then Panic (IndexOutOfRange i (len s))
  else match nth_error s (Z.to_nat i) with
       | Some x => Ok x
       | None => Panic (IndexOutOfRange i (len s))
       end.

(** [s[lo:]]; the capacity of a buffer is taken to be its length. *)
Definition slice_from {A} (s : list A) (lo : Z) : result (list A) :=
  if (lo <? 0) || (len s <? lo) then Panic (SliceBoundsOutOfRange lo (len s))
  else Ok (skipn (Z.to_nat lo) s).

(** [s[lo:hi]] *)
Definition slice {A} (s : list A) (lo hi : Z) : result (list A) :=
  if (hi <? 0) || (len s <? hi) then Panic (SliceBoundsOutOfRange hi (len s))
  else if (lo <? 0) || (hi <? lo) then Panic (SliceBoundsOutOfRange lo hi)
  else Ok (firstn (Z.to_nat (hi - lo)) (skipn (Z.to_nat lo) s)).

(** [s[:hi]] *)
Definition slice_to {A} (s : list A) (hi : Z) : result (list A) := slice s 0 hi.

(** [make([]T, n)] *)
Definition make {A} (zero : A) (n : Z) : result (list A) :=
  if n <? 0 then Panic (MakeSliceLenOutOfRange n)
  else Ok (repeat zero (Z.to_nat n)).

(** [copy(dst, src)]: overwrites the first [min(len dst, len src)]
    elements of [dst]. *)
Definition copy {A} (dst src : list A) : list A :=
  firstn (List.length dst) src ++ skipn (List.length src) dst.

(** Integer conversions. *)
Definition uint16 (z : Z) : Z := z mod 65536.
Definition uint32 (z : Z) : Z := z mod 4294967296.
Definition int16 (z : Z) : Z := (z + 32768) mod 65536 - 32768.

Definition is_int16 (z : Z) : Prop := -32768 <= z <= 32767.
Definition is_uint16 (z : Z) : Prop := 0 <= z < 65536.
Definition is_uint32 (z : Z) : Prop := 0 <= z < 4294967296.

(** [binary.LittleEndian]: each reader first touches the last byte it
    needs ([_ = b[1]], [_ = b[3]]), so a short slice panics. *)
Module LittleEndian.
Definition Uint16 (b : list byte) : result Z :=
  _ <- elem b 1 ;; Ok (le_combine (firstn 2 b)).

Definition Uint32 (b : list byte) : result Z :=
  _ <- elem b 3 ;; Ok (le_combine (firstn 4 b)).

(** [PutUint16(b, v)]: the buffer after the write. *)
Definition PutUint16 (b : list byte) (v : Z) : result (list byte) :=
  _ <- elem b 1 ;; Ok (copy b (le_split 2 v)).

Definition PutUint32 (b : list byte) (v : Z) : result (list byte) :=
  _ <- elem b 3 ;; Ok (copy b (le_split 4 v)).
End LittleEndian.

(** [fmt.Sprintf("%d", z)] *)
Definition itoa (z : Z) : string := NilZero.string_of_int (Z.to_int z).

(** [DRIError.Error] *)
Definition DRIError_Error (message : string) : string :=
  ("DRI error: " ++ message)%string.

(** [err.Error()], as [%v] and [%w] print it. *)
Definition Error (e : error) : string :=
  match e with
  | ErrInvalidDataLength => DRIError_Error "invalid data length"
  | Errorf msg => msg
  end.

(** [float64(x)] for an integer below 2^53 in magnitude (every such
    integer, an [int16] in particular, is a binary64). *)
Definition float64 (z : Z) : float :=
  if z <? 0 then PrimFloat.opp (PrimFloat.of_uint63 (Uint63.of_Z (- z)))
  else PrimFloat.of_uint63 (Uint63.of_Z z).

(** [for i := start; i < start+n; i++ { body }] over a state. *)
Fixpoint for_loop {S : Type} (n : nat) (i : Z) (body : Z -> S -> result S) (s : S)
  : result S :=
  match n with
  | O => Ok s
  | S n' => s' <- body i s ;; for_loop n' (i + 1) body s'
  end.

(** [a[i] = x] on an array or slice. *)
Definition set_elem {A} (s : list A) (i : Z) (x : A) : result (list A) :=
  _ <- elem s i ;;
  Ok (firstn (Z.to_nat i) s ++ x :: skipn (S (Z.to_nat i)) s).

(** A write [f] through the alias [buf[off:]]: what lies before [off]
    is untouched. *)
Definition through {A} (buf : list A) (off : Z) (f : list A -> result (list A))
  : result (list A) :=
  tail <- slice_from buf off ;;
  tail' <- f tail ;;
  Ok (firstn (Z.to_nat off) buf ++ tail').

(** A write [f] through the alias [buf[lo:hi]]. *)
Definition through_range {A} (buf : list A) (lo hi : Z) (f : list A -> result (list A))
  : result (list A) :=
  part <- slice buf lo hi ;;
  part' <- f part ;;
  Ok (firstn (Z.to_nat lo) buf ++ part' ++ skipn (Z.to_nat hi) buf).

(** [a[i] = x] on a fixed-size array, for an index the code has
    already tested to be in range. *)
Definition array_set {A} (a : list A) (i : Z) (x : A) : list A :=
  firstn (Z.to_nat i) a ++ x :: skipn (S (Z.to_nat i)) a.

(** ** Constants *)

Definition DRI_PH_DISPL : Z := 16.
Definition DRI_PH_10S_TREND : Z := 17.
Definition DRI_PH_60S_TREND : Z := 18.
Definition DRI_PH_AUX_INFO : Z := 19.

Definition DRI_MT_PHDB : Z := 0.
Definition DRI_MT_WAVE : Z := 1.
Definition DRI_MT_ALARM : Z := 4.
Definition DRI_MT_NETWORK : Z := 5.
Definition DRI_MT_FO : Z := 8.

Definition DRI_EOL_SUBR_LIST : Z := 255.

Definition DRI_WF_CO2 : Z := 9.
Definition DRI_WF_O2 : Z := 10.
Definition DRI_WF_N2O : Z := 11.
Definition DRI_WF_AA : Z := 12.
Definition DRI_WF_AWP : Z := 13.
Definition DRI_WF_FLOW : Z := 14.
Definition DRI_WF_RESP : Z := 15.
Definition DRI_WF_INVP5 : Z := 16.
Definition DRI_WF_INVP6 : Z := 17.
Definition DRI_WF_EEG1 : Z := 18.
Definition DRI_WF_EEG2 : Z := 19.
Definition DRI_WF_EEG3 : Z := 20.
Definition DRI_WF_EEG4 : Z := 21.
Definition DRI_WF_ECG12 : Z := 22.
Definition DRI_WF_VOL : Z := 23.
Definition DRI_WF_TONO_PRESS : Z := 24.
Definition DRI_WF_SPI_LOOP_STATUS : Z := 29.
Definition DRI_WF_ENT_100 : Z := 32.
Definition DRI_WF_EEG_BIS : Z := 35.
Definition DRI_WF_INVP7 : Z := 36.
Definition DRI_WF_INVP8 : Z := 37.
Definition DRI_WF_PLETH_2 : Z := 38.
Definition DRI_WF_RESP_100 : Z := 39.

Definition WF_STATUS_GAP : Z := 1.
Definition WF_STATUS_PACER_DET : Z := 4.
Definition WF_STATUS_LEAD_OFF : Z := 8.

Definition SAMPLE_RATE_ECG : Z := 300.
Definition SAMPLE_RATE_ECG12 : Z := 500.
Definition SAMPLE_RATE_INVP : Z := 100.
Definition SAMPLE_RATE_PLETH : Z := 100.
Definition SAMPLE_RATE_CO2 : Z := 25.

Definition DRI_AL_STATUS : Z := 1.
Definition DRI_SI_NONE : Z := 0.
Definition DRI_PR0 : Z := 0.
Definition DRI_PR1 : Z := 1.
Definition DRI_PR2 : Z := 2.
Definition DRI_PR3 : Z := 3.

(** ** Subrecord descriptor *)

Module SrDesc.
Record t : Type := mk {
  SrOffset : Z;      (* int16 *)
  SrType : byte
}.

Definition zero : t := {| SrOffset := 0; SrType := Byte.x00 |}.

Definition Size : Z := 3.

Definition MarshalBinary (s : t) : result (list byte) :=
  buf <- make Byte.x00 Size ;;
  dst <- slice buf 0 2 ;;
  dst <- LittleEndian.PutUint16 dst (uint16 (SrOffset s)) ;;
  let buf := copy buf dst in
  buf <- set_elem buf 2 (SrType s) ;;
  Ok buf.

Definition UnmarshalBinary (data : list byte) : result t :=
  if len data <? Size then Err ErrInvalidDataLength
  else
    b <- slice data 0 2 ;;
    u <- LittleEndian.Uint16 b ;;
    ty <- elem data 2 ;;
    Ok {| SrOffset := int16 u; SrType := ty |}.

Definition IsEndOfList (s : t) : bool :=
  byte.unsigned (SrType s) =? DRI_EOL_SUBR_LIST.

Definition IsValid (s : t) : bool :=
  negb (byte.unsigned (SrType s) =? DRI_EOL_SUBR_LIST).

Definition wf (s : t) : Prop := is_int16 (SrOffset s).
End SrDesc.

(** ** Record header *)

Module DatexHeader.
Record t : Type := mk {
  RLen : Z;          (* int16 *)
  RNbr : byte;
  DriLevel : byte;
  PlugID : Z;        (* uint16 *)
  RTime : Z;         (* uint32 *)
  NSubnet : byte;
  Reserved2 : byte;
  Reserved3 : Z;     (* uint16 *)
  RMainType : Z;     (* int16 *)
  SrDesc : list SrDesc.t   (* [8]SrDesc *)
}.

(** The values of the Go type: every field within its integer type
    and the descriptor array of length 8. *)
Record wf (h : t) : Prop := {
  wf_RLen : is_int16 (RLen h);
  wf_PlugID : is_uint16 (PlugID h);
  wf_RTime : is_uint32 (RTime h);
  wf_Reserved3 : is_uint16 (Reserved3 h);
  wf_RMainType : is_int16 (RMainType h);
  wf_SrDesc_len : List.length (SrDesc h) = 8%nat;
  wf_SrDesc : Forall SrDesc.wf (SrDesc h)
}.

(** [h.SrDesc[i]] for [0 <= i < 8]. *)
Definition SrDesc_at (h : t) (i : Z) : SrDesc.t :=
  nth (Z.to_nat i) (SrDesc h) SrDesc.zero.

Definition Size : Z := 2 + 1 + 1 + 2 + 4 + 1 + 1 + 2 + 2 + 8 * 3.

Definition MarshalBinary (h : t) : result (list byte) :=
  buf <- make Byte.x00 Size ;;
  let offset := 0 in
  buf <- through buf offset (fun b => LittleEndian.PutUint16 b (uint16 (RLen h))) ;;
  let offset := offset + 2 in
  buf <- set_elem buf offset (RNbr h) ;;
  let offset := offset + 1 in
  buf <- set_elem buf offset (DriLevel h) ;;
  let offset := offset + 1 in
  buf <- through buf offset (fun b => LittleEndian.PutUint16 b (PlugID h)) ;;
  let offset := offset + 2 in
  buf <- through buf offset (fun b => LittleEndian.PutUint32 b (RTime h)) ;;
  let offset := offset + 4 in
  buf <- set_elem buf offset (NSubnet h) ;;
  let offset := offset + 1 in
  buf <- set_elem buf offset (Reserved2 h) ;;
  let offset := offset + 1 in
  buf <- through buf offset (fun b => LittleEndian.PutUint16 b (Reserved3 h)) ;;
  let offset := offset + 2 in
  buf <- through buf offset (fun b => LittleEndian.PutUint16 b (uint16 (RMainType h))) ;;
  let offset := offset + 2 in
  '(buf, _) <- for_loop 8 0 (fun i '(buf, offset) =>
      srDescBytes <- SrDesc.MarshalBinary (SrDesc_at h i) ;;
      buf <- through buf offset (fun b => Ok (copy b srDescBytes)) ;;
      Ok (buf, offset + SrDesc.Size)) (buf, offset) ;;
  Ok buf.

Definition UnmarshalBinary (data : list byte) : result t :=
  if len data <? Size then Err ErrInvalidDataLength
  else
    let offset := 0 in
    b <- slice_from data offset ;;
    rlen <- LittleEndian.Uint16 b ;;
    let offset := offset + 2 in
    rnbr <- elem data offset ;;
    let offset := offset + 1 in
    drilevel <- elem data offset ;;
    let offset := offset + 1 in
    b <- slice_from data offset ;;
    plugid <- LittleEndian.Uint16 b ;;
    let offset := offset + 2 in
    b <- slice_from data offset ;;
    rtime <- LittleEndian.Uint32 b ;;
    let offset := offset + 4 in
    nsubnet <- elem data offset ;;
    let offset := offset + 1 in
    reserved2 <- elem data offset ;;
    let offset := offset + 1 in
    b <- slice_from data offset ;;
    reserved3 <- LittleEndian.Uint16 b ;;
    let offset := offset + 2 in
    b <- slice_from data offset ;;
    rmaintype <- LittleEndian.Uint16 b ;;
    let offset := offset + 2 in
    '(srdesc, _) <- for_loop 8 0 (fun i '(srdesc, offset) =>
        b <- slice_from data offset ;;
        d <- SrDesc.UnmarshalBinary b ;;
        srdesc <- set_elem srdesc i d ;;
        Ok (srdesc, offset + SrDesc.Size)) (repeat SrDesc.zero 8, offset) ;;
    Ok {| RLen := int16 rlen; RNbr := rnbr; DriLevel := drilevel;
          PlugID := plugid; RTime := rtime; NSubnet := nsubnet;
          Reserved2 := reserved2; Reserved3 := reserved3;
          RMainType := int16 rmaintype; SrDesc := srdesc |}.

Definition GetActiveSubrecordCount (h : t) : Z :=
  fold_left (fun count i => if SrDesc.IsValid (SrDesc_at h i) then count + 1 else count)
            [0; 1; 2; 3; 4; 5; 6; 7] 0.

Definition GetMainTypeName (h : t) : string :=
  if RMainType h =? DRI_MT_PHDB then "Physiological Data"
  else if RMainType h =? DRI_MT_WAVE then "Waveform Data"
  else if RMainType h =? DRI_MT_ALARM then "Alarm Data"
  else if RMainType h =? DRI_MT_NETWORK then "Network Data"
  else if RMainType h =? DRI_MT_FO then "Foreground Data"
  else ("Unknown Type " ++ itoa (RMainType h))%string.

Definition GetDriLevelDescription (h : t) : string :=
  let l := byte.unsigned (DriLevel h) in
  if l =? 2 then "1995 '95"
  else if l =? 3 then "1997 '97"
  else if l =? 4 then "1998 '98"
  else if l =? 5 then "1999 '99"
  else if l =? 6 then "2001 '01"
  else if l =? 7 then "2002 '02"
  else if l =? 8 then "2003 '03"
  else if l =? 9 then "2005 '05"
  else if l =? 10 then "2009 '09"
  else if l =? 11 then "2015 '15"
  else if l =? 12 then "2019 '19"
  else ("Unknown Level " ++ itoa l)%string.
Definition GetSubrecordType (h : t) (index : Z) : byte :=
  if (0 <=? index) && (index <? 8) then SrDesc.SrType (SrDesc_at h index)
  else Byte.x00.

Definition GetSubrecordOffset (h : t) (index : Z) : Z :=
  if (0 <=? index) && (index <? 8) then SrDesc.SrOffset (SrDesc_at h index)
  else 0.

Definition with_SrDesc (h : t) (descs : list SrDesc.t) : t :=
  {| RLen := RLen h; RNbr := RNbr h; DriLevel := DriLevel h; PlugID := PlugID h;
     RTime := RTime h; NSubnet := NSubnet h; Reserved2 := Reserved2 h;
     Reserved3 := Reserved3 h; RMainType := RMainType h; SrDesc := descs |}.

(** [SetSubrecord]: the header after the call; on an error the
    receiver has not been written to. *)
Definition SetSubrecord (h : t) (index srOffset : Z) (srType : byte) : result t :=
  if (index <? 0) || (8 <=? index)
  then Err (Errorf ("invalid subrecord index: " ++ itoa index))
  else Ok (with_SrDesc h (array_set (SrDesc h) index
                            {| SrDesc.SrOffset := srOffset; SrDesc.SrType := srType |})).

Definition ClearSubrecords (h : t) : t :=
  with_SrDesc h
    (fold_left (fun descs i =>
                  array_set descs i
                    {| SrDesc.SrOffset := 0; SrDesc.SrType := byte.of_Z DRI_EOL_SUBR_LIST |})
               [0; 1; 2; 3; 4; 5; 6; 7] (SrDesc h)).

Definition IsNetworkInterface (h : t) : bool :=
  (RMainType h =? DRI_MT_ALARM) || (RMainType h =? DRI_MT_NETWORK)
  || (RMainType h =? DRI_MT_FO).

Definition ValidateReservedFields (h : t) : result unit :=
  if negb (byte.unsigned (NSubnet h) =? 0)
  then Err (Errorf ("n_subnet must be zeroed, got " ++ itoa (byte.unsigned (NSubnet h))))
  else if negb (byte.unsigned (Reserved2 h) =? 0)
  then Err (Errorf ("reserved2 must be zeroed, got " ++ itoa (byte.unsigned (Reserved2 h))))
  else if negb (Reserved3 h =? 0)
  then Err (Errorf ("reserved3 must be zeroed, got " ++ itoa (Reserved3 h)))
  else Ok tt.

Definition ZeroReservedFields (h : t) : t :=
  {| RLen := RLen h; RNbr := RNbr h; DriLevel := DriLevel h; PlugID := PlugID h;
     RTime := RTime h; NSubnet := Byte.x00; Reserved2 := Byte.x00;
     Reserved3 := 0; RMainType := RMainType h; SrDesc := SrDesc h |}.
End DatexHeader.


(** ** Waveform subrecords *)

Module WaveformHeader.
Record t : Type := mk {
  ActLen : Z;        (* int16 *)
  Status : Z;        (* uint16 *)
  Label : Z          (* uint16 *)
}.

Definition zero : t := {| ActLen := 0; Status := 0; Label := 0 |}.

Definition Size : Z := 6.

Definition UnmarshalBinary (data : list byte) : result t :=
  if len data <? Size then Err ErrInvalidDataLength
  else
    b <- slice data 0 2 ;;
    actlen <- LittleEndian.Uint16 b ;;
    b <- slice data 2 4 ;;
    status <- LittleEndian.Uint16 b ;;
    b <- slice data 4 6 ;;
    label <- LittleEndian.Uint16 b ;;
    Ok {| ActLen := int16 actlen; Status := status; Label := label |}.

Definition HasGap (h : t) : bool := negb (Z.land (Status h) WF_STATUS_GAP =? 0).
Definition HasPacerDetected (h : t) : bool :=
  negb (Z.land (Status h) WF_STATUS_PACER_DET =? 0).
Definition HasLeadOff (h : t) : bool :=
  negb (Z.land (Status h) WF_STATUS_LEAD_OFF =? 0).
Definition MarshalBinary (h : t) : result (list byte) :=
  buf <- make Byte.x00 Size ;;
  buf <- through_range buf 0 2 (fun b => LittleEndian.PutUint16 b (uint16 (ActLen h))) ;;
  buf <- through_range buf 2 4 (fun b => LittleEndian.PutUint16 b (Status h)) ;;
  buf <- through_range buf 4 6 (fun b => LittleEndian.PutUint16 b (Label h)) ;;
  Ok buf.

Record wf (h : t) : Prop := {
  wf_ActLen : is_int16 (ActLen h);
  wf_Status : is_uint16 (Status h);
  wf_Label : is_uint16 (Label h)
}.
End WaveformHeader.

(** The sample loop shared by [WaveformData.UnmarshalBinary] and
    [WaveformParser.ParseWaveformData]:
    [samples := make([]int16, n); for i := 0; i < n; i++ { samples[i] = ... }]. *)
Definition read_samples (data : list byte) (headerSize n : Z) : result (list Z) :=
  samples <- make 0 n ;;
  for_loop (Z.to_nat n) 0 (fun i samples =>
    let offset := headerSize + i * 2 in
    b <- slice data offset (offset + 2) ;;
    u <- LittleEndian.Uint16 b ;;
    set_elem samples i (int16 u)) samples.

Module WaveformData.
Record t : Type := mk {
  Header : WaveformHeader.t;
  Samples : list Z   (* []int16; the nil slice is [[]] *)
}.

Definition zero : t := {| Header := WaveformHeader.zero; Samples := [] |}.

(** The receiver is threaded through: the first component is [w]
    after the call, as far as the call got. *)
Definition UnmarshalBinary (w : t) (data : list byte) : t * result unit :=
  if len data <? WaveformHeader.Size then (w, Err ErrInvalidDataLength)
  else
    match (b <- slice_to data WaveformHeader.Size ;; WaveformHeader.UnmarshalBinary b) with
    | Err e => (w, Err e)
    | Panic p => (w, Panic p)
    | Ok h =>
        let w := {| Header := h; Samples := Samples w |} in
        let sampleCount := WaveformHeader.ActLen h in
        if len data <? WaveformHeader.Size + sampleCount * 2
        then (w, Err ErrInvalidDataLength)
        else
          match read_samples data WaveformHeader.Size sampleCount with
          | Ok samples => ({| Header := h; Samples := samples |}, Ok tt)
          | Err e => (w, Err e)
          | Panic p => (w, Panic p)
          end
    end.
Definition Size (w : t) : Z := WaveformHeader.Size + len (Samples w) * 2.

(** [for i, sample := range w.Samples { PutUint16(buf[6+i*2:], ...) }] *)
Fixpoint put_samples (samples : list Z) (i : Z) (buf : list byte) : result (list byte) :=
  match samples with
  | [] => Ok buf
  | sample :: rest =>
      buf <- through buf (WaveformHeader.Size + i * 2)
               (fun b => LittleEndian.PutUint16 b (uint16 sample)) ;;
      put_samples rest (i + 1) buf
  end.

Definition MarshalBinary (w : t) : result (list byte) :=
  headerBytes <- WaveformHeader.MarshalBinary (Header w) ;;
  buf <- make Byte.x00 (Size w) ;;
  let buf := copy buf headerBytes in
  put_samples (Samples w) 0 buf.
End WaveformData.

Definition IsControlCode (sample : Z) : bool := sample <=? -32000.

(** [ValidateWaveformData] *)
Definition ValidateWaveformData (data : list byte) : result unit :=
  if len data <? 6 then Err (Errorf "data too short: minimum 6 bytes required")
  else
    b <- slice_to data 6 ;;
    match WaveformHeader.UnmarshalBinary b with
    | Err e => Err (Errorf ("invalid header: " ++ Error e))
    | Panic p => Panic p
    | Ok header =>
        let expectedLength := 6 + WaveformHeader.ActLen header * 2 in
        if len data <? expectedLength
        then Err (Errorf ("data length mismatch: expected " ++ itoa expectedLength
                          ++ ", got " ++ itoa (len data)))
        else if WaveformHeader.ActLen header <? 0
        then Err (Errorf ("invalid act_len: " ++ itoa (WaveformHeader.ActLen header)))
        else Ok tt
    end.

Record SampleJSON : Type := {
  sj_Index : Z;
  sj_RawValue : Z;
  sj_PhysicalValue : float;
  sj_Unit : string;
  sj_IsControlCode : bool
}.

Record WaveformHeaderJSON : Type := {
  hj_ActLen : Z;
  hj_Status : Z;
  hj_Label : Z;
  hj_HasGap : bool;
  hj_HasPacerDetected : bool;
  hj_HasLeadOff : bool;
  hj_StatusBits : list bool
}.

(** [WaveformJSON] without its wall-clock fields ([Timestamp] and the
    per-sample [Timestamp] come from [time.Now]). *)
Record WaveformJSON : Type := {
  wj_SubrecordType : Z;
  wj_TypeName : string;
  wj_Header : WaveformHeaderJSON;
  wj_Samples : list SampleJSON;
  wj_SamplingRate : Z;
  wj_Duration : float;
  wj_TotalSamples : Z
}.

Record WaveformParser : Type := {
  subrecordType : Z;
  samplingRate : Z
}.

Section Waveform.
(** The constant [DRI_WF_PLETH] is used by the package; its
    declaration is not part of the files modelled here. *)
Variable DRI_WF_PLETH : Z.

Definition ConvertSampleToPhysicalValue (sample : Z) (subrecordType : Z) : float :=
  if IsControlCode sample then PrimFloat.nan
  else if subrecordType =? DRI_WF_ECG12 then float64 sample
  else if (subrecordType =? DRI_WF_INVP5) || (subrecordType =? DRI_WF_INVP6)
          || (subrecordType =? DRI_WF_INVP7) || (subrecordType =? DRI_WF_INVP8)
  then PrimFloat.div (float64 sample) 100%float
  else if (subrecordType =? DRI_WF_PLETH) || (subrecordType =? DRI_WF_PLETH_2)
  then PrimFloat.div (float64 sample) 100%float
  else if (subrecordType =? DRI_WF_CO2) || (subrecordType =? DRI_WF_O2)
          || (subrecordType =? DRI_WF_N2O) || (subrecordType =? DRI_WF_AA)
  then PrimFloat.div (float64 sample) 100%float
  else float64 sample.

Definition GetSamplingRate (subrecordType : Z) : Z :=
  if subrecordType =? DRI_WF_ECG12 then SAMPLE_RATE_ECG12
  else if (subrecordType =? DRI_WF_INVP5) || (subrecordType =? DRI_WF_INVP6)
          || (subrecordType =? DRI_WF_INVP7) || (subrecordType =? DRI_WF_INVP8)
  then SAMPLE_RATE_INVP
  else if (subrecordType =? DRI_WF_PLETH) || (subrecordType =? DRI_WF_PLETH_2)
  then SAMPLE_RATE_PLETH
  else if (subrecordType =? DRI_WF_CO2) || (subrecordType =? DRI_WF_O2)
          || (subrecordType =? DRI_WF_N2O) || (subrecordType =? DRI_WF_AA)
  then SAMPLE_RATE_CO2
  else SAMPLE_RATE_ECG.

Definition NewWaveformParser (subrecordType : Z) : WaveformParser :=
  {| subrecordType := subrecordType; samplingRate := GetSamplingRate subrecordType |}.

Definition parseStatusBits (status : Z) : list bool :=
  map (fun i => negb (Z.land status (Z.shiftl 1 i) =? 0))
      [0; 1; 2; 3; 4; 5; 6; 7; 8; 9; 10; 11; 12; 13; 14; 15].

Definition getTypeName (subrecordType : Z) : string :=
  let ty := subrecordType in
  if ty =? DRI_WF_CO2 then "CO2"
  else if ty =? DRI_WF_O2 then "O2"
  else if ty =? DRI_WF_N2O then "N2O"
  else if ty =? DRI_WF_AA then "Anesthesia Agent"
  else if ty =? DRI_WF_AWP then "Airway Pressure"
  else if ty =? DRI_WF_FLOW then "Airway Flow"
  else if ty =? DRI_WF_RESP then "ECG Respiratory"
  else if ty =? DRI_WF_INVP5 then "Invasive Pressure 5"
  else if ty =? DRI_WF_INVP6 then "Invasive Pressure 6"
  else if ty =? DRI_WF_INVP7 then "Invasive Pressure 7"
  else if ty =? DRI_WF_INVP8 then "Invasive Pressure 8"
  else if ty =? DRI_WF_EEG1 then "EEG 1"
  else if ty =? DRI_WF_EEG2 then "EEG 2"
  else if ty =? DRI_WF_EEG3 then "EEG 3"
  else if ty =? DRI_WF_EEG4 then "EEG 4"
  else if ty =? DRI_WF_ECG12 then "12-Lead ECG"
  else if ty =? DRI_WF_VOL then "Airway Volume"
  else if ty =? DRI_WF_TONO_PRESS then "Tonometry Pressure"
  else if ty =? DRI_WF_SPI_LOOP_STATUS then "Spirometry Loop"
  else if ty =? DRI_WF_ENT_100 then "Entropy"
  else if ty =? DRI_WF_EEG_BIS then "BIS"
  else if ty =? DRI_WF_PLETH_2 then "Plethysmograph 2"
  else if ty =? DRI_WF_RESP_100 then "High Resolution Respiration"
  else ("Unknown Type " ++ itoa ty)%string.

Definition getUnit (subrecordType : Z) : string :=
  let ty := subrecordType in
  if ty =? DRI_WF_ECG12 then "μV"
  else if (ty =? DRI_WF_INVP5) || (ty =? DRI_WF_INVP6)
          || (ty =? DRI_WF_INVP7) || (ty =? DRI_WF_INVP8) then "mmHg"
  else if (ty =? DRI_WF_PLETH) || (ty =? DRI_WF_PLETH_2) then "%"
  else if (ty =? DRI_WF_CO2) || (ty =? DRI_WF_O2)
          || (ty =? DRI_WF_N2O) || (ty =? DRI_WF_AA) then "%"
  else if ty =? DRI_WF_AWP then "cmH2O"
  else if ty =? DRI_WF_FLOW then "L/min"
  else if ty =? DRI_WF_VOL then "mL"
  else if ty =? DRI_WF_TONO_PRESS then "mmHg"
  else "raw".

(** [for i, sample := range samples] *)
Fixpoint convert_samples (wp : WaveformParser) (i : Z) (samples : list Z)
  : list SampleJSON :=
  match samples with
  | [] => []
  | sample :: rest =>
      {| sj_Index := i;
         sj_RawValue := sample;
         sj_PhysicalValue := ConvertSampleToPhysicalValue sample (subrecordType wp);
         sj_Unit := getUnit (subrecordType wp);
         sj_IsControlCode := IsControlCode sample |}
      :: convert_samples wp (i + 1) rest
  end.

Definition convertToJSON (wp : WaveformParser) (header : WaveformHeader.t)
    (samples : list Z) : result WaveformJSON :=
  let headerJSON :=
    {| hj_ActLen := WaveformHeader.ActLen header;
       hj_Status := WaveformHeader.Status header;
       hj_Label := WaveformHeader.Label header;
       hj_HasGap := WaveformHeader.HasGap header;
       hj_HasPacerDetected := WaveformHeader.HasPacerDetected header;
       hj_HasLeadOff := WaveformHeader.HasLeadOff header;
       hj_StatusBits := parseStatusBits (WaveformHeader.Status header) |} in
  let samplesJSON := convert_samples wp 0 samples in
  let duration := PrimFloat.div (float64 (len samples)) (float64 (samplingRate wp)) in
  Ok {| wj_SubrecordType := subrecordType wp;
        wj_TypeName := getTypeName (subrecordType wp);
        wj_Header := headerJSON;
        wj_Samples := samplesJSON;
        wj_SamplingRate := samplingRate wp;
        wj_Duration := duration;
        wj_TotalSamples := len samples |}.

Definition ParseWaveformData (wp : WaveformParser) (data : list byte)
  : result WaveformJSON :=
  if len data <? 6
  then Err (Errorf ("data too short: " ++ itoa (len data) ++ " bytes"))
  else
    b <- slice_to data 6 ;;
    match WaveformHeader.UnmarshalBinary b with
    | Err e => Err (Errorf ("failed to parse header: " ++ Error e))
    | Panic p => Panic p
    | Ok header =>
        let expectedLength := 6 + WaveformHeader.ActLen header * 2 in
        if len data <? expectedLength
        then Err (Errorf ("data length mismatch: expected " ++ itoa expectedLength
                          ++ ", got " ++ itoa (len data)))
        else
          samples <- read_samples data 6 (WaveformHeader.ActLen header) ;;
          convertToJSON wp header samples
    end.
End Waveform.


(** ** Physiological database records *)

Module BasicPhysiologicalData.
Record t : Type := mk { Data : list byte }.

Definition Size (b : t) : Z := len (Data b).

(** [b.Data = make([]byte, len(data)); copy(b.Data, data)] *)
Definition UnmarshalBinary (data : list byte) : result t :=
  buf <- make Byte.x00 (len data) ;;
  Ok {| Data := copy buf data |}.
End BasicPhysiologicalData.

Module PhysiologicalDatabaseRecord.
(** [PhysData] is the union of four optional payloads; the decoder
    only ever fills [Basic]. *)
Record t : Type := mk {
  Time : Z;          (* uint32 *)
  Basic : option BasicPhysiologicalData.t;
  Marker : byte;
  Reserved : byte;
  ClDriLvlSubt : Z   (* uint16 *)
}.

Definition UnmarshalBinary (data : list byte) : result t :=
  if len data <? 8 then Err ErrInvalidDataLength
  else
    let offset := 0 in
    b <- slice_from data offset ;;
    time <- LittleEndian.Uint32 b ;;
    let offset := offset + 4 in
    b <- slice_from data offset ;;
    basic <- BasicPhysiologicalData.UnmarshalBinary b ;;
    let offset := offset + BasicPhysiologicalData.Size basic in
    marker <- elem data offset ;;
    let offset := offset + 1 in
    reserved <- elem data offset ;;
    let offset := offset + 1 in
    b <- slice_from data offset ;;
    cl <- LittleEndian.Uint16 b ;;
    Ok {| Time := time; Basic := Some basic; Marker := marker;
          Reserved := reserved; ClDriLvlSubt := cl |}.
End PhysiologicalDatabaseRecord.

Module AuxiliaryPhysiologicalInfo.
Record t : Type := mk {
  NibpTime : Z;      (* uint32 *)
  Reserved1 : Z;     (* int16 *)
  CoTime : Z;        (* uint32 *)
  PcwpTime : Z;      (* uint32 *)
  PatBsa : Z;        (* int16 *)
  Reserved : list byte   (* [98]byte *)
}.

Definition Size : Z := 4 + 2 + 4 + 4 + 2 + 98.

Definition UnmarshalBinary (data : list byte) : result t :=
  if len data <? Size then Err ErrInvalidDataLength
  else
    let offset := 0 in
    b <- slice_from data offset ;;
    nibp <- LittleEndian.Uint32 b ;;
    let offset := offset + 4 in
    b <- slice_from data offset ;;
    r1 <- LittleEndian.Uint16 b ;;
    let offset := offset + 2 in
    b <- slice_from data offset ;;
    co <- LittleEndian.Uint32 b ;;
    let offset := offset + 4 in
    b <- slice_from data offset ;;
    pcwp <- LittleEndian.Uint32 b ;;
    let offset := offset + 4 in
    b <- slice_from data offset ;;
    bsa <- LittleEndian.Uint16 b ;;
    let offset := offset + 2 in
    b <- slice_from data offset ;;
    Ok {| NibpTime := nibp; Reserved1 := int16 r1; CoTime := co; PcwpTime := pcwp;
          PatBsa := int16 bsa; Reserved := copy (repeat Byte.x00 98) b |}.
Definition MarshalBinary (a : t) : result (list byte) :=
  buf <- make Byte.x00 Size ;;
  let offset := 0 in
  buf <- through buf offset (fun b => LittleEndian.PutUint32 b (NibpTime a)) ;;
  let offset := offset + 4 in
  buf <- through buf offset (fun b => LittleEndian.PutUint16 b (uint16 (Reserved1 a))) ;;
  let offset := offset + 2 in
  buf <- through buf offset (fun b => LittleEndian.PutUint32 b (CoTime a)) ;;
  let offset := offset + 4 in
  buf <- through buf offset (fun b => LittleEndian.PutUint32 b (PcwpTime a)) ;;
  let offset := offset + 4 in
  buf <- through buf offset (fun b => LittleEndian.PutUint16 b (uint16 (PatBsa a))) ;;
  let offset := offset + 2 in
  buf <- through buf offset (fun b => Ok (copy b (Reserved a))) ;;
  Ok buf.

(** The values of the Go type. *)
Record wf (a : t) : Prop := {
  wf_NibpTime : is_uint32 (NibpTime a);
  wf_Reserved1 : is_int16 (Reserved1 a);
  wf_CoTime : is_uint32 (CoTime a);
  wf_PcwpTime : is_uint32 (PcwpTime a);
  wf_PatBsa : is_int16 (PatBsa a);
  wf_Reserved : List.length (Reserved a) = 98%nat
}.

Definition IsValid (a : t) : bool :=
  (0 <? NibpTime a) || (0 <? CoTime a) || (0 <? PcwpTime a).
End AuxiliaryPhysiologicalInfo.

(** ** Data class of a physiological record *)


Definition PH_DATA_CLASS_BASIC : Z := 0.
Definition PH_DATA_CLASS_EXT1 : Z := 1.
Definition PH_DATA_CLASS_EXT2 : Z := 2.
Definition PH_DATA_CLASS_EXT3 : Z := 3.



Definition GetRequiredInterfaceLevel (dataClass : Z) : Z :=
  if dataClass =? PH_DATA_CLASS_BASIC then 1
  else if (dataClass =? PH_DATA_CLASS_EXT1) || (dataClass =? PH_DATA_CLASS_EXT2)
          || (dataClass =? PH_DATA_CLASS_EXT3) then 3
  else 1.

Definition IsDataClassSupported (dataClass interfaceLevel : Z) : bool :=
  let requiredLevel := GetRequiredInterfaceLevel dataClass in
  requiredLevel <=? interfaceLevel.

(** ** Parameter groups *)

Module GroupHeader.
Record t : Type := mk {
  Status : Z;        (* uint16 *)
  Label : Z          (* uint16 *)
}.

Definition Size : Z := 4.

Definition UnmarshalBinary (data : list byte) : result t :=
  if len data <? Size then Err ErrInvalidDataLength
  else
    b <- slice data 0 2 ;;
    status <- LittleEndian.Uint16 b ;;
    b <- slice data 2 4 ;;
    label <- LittleEndian.Uint16 b ;;
    Ok {| Status := status; Label := label |}.
End GroupHeader.

(** [int16(binary.LittleEndian.Uint16(data[offset:]))] *)
Definition read_int16 (data : list byte) (offset : Z) : result Z :=
  b <- slice_from data offset ;;
  u <- LittleEndian.Uint16 b ;;
  Ok (int16 u).

Module O2Group.
Record t : Type := mk { Header : GroupHeader.t; Et : Z; Fi : Z }.

Definition Size : Z := GroupHeader.Size + 4.

Definition UnmarshalBinary (data : list byte) : result t :=
  if len data <? Size then Err ErrInvalidDataLength
  else
    let offset := 0 in
    b <- slice_from data offset ;;
    hdr <- GroupHeader.UnmarshalBinary b ;;
    let offset := offset + GroupHeader.Size in
    et <- read_int16 data offset ;;
    let offset := offset + 2 in
    fi <- read_int16 data offset ;;
    Ok {| Header := hdr; Et := et; Fi := fi |}.
End O2Group.

Module N2OGroup.
Record t : Type := mk { Header : GroupHeader.t; Et : Z; Fi : Z }.

Definition Size : Z := GroupHeader.Size + 4.

Definition UnmarshalBinary (data : list byte) : result t :=
  if len data <? Size then Err ErrInvalidDataLength
  else
    let offset := 0 in
    b <- slice_from data offset ;;
    hdr <- GroupHeader.UnmarshalBinary b ;;
    let offset := offset + GroupHeader.Size in
    et <- read_int16 data offset ;;
    let offset := offset + 2 in
    fi <- read_int16 data offset ;;
    Ok {| Header := hdr; Et := et; Fi := fi |}.

Definition IsCalibrating (n : t) : bool :=
  negb (Z.land (GroupHeader.Status (Header n)) 4 =? 0).

Definition IsMeasurementOff (n : t) : bool :=
  negb (Z.land (GroupHeader.Status (Header n)) 8 =? 0).
End N2OGroup.

Module AnesthesiaAgentGroup.
Record t : Type := mk { Header : GroupHeader.t; Et : Z; Fi : Z; MacSum : Z }.

Definition Size : Z := GroupHeader.Size + 6.

Definition UnmarshalBinary (data : list byte) : result t :=
  if len data <? Size then Err ErrInvalidDataLength
  else
    let offset := 0 in
    b <- slice_from data offset ;;
    hdr <- GroupHeader.UnmarshalBinary b ;;
    let offset := offset + GroupHeader.Size in
    et <- read_int16 data offset ;;
    let offset := offset + 2 in
    fi <- read_int16 data offset ;;
    let offset := offset + 2 in
    mac <- read_int16 data offset ;;
    Ok {| Header := hdr; Et := et; Fi := fi; MacSum := mac |}.
End AnesthesiaAgentGroup.

Module FlowVolumeGroup.
Record t : Type := mk {
  Header : GroupHeader.t;
  Rr : Z; Ppeak : Z; Peep : Z; Pplat : Z;
  TvInsp : Z; TvExp : Z; Compliance : Z; MvExp : Z
}.

Definition Size : Z := GroupHeader.Size + 16.

Definition UnmarshalBinary (data : list byte) : result t :=
  if len data <? Size then Err ErrInvalidDataLength
  else
    let offset := 0 in
    b <- slice_from data offset ;;
    hdr <- GroupHeader.UnmarshalBinary b ;;
    let offset := offset + GroupHeader.Size in
    rr <- read_int16 data offset ;;
    let offset := offset + 2 in
    ppeak <- read_int16 data offset ;;
    let offset := offset + 2 in
    peep <- read_int16 data offset ;;
    let offset := offset + 2 in
    pplat <- read_int16 data offset ;;
    let offset := offset + 2 in
    tvinsp <- read_int16 data offset ;;
    let offset := offset + 2 in
    tvexp <- read_int16 data offset ;;
    let offset := offset + 2 in
    compliance <- read_int16 data offset ;;
    let offset := offset + 2 in
    mvexp <- read_int16 data offset ;;
    Ok {| Header := hdr; Rr := rr; Ppeak := ppeak; Peep := peep; Pplat := pplat;
          TvInsp := tvinsp; TvExp := tvexp; Compliance := compliance; MvExp := mvexp |}.

Definition GetTvBase (f : t) : Z :=
  Z.land (Z.shiftr (GroupHeader.Status (Header f)) 8) 3.

Definition GetTvBaseDescription (f : t) : string :=
  let b := GetTvBase f in
  if b =? 0 then "Atmospheric/ambient temperature and pressure, dry gas"
  else if b =? 1 then "Normal temperature and pressure, dry gas"
  else if b =? 2 then "Body temperature and pressure, saturated gas"
  else if b =? 3 then "Standard temperature and pressure, dry gas"
  else "Unknown TV base".
End FlowVolumeGroup.

Module COWedgeGroup.
Record t : Type := mk { Header : GroupHeader.t; Co : Z; BloodTemp : Z; Ref : Z; Pcwp : Z }.

Definition Size : Z := GroupHeader.Size + 8.

Definition UnmarshalBinary (data : list byte) : result t :=
  if len data <? Size then Err ErrInvalidDataLength
  else
    let offset := 0 in
    b <- slice_from data offset ;;
    hdr <- GroupHeader.UnmarshalBinary b ;;
    let offset := offset + GroupHeader.Size in
    co <- read_int16 data offset ;;
    let offset := offset + 2 in
    bt <- read_int16 data offset ;;
    let offset := offset + 2 in
    ref <- read_int16 data offset ;;
    let offset := offset + 2 in
    pcwp <- read_int16 data offset ;;
    Ok {| Header := hdr; Co := co; BloodTemp := bt; Ref := ref; Pcwp := pcwp |}.

Definition GetCOMode (c : t) : Z :=
  Z.land (Z.shiftr (GroupHeader.Label (Header c)) 2) 7.

Definition GetCOModeDescription (c : t) : string :=
  let m := GetCOMode c in
  if m =? 0 then "No mode"
  else if m =? 1 then "Bolus mode"
  else if m =? 2 then "Continuous mode"
  else if m =? 3 then "Reserved"
  else "Unknown mode".
End COWedgeGroup.

Module NMTGroup.
Record t : Type := mk { Header : GroupHeader.t; T1 : Z; Tratio : Z; Ptc : Z }.

Definition Size : Z := GroupHeader.Size + 6.

Definition UnmarshalBinary (data : list byte) : result t :=
  if len data <? Size then Err ErrInvalidDataLength
  else
    let offset := 0 in
    b <- slice_from data offset ;;
    hdr <- GroupHeader.UnmarshalBinary b ;;
    let offset := offset + GroupHeader.Size in
    t1 <- read_int16 data offset ;;
    let offset := offset + 2 in
    tratio <- read_int16 data offset ;;
    let offset := offset + 2 in
    ptc <- read_int16 data offset ;;
    Ok {| Header := hdr; T1 := t1; Tratio := tratio; Ptc := ptc |}.

Definition GetStimulusMode (n : t) : Z :=
  Z.land (Z.shiftr (GroupHeader.Status (Header n)) 2) 3.

Definition GetStimulusModeDescription (n : t) : string :=
  let m := GetStimulusMode n in
  if m =? 0 then "Train Of Four (TOF mode)"
  else if m =? 1 then "Double Burst (DB mode)"
  else if m =? 2 then "Single Twitch (ST mode)"
  else if m =? 3 then "Post-tetanic count"
  else "Unknown stimulus mode".

Definition GetPulseWidth (n : t) : Z :=
  Z.land (Z.shiftr (GroupHeader.Status (Header n)) 4) 3.

Definition GetPulseWidthDescription (n : t) : string :=
  let w := GetPulseWidth n in
  if w =? 0 then "not used"
  else if w =? 1 then "100 us"
  else if w =? 2 then "200 us"
  else if w =? 3 then "300 us"
  else "Unknown pulse width".

(** [Ptc] is an [int16]: [&] and [>>] act on its two's complement. *)
Definition GetPostTetanicCount (n : t) : Z := Z.land (Ptc n) 31.

Definition GetTOFCount (n : t) : Z := Z.land (Z.shiftr (Ptc n) 5) 15.

Definition GetStimulusCurrent (n : t) : Z := Z.land (Z.shiftr (Ptc n) 9) 127.
End NMTGroup.

Module ECGExtraGroup.
Record t : Type := mk { HrEcg : Z; HrMax : Z; HrMin : Z }.

Definition Size : Z := 6.

Definition UnmarshalBinary (data : list byte) : result t :=
  if len data <? Size then Err ErrInvalidDataLength
  else
    let offset := 0 in
    hr <- read_int16 data offset ;;
    let offset := offset + 2 in
    hrmax <- read_int16 data offset ;;
    let offset := offset + 2 in
    hrmin <- read_int16 data offset ;;
    Ok {| HrEcg := hr; HrMax := hrmax; HrMin := hrmin |}.
End ECGExtraGroup.

Module SvO2Group.
Record t : Type := mk { Header : GroupHeader.t; SvO2 : Z }.

Definition Size : Z := GroupHeader.Size + 2.

Definition UnmarshalBinary (data : list byte) : result t :=
  if len data <? Size then Err ErrInvalidDataLength
  else
    let offset := 0 in
    b <- slice_from data offset ;;
    hdr <- GroupHeader.UnmarshalBinary b ;;
    let offset := offset + GroupHeader.Size in
    v <- read_int16 data offset ;;
    Ok {| Header := hdr; SvO2 := v |}.
End SvO2Group.

(** ** Alarm status *)

Module AlarmDisplay.
Record t : Type := mk {
  Text : list byte;  (* [80]byte *)
  TextChanged : bool;
  Color : byte;
  ColorChanged : bool;
  Reserved : list Z  (* [6]int16 *)
}.

Definition zero : t :=
  {| Text := repeat Byte.x00 80; TextChanged := false; Color := Byte.x00;
     ColorChanged := false; Reserved := repeat 0 6 |}.

Definition Size : Z := 80 + 1 + 1 + 1 + 6 * 2.

Definition UnmarshalBinary (data : list byte) : result t :=
  if len data <? Size then Err ErrInvalidDataLength
  else
    let offset := 0 in
    b <- slice data offset (offset + 80) ;;
    let text := copy (repeat Byte.x00 80) b in
    let offset := offset + 80 in
    tc <- elem data offset ;;
    let offset := offset + 1 in
    color <- elem data offset ;;
    let offset := offset + 1 in
    cc <- elem data offset ;;
    let offset := offset + 1 in
    '(reserved, _) <- for_loop 6 0 (fun i '(reserved, offset) =>
        b <- slice_from data offset ;;
        u <- LittleEndian.Uint16 b ;;
        reserved <- set_elem reserved i (int16 u) ;;
        Ok (reserved, offset + 2)) (repeat 0 6, offset) ;;
    Ok {| Text := text; TextChanged := negb (byte.unsigned tc =? 0); Color := color;
          ColorChanged := negb (byte.unsigned cc =? 0); Reserved := reserved |}.

Definition GetAlarmPriority (a : t) : Z := byte.unsigned (Color a).

Definition IsActiveAlarm (a : t) : bool := DRI_PR1 <=? byte.unsigned (Color a).
(** The scan of [GetAlarmText] for the null terminator:
    [for i := 0; i < 80; i++ { if a.Text[i] == 0 { end = i; break }; end = i + 1 }],
    with [n] turns left. *)
Fixpoint text_end (text : list byte) (n : nat) (i end_ : Z) : Z :=
  match n with
  | O => end_
  | S n' =>
      if byte.unsigned (nth (Z.to_nat i) text Byte.x00) =? 0 then i
      else text_end text n' (i + 1) (i + 1)
  end.

(** A Go [string] is the list of its bytes. *)
Definition GetAlarmText (a : t) : list byte :=
  firstn (Z.to_nat (text_end (Text a) 80 0 0)) (Text a).

Definition SetAlarmText (a : t) (text : list byte) : t :=
  let cleared := repeat Byte.x00 80 in
  let copyLength := if 80 <? len text then 80 else len text in
  {| Text := copy cleared (firstn (Z.to_nat copyLength) text);
     TextChanged := TextChanged a; Color := Color a;
     ColorChanged := ColorChanged a; Reserved := Reserved a |}.
End AlarmDisplay.

Module AlarmStatusMessage.
Record t : Type := mk {
  Reserved : Z;      (* int16 *)
  SoundOnOff : bool;
  Reserved2 : Z;     (* int16 *)
  Reserved3 : Z;     (* int16 *)
  SilenceInfo : byte;
  AlDisp : list AlarmDisplay.t;   (* [5]AlarmDisplay *)
  Reserved4 : list Z              (* [5]int16 *)
}.

Definition AlDisp_at (a : t) (i : Z) : AlarmDisplay.t :=
  nth (Z.to_nat i) (AlDisp a) AlarmDisplay.zero.

Definition Size : Z := 2 + 1 + 2 + 2 + 1 + 5 * 93 + 5 * 2.

Definition UnmarshalBinary (data : list byte) : result t :=
  if len data <? Size then Err ErrInvalidDataLength
  else
    let offset := 0 in
    b <- slice_from data offset ;;
    reserved <- LittleEndian.Uint16 b ;;
    let offset := offset + 2 in
    sound <- elem data offset ;;
    let offset := offset + 1 in
    b <- slice_from data offset ;;
    reserved2 <- LittleEndian.Uint16 b ;;
    let offset := offset + 2 in
    b <- slice_from data offset ;;
    reserved3 <- LittleEndian.Uint16 b ;;
    let offset := offset + 2 in
    silence <- elem data offset ;;
    let offset := offset + 1 in
    '(aldisp, offset) <- for_loop 5 0 (fun i '(aldisp, offset) =>
        b <- slice_from data offset ;;
        d <- AlarmDisplay.UnmarshalBinary b ;;
        aldisp <- set_elem aldisp i d ;;
        Ok (aldisp, offset + AlarmDisplay.Size)) (repeat AlarmDisplay.zero 5, offset) ;;
    '(reserved4, _) <- for_loop 5 0 (fun i '(reserved4, offset) =>
        b <- slice_from data offset ;;
        u <- LittleEndian.Uint16 b ;;
        reserved4 <- set_elem reserved4 i (int16 u) ;;
        Ok (reserved4, offset + 2)) (repeat 0 5, offset) ;;
    Ok {| Reserved := int16 reserved; SoundOnOff := negb (byte.unsigned sound =? 0);
          Reserved2 := int16 reserved2; Reserved3 := int16 reserved3;
          SilenceInfo := silence; AlDisp := aldisp; Reserved4 := reserved4 |}.

Definition GetActiveAlarmCount (a : t) : Z :=
  fold_left (fun count i =>
               if AlarmDisplay.IsActiveAlarm (AlDisp_at a i) then count + 1 else count)
            [0; 1; 2; 3; 4] 0.

(** The returned pointer [&a.AlDisp[i]] is the index [i]; [nil] is
    [None]. The loop state is [(highestPriority, highestAlarm)]. *)
Definition GetHighestPriorityAlarm (a : t) : option Z :=
  snd (fold_left (fun '(highestPriority, highestAlarm) i =>
                    if AlarmDisplay.IsActiveAlarm (AlDisp_at a i)
                       && (byte.unsigned (AlarmDisplay.Color (AlDisp_at a i)) <? highestPriority)
                    then (byte.unsigned (AlarmDisplay.Color (AlDisp_at a i)), Some i)
                    else (highestPriority, highestAlarm))
                 [0; 1; 2; 3; 4] (255, None)).
Definition IsSoundOn (a : t) : bool := SoundOnOff a.

Definition IsSilenced (a : t) : bool := negb (byte.unsigned (SilenceInfo a) =? DRI_SI_NONE).
End AlarmStatusMessage.

Module AlarmSubrecords.
Record t : Type := mk { AlarmMsg : option AlarmStatusMessage.t }.

Definition zero : t := {| AlarmMsg := None |}.

Definition UnmarshalBinary (data : list byte) : result t :=
  if len data =? 0 then Ok zero
  else
    m <- AlarmStatusMessage.UnmarshalBinary data ;;
    Ok {| AlarmMsg := Some m |}.
End AlarmSubrecords.


(** ** Parsers

    A parser carries its diagnostics ([p.errors]) through every call:
    a method is a function of the list before the call that returns
    its outcome and the list after it. *)

Definition parser (A : Type) : Type := list string -> result A * list string.

Definition ret {A} (a : A) : parser A := fun errs => (Ok a, errs).

Definition lift {A} (r : result A) : parser A := fun errs => (r, errs).

Definition addError (msg : string) : parser unit := fun errs => (Ok tt, errs ++ [msg]).

Definition pbind {A B} (m : parser A) (k : A -> parser B) : parser B :=
  fun errs =>
    match m errs with
    | (Ok a, errs') => k a errs'
    | (Err e, errs') => (Err e, errs')
    | (Panic p, errs') => (Panic p, errs')
    end.

(** [x, err := m] followed by a test of [err]. *)
Definition try {A} (m : parser A) : parser (A + error) :=
  fun errs =>
    match m errs with
    | (Ok a, errs') => (Ok (inl a), errs')
    | (Err e, errs') => (Ok (inr e), errs')
    | (Panic p, errs') => (Panic p, errs')
    end.

Declare Scope parser_scope.
Delimit Scope parser_scope with parser.
Notation "x <- m ;; k" := (pbind m (fun x => k))
  (at level 61, m at next level, right associativity) : parser_scope.
Notation "m ;;; k" := (pbind m (fun _ => k))
  (at level 61, right associativity) : parser_scope.

Fixpoint pfor_loop {S : Type} (n : nat) (i : Z) (body : Z -> S -> parser S) (s : S)
  : parser S :=
  match n with
  | O => ret s
  | S n' => pbind (body i s) (pfor_loop n' (i + 1) body)
  end.

(** *** Alarm records *)

Record AlarmSubrecordJSON : Type := {
  as_Index : Z;
  as_Offset : Z;
  as_Type : byte;
  as_TypeName : string;
  as_IsValid : bool;
  as_IsEndOfList : bool;
  as_Data : option AlarmStatusMessage.t   (* the map of [AlarmStatusMessage.ToJSON] *)
}.

(** [AlarmJSON] without [Timestamp], the rendering of [UnixTimestamp]
    in the local time zone. *)
Record AlarmJSON : Type := {
  aj_UnixTimestamp : Z;
  aj_RecordType : string;
  aj_RecordNumber : Z;
  aj_DriLevel : Z;
  aj_DriLevelDesc : string;
  aj_PlugID : Z;
  aj_MainType : Z;
  aj_MainTypeName : string;
  aj_Subrecords : list AlarmSubrecordJSON;
  aj_AlarmData : option AlarmSubrecords.t;  (* [None]: the empty map *)
  aj_IsValid : bool;
  aj_ParseErrors : list string
}.

Definition aj_with_Subrecords (j : AlarmJSON) (l : list AlarmSubrecordJSON) : AlarmJSON :=
  {| aj_UnixTimestamp := aj_UnixTimestamp j; aj_RecordType := aj_RecordType j;
     aj_RecordNumber := aj_RecordNumber j; aj_DriLevel := aj_DriLevel j;
     aj_DriLevelDesc := aj_DriLevelDesc j; aj_PlugID := aj_PlugID j;
     aj_MainType := aj_MainType j; aj_MainTypeName := aj_MainTypeName j;
     aj_Subrecords := l; aj_AlarmData := aj_AlarmData j;
     aj_IsValid := aj_IsValid j; aj_ParseErrors := aj_ParseErrors j |}.

Definition aj_with_AlarmData (j : AlarmJSON) (d : option AlarmSubrecords.t) : AlarmJSON :=
  {| aj_UnixTimestamp := aj_UnixTimestamp j; aj_RecordType := aj_RecordType j;
     aj_RecordNumber := aj_RecordNumber j; aj_DriLevel := aj_DriLevel j;
     aj_DriLevelDesc := aj_DriLevelDesc j; aj_PlugID := aj_PlugID j;
     aj_MainType := aj_MainType j; aj_MainTypeName := aj_MainTypeName j;
     aj_Subrecords := aj_Subrecords j; aj_AlarmData := d;
     aj_IsValid := aj_IsValid j; aj_ParseErrors := aj_ParseErrors j |}.

Definition aj_with_IsValid (j : AlarmJSON) (b : bool) : AlarmJSON :=
  {| aj_UnixTimestamp := aj_UnixTimestamp j; aj_RecordType := aj_RecordType j;
     aj_RecordNumber := aj_RecordNumber j; aj_DriLevel := aj_DriLevel j;
     aj_DriLevelDesc := aj_DriLevelDesc j; aj_PlugID := aj_PlugID j;
     aj_MainType := aj_MainType j; aj_MainTypeName := aj_MainTypeName j;
     aj_Subrecords := aj_Subrecords j; aj_AlarmData := aj_AlarmData j;
     aj_IsValid := b; aj_ParseErrors := aj_ParseErrors j |}.

Definition aj_with_ParseErrors (j : AlarmJSON) (l : list string) : AlarmJSON :=
  {| aj_UnixTimestamp := aj_UnixTimestamp j; aj_RecordType := aj_RecordType j;
     aj_RecordNumber := aj_RecordNumber j; aj_DriLevel := aj_DriLevel j;
     aj_DriLevelDesc := aj_DriLevelDesc j; aj_PlugID := aj_PlugID j;
     aj_MainType := aj_MainType j; aj_MainTypeName := aj_MainTypeName j;
     aj_Subrecords := aj_Subrecords j; aj_AlarmData := aj_AlarmData j;
     aj_IsValid := aj_IsValid j; aj_ParseErrors := l |}.

Module AlarmParser.
Local Open Scope parser_scope.

Definition getAlarmSubrecordTypeName (subrecordType : byte) : string :=
  let ty := byte.unsigned subrecordType in
  if ty =? DRI_AL_STATUS then "Alarm Status"
  else if ty =? DRI_EOL_SUBR_LIST then "End of List"
  else ("Unknown Type " ++ itoa ty)%string.

Definition parseAlarmStatusData (data : list byte) : parser (option AlarmStatusMessage.t) :=
  r <- try (lift (AlarmStatusMessage.UnmarshalBinary data)) ;;
  match r with
  | inr err =>
      addError ("failed to parse alarm status message: " ++ Error err) ;;;
      ret None
  | inl alarmMsg => ret (Some alarmMsg)
  end.

Definition parseSubrecordData (subrecordType : byte) (data : list byte)
  : parser (option AlarmStatusMessage.t) :=
  if byte.unsigned subrecordType =? DRI_AL_STATUS then parseAlarmStatusData data
  else
    addError ("unknown alarm subrecord type: " ++ itoa (byte.unsigned subrecordType)) ;;;
    ret None.

(** The entry of slot [i], with the decoded body [d] if any. *)
Definition subrecord_entry (header : DatexHeader.t) (i : Z)
    (d : option AlarmStatusMessage.t) : AlarmSubrecordJSON :=
  let srDesc := DatexHeader.SrDesc_at header i in
  {| as_Index := i;
     as_Offset := SrDesc.SrOffset srDesc;
     as_Type := SrDesc.SrType srDesc;
     as_TypeName := getAlarmSubrecordTypeName (SrDesc.SrType srDesc);
     as_IsValid := SrDesc.IsValid srDesc;
     as_IsEndOfList := SrDesc.IsEndOfList srDesc;
     as_Data := d |}.

(** The body decode of slot [i]: [None] leaves [Data] unset. *)
Definition subrecord_body (header : DatexHeader.t) (data : list byte) (i : Z)
  : parser (option AlarmStatusMessage.t) :=
  let srDesc := DatexHeader.SrDesc_at header i in
  if SrDesc.IsValid srDesc && (0 <=? SrDesc.SrOffset srDesc)
     && (SrDesc.SrOffset srDesc <? len data)
  then
    b <- lift (slice_from data (SrDesc.SrOffset srDesc)) ;;
    parseSubrecordData (SrDesc.SrType srDesc) b
  else ret None.

Definition parseAlarmSubrecords (header : DatexHeader.t) (data : list byte)
    (alarmJSON : AlarmJSON) : parser AlarmJSON :=
  pfor_loop 8 0 (fun i alarmJSON =>
    d <- subrecord_body header data i ;;
    ret (aj_with_Subrecords alarmJSON
           (aj_Subrecords alarmJSON ++ [subrecord_entry header i d])))
    alarmJSON.

(** The search of [parseAlarmData] for the first alarm status
    descriptor: [i] counts up from the current slot. *)
Fixpoint find_alarm_subrecord (n : nat) (i : Z) (header : DatexHeader.t)
    (data : list byte) : parser (option AlarmSubrecords.t) :=
  match n with
  | O => ret None
  | S n' =>
      let srDesc := DatexHeader.SrDesc_at header i in
      if SrDesc.IsValid srDesc && (byte.unsigned (SrDesc.SrType srDesc) =? DRI_AL_STATUS)
      then
        if (0 <=? SrDesc.SrOffset srDesc) && (SrDesc.SrOffset srDesc <? len data)
        then
          b <- lift (slice_from data (SrDesc.SrOffset srDesc)) ;;
          r <- try (lift (AlarmSubrecords.UnmarshalBinary b)) ;;
          match r with
          | inr err =>
              addError ("failed to parse alarm subrecords: " ++ Error err) ;;;
              lift (Err err)
          | inl sub => ret (Some sub)
          end
        else ret (Some AlarmSubrecords.zero)
      else find_alarm_subrecord n' (i + 1) header data
  end.

Definition parseAlarmData (header : DatexHeader.t) (data : list byte)
    (alarmJSON : AlarmJSON) : parser AlarmJSON :=
  alarmSubrecord <- find_alarm_subrecord 8 0 header data ;;
  match alarmSubrecord with
  | Some sub => ret (aj_with_AlarmData alarmJSON (Some sub))
  | None => ret alarmJSON
  end.

Definition ParseAlarmData (data : list byte) : parser AlarmJSON :=
  if len data <? 32
  then addError "data too short for alarm record" ;;; lift (Err ErrInvalidDataLength)
  else
    r <- try (lift (b <- slice_to data 32 ;; DatexHeader.UnmarshalBinary b)%go) ;;
    match r with
    | inr err =>
        addError ("failed to parse header: " ++ Error err) ;;;
        lift (Err err)
    | inl header =>
        if negb (DatexHeader.RMainType header =? DRI_MT_ALARM)
        then
          addError ("expected alarm record type " ++ itoa DRI_MT_ALARM ++ ", got "
                    ++ itoa (DatexHeader.RMainType header)) ;;;
          lift (Err (Errorf "invalid record type for alarm data"))
        else
          let alarmJSON :=
            {| aj_UnixTimestamp := DatexHeader.RTime header;
               aj_RecordType := "Alarm Data";
               aj_RecordNumber := byte.unsigned (DatexHeader.RNbr header);
               aj_DriLevel := byte.unsigned (DatexHeader.DriLevel header);
               aj_DriLevelDesc := DatexHeader.GetDriLevelDescription header;
               aj_PlugID := DatexHeader.PlugID header;
               aj_MainType := DatexHeader.RMainType header;
               aj_MainTypeName := DatexHeader.GetMainTypeName header;
               aj_Subrecords := [];
               aj_AlarmData := None;
               aj_IsValid := true;
               aj_ParseErrors := [] |} in
          r <- try (parseAlarmSubrecords header data alarmJSON) ;;
          alarmJSON <- match r with
                       | inr err =>
                           addError ("failed to parse subrecords: " ++ Error err) ;;;
                           ret (aj_with_IsValid alarmJSON false)
                       | inl alarmJSON => ret alarmJSON
                       end ;;
          r <- try (parseAlarmData header data alarmJSON) ;;
          alarmJSON <- match r with
                       | inr err =>
                           addError ("failed to parse alarm data: " ++ Error err) ;;;
                           ret (aj_with_IsValid alarmJSON false)
                       | inl alarmJSON => ret alarmJSON
                       end ;;
          fun errs => (Ok (aj_with_ParseErrors alarmJSON errs), errs)
    end.

(** The loop of [ParseMultipleAlarms]. Every turn that goes round
    again advances [offset] by at least 1, so [len data - offset]
    turns always suffice ([alarms_loop_fuel]). *)
Fixpoint alarms_loop (fuel : nat) (data : list byte) (offset : Z)
    (alarms : list AlarmJSON) : parser (list AlarmJSON) :=
  match fuel with
  | O => ret alarms
  | S fuel' =>
      if negb (offset <? len data) then ret alarms
      else
        rest <- lift (slice_from data offset) ;;
        if len rest <? 32 then ret alarms
        else
          r <- try (lift (b <- slice data offset (offset + 32) ;;
                          DatexHeader.UnmarshalBinary b)%go) ;;
          match r with
          | inr err =>
              addError ("failed to parse header at offset " ++ itoa offset ++ ": "
                        ++ Error err) ;;;
              ret alarms
          | inl header =>
              let recordLength := DatexHeader.RLen header in
              if (recordLength <=? 0) || (len data <? offset + recordLength)
              then
                addError ("invalid record length " ++ itoa recordLength ++ " at offset "
                          ++ itoa offset) ;;;
                ret alarms
              else
                b <- lift (slice data offset (offset + recordLength)) ;;
                r <- try (ParseAlarmData b) ;;
                match r with
                | inr err =>
                    addError ("failed to parse alarm record at offset " ++ itoa offset
                              ++ ": " ++ Error err) ;;;
                    alarms_loop fuel' data (offset + recordLength) alarms
                | inl alarmJSON =>
                    alarms_loop fuel' data (offset + recordLength) (alarms ++ [alarmJSON])
                end
          end
  end.

Definition ParseMultipleAlarms (data : list byte) : parser (list AlarmJSON) :=
  alarms_loop (List.length data) data 0 [].
End AlarmParser.


(** *** Trend records *)

Module DatexRecord.
(** Modelled from the spec: the declaration of [DatexRecord] is not
    part of the files modelled here. A record "owns a [DatexHeader] and
    a raw body byte range ([Data])"; these are the two fields the
    parsers read ([record.Header], [record.Data]). *)
Record t : Type := mk {
  Header : DatexHeader.t;
  Data : list byte
}.
End DatexRecord.

Inductive SubrecordData : Type :=
| PhdbJSON (r : PhysiologicalDatabaseRecord.t)     (* [PhysiologicalDatabaseRecord.ToJSON] *)
| AuxJSON (a : AuxiliaryPhysiologicalInfo.t)       (* [AuxiliaryPhysiologicalInfo.ToJSON] *)
| RawJSON (raw_data : list byte) (size : Z).       (* the map of the default case *)

Record SubrecordJSON : Type := {
  sr_Index : Z;
  sr_Offset : Z;
  sr_Type : byte;
  sr_TypeName : string;
  sr_IsValid : bool;
  sr_IsEndOfList : bool;
  sr_Data : option SubrecordData
}.

Module TrendParser.
Local Open Scope parser_scope.

Definition getSubrecordTypeName (subrecordType : byte) : string :=
  let ty := byte.unsigned subrecordType in
  if ty =? DRI_PH_DISPL then "Displayed Values"
  else if ty =? DRI_PH_10S_TREND then "10 Second Trended Values"
  else if ty =? DRI_PH_60S_TREND then "60 Second Trended Values"
  else if ty =? DRI_PH_AUX_INFO then "Auxiliary Information"
  else if ty =? DRI_EOL_SUBR_LIST then "End of List"
  else ("Unknown Type " ++ itoa ty)%string.

Definition parsePhysiologicalDatabaseRecord (data : list byte)
  : parser (option SubrecordData) :=
  if len data <? 8
  then addError "Physiological database record too short" ;;; ret None
  else
    r <- try (lift (PhysiologicalDatabaseRecord.UnmarshalBinary data)) ;;
    match r with
    | inr err =>
        addError ("Failed to parse physiological database record: " ++ Error err) ;;;
        ret None
    | inl phRecord => ret (Some (PhdbJSON phRecord))
    end.

Definition parseAuxiliaryPhysiologicalInfo (data : list byte)
  : parser (option SubrecordData) :=
  if len data <? 114
  then addError "Auxiliary physiological info too short" ;;; ret None
  else
    r <- try (lift (AuxiliaryPhysiologicalInfo.UnmarshalBinary data)) ;;
    match r with
    | inr err =>
        addError ("Failed to parse auxiliary physiological info: " ++ Error err) ;;;
        ret None
    | inl auxInfo => ret (Some (AuxJSON auxInfo))
    end.

Definition parseSubrecordData (subrecordType : byte) (data : list byte)
  : parser (option SubrecordData) :=
  let ty := byte.unsigned subrecordType in
  if (ty =? DRI_PH_DISPL) || (ty =? DRI_PH_10S_TREND) || (ty =? DRI_PH_60S_TREND)
  then parsePhysiologicalDatabaseRecord data
  else if ty =? DRI_PH_AUX_INFO then parseAuxiliaryPhysiologicalInfo data
  else ret (Some (RawJSON data (len data))).

(** The entry of slot [i], with the decoded body [d] if any. *)
Definition subrecord_entry (record : DatexRecord.t) (i : Z) (d : option SubrecordData)
  : SubrecordJSON :=
  let srDesc := DatexHeader.SrDesc_at (DatexRecord.Header record) i in
  {| sr_Index := i;
     sr_Offset := SrDesc.SrOffset srDesc;
     sr_Type := SrDesc.SrType srDesc;
     sr_TypeName := getSubrecordTypeName (SrDesc.SrType srDesc);
     sr_IsValid := SrDesc.IsValid srDesc;
     sr_IsEndOfList := SrDesc.IsEndOfList srDesc;
     sr_Data := d |}.

(** The body decode of slot [i]: [None] leaves [Data] unset. *)
Definition subrecord_body (record : DatexRecord.t) (i : Z) : parser (option SubrecordData) :=
  let srDesc := DatexHeader.SrDesc_at (DatexRecord.Header record) i in
  if SrDesc.IsValid srDesc
  then
    if SrDesc.SrOffset srDesc <? len (DatexRecord.Data record)
    then
      subrecordData <- lift (slice_from (DatexRecord.Data record)
                                        (SrDesc.SrOffset srDesc)) ;;
      parseSubrecordData (SrDesc.SrType srDesc) subrecordData
    else ret None
  else ret None.

(** [parseSubrecords] appends to [trendJSON.Subrecords]; the list is
    the only part of [trendJSON] it touches. *)
Definition parseSubrecords (record : DatexRecord.t) (subrecords : list SubrecordJSON)
  : parser (list SubrecordJSON) :=
  pfor_loop 8 0 (fun i subrecords =>
    d <- subrecord_body record i ;;
    ret (subrecords ++ [subrecord_entry record i d]))
    subrecords.

Section Missing.
(** Used by [ParseTrendData] and declared outside the files modelled
    here: the decoder of a whole record, the validity test of a
    header, and the decoder of the physiological subrecords (whose
    result fills [trendJSON.Groups]). *)
Variable DatexRecord_UnmarshalBinary : list byte -> result DatexRecord.t.
Variable DatexHeader_IsValid : DatexHeader.t -> bool.
Variable PhysiologicalSubrecords : Type.
Variable PhysiologicalSubrecords_UnmarshalBinary :
  list byte -> result PhysiologicalSubrecords.

(** [TrendJSON] without [Timestamp], the rendering of
    [UnixTimestamp] in the local time zone. *)
Record TrendJSON : Type := {
  tj_UnixTimestamp : Z;
  tj_RecordType : string;
  tj_RecordNumber : Z;
  tj_DriLevel : Z;
  tj_DriLevelDesc : string;
  tj_PlugID : Z;
  tj_MainType : Z;
  tj_MainTypeName : string;
  tj_Subrecords : list SubrecordJSON;
  tj_Groups : option PhysiologicalSubrecords;   (* [None]: the empty map *)
  tj_IsValid : bool;
  tj_ParseErrors : list string
}.

(** [parsePhysiologicalData] fills [trendJSON.Groups]. *)
Definition parsePhysiologicalData (record : DatexRecord.t)
  : parser (option PhysiologicalSubrecords) :=
  r <- try (lift (PhysiologicalSubrecords_UnmarshalBinary (DatexRecord.Data record))) ;;
  match r with
  | inr err =>
      addError ("Failed to parse physiological subrecords: " ++ Error err) ;;;
      ret None
  | inl phSubrecords => ret (Some phSubrecords)
  end.

Definition ParseTrendData (data : list byte) : parser TrendJSON :=
  fun _ =>
  (if len data <? 32
   then lift (Err (Errorf ("data too short for trend record: " ++ itoa (len data)
                           ++ " bytes")))
   else
     r <- try (lift (DatexRecord_UnmarshalBinary data)) ;;
     match r with
     | inr err =>
         addError ("Failed to parse Datex-Ohmeda record: " ++ Error err) ;;;
         lift (Err err)
     | inl record =>
         let header := DatexRecord.Header record in
         subrecords <- parseSubrecords record [] ;;
         groups <- (if DatexHeader.RMainType header =? DRI_MT_PHDB
                    then parsePhysiologicalData record
                    else ret None) ;;
         fun errs =>
           (Ok {| tj_UnixTimestamp := DatexHeader.RTime header;
                  tj_RecordType := "Trend Data";
                  tj_RecordNumber := byte.unsigned (DatexHeader.RNbr header);
                  tj_DriLevel := byte.unsigned (DatexHeader.DriLevel header);
                  tj_DriLevelDesc := DatexHeader.GetDriLevelDescription header;
                  tj_PlugID := DatexHeader.PlugID header;
                  tj_MainType := DatexHeader.RMainType header;
                  tj_MainTypeName := DatexHeader.GetMainTypeName header;
                  tj_Subrecords := subrecords;
                  tj_Groups := groups;
                  tj_IsValid := DatexHeader_IsValid header;
                  tj_ParseErrors := errs |}, errs)
     end) [].

(** The loop of [ParseMultipleTrends]; [len data - offset] turns
    always suffice ([trends_loop_fuel]). *)
Fixpoint trends_loop (fuel : nat) (data : list byte) (offset : Z)
    (trends : list TrendJSON) : parser (list TrendJSON) :=
  match fuel with
  | O => ret trends
  | S fuel' =>
      if negb (offset <? len data) then ret trends
      else if len data <? offset + 2 then ret trends
      else
        recordLen <- lift (b <- slice data offset (offset + 2) ;;
                           LittleEndian.Uint16 b)%go ;;
        if (recordLen <=? 0) || (len data <? offset + recordLen) then ret trends
        else
          trendData <- lift (slice data offset (offset + recordLen)) ;;
          r <- try (ParseTrendData trendData) ;;
          match r with
          | inr err =>
              addError ("Failed to parse trend at offset " ++ itoa offset ++ ": "
                        ++ Error err) ;;;
              trends_loop fuel' data (offset + recordLen) trends
          | inl trend =>
              trends_loop fuel' data (offset + recordLen) (trends ++ [trend])
          end
  end.

(** One turn of the loop on a record [r] found at [offset]. *)
Definition trends_turn (fuel : nat) (data r : list byte) (offset : Z)
    (trends : list TrendJSON) (errs : list string)
  : result (list TrendJSON) * list string :=
  match ParseTrendData r errs with
  | (Ok trend, errs') =>
      trends_loop fuel data (offset + len r) (trends ++ [trend]) errs'
  | (Err err, errs') =>
      trends_loop fuel data (offset + len r) trends
        (errs' ++ [("Failed to parse trend at offset " ++ itoa offset ++ ": "
                    ++ Error err)%string])
  | (Panic p, errs') => (Panic p, errs')
  end.

Definition ParseMultipleTrends (data : list byte) : parser (list TrendJSON) :=
  trends_loop (List.length data) data 0 [].
End Missing.
End TrendParser.

(** ** Validators and the waveform splitter *)

Definition DRI_LEVEL_95 : Z := 2.
Definition DRI_LEVEL_06 : Z := 12.

(** [ValidateTrendData] *)
Definition ValidateTrendData (data : list byte) : result unit :=
  if len data <? 32
  then Err (Errorf ("data too short for trend record: " ++ itoa (len data) ++ " bytes"))
  else
    b <- slice data 0 2 ;;
    recordLen <- LittleEndian.Uint16 b ;;
    if (recordLen <=? 0) || (len data <? recordLen)
    then Err (Errorf ("invalid record length: " ++ itoa recordLen))
    else
      driLevel <- elem data 3 ;;
      if (byte.unsigned driLevel <? DRI_LEVEL_95) || (DRI_LEVEL_06 <? byte.unsigned driLevel)
      then Err (Errorf ("invalid DRI level: " ++ itoa (byte.unsigned driLevel)))
      else
        b <- slice data 28 30 ;;
        u <- LittleEndian.Uint16 b ;;
        let mainType := int16 u in
        if mainType <? 0
        then Err (Errorf ("invalid main type: " ++ itoa mainType))
        else Ok tt.

(** [ValidateAlarmData] *)
Definition ValidateAlarmData (data : list byte) : result unit :=
  if len data <? 32 then Err (Errorf "data too short for alarm record")
  else
    b <- slice_to data 32 ;;
    match DatexHeader.UnmarshalBinary b with
    | Panic p => Panic p
    | Err err => Err (Errorf ("invalid header: " ++ Error err))
    | Ok header =>
        if negb (DatexHeader.RMainType header =? DRI_MT_ALARM)
        then Err (Errorf ("expected alarm record type " ++ itoa DRI_MT_ALARM ++ ", got "
                          ++ itoa (DatexHeader.RMainType header)))
        else if (DatexHeader.RLen header <=? 0) || (len data <? DatexHeader.RLen header)
        then Err (Errorf ("invalid record length: " ++ itoa (DatexHeader.RLen header)))
        else Ok tt
    end.

Section WaveformStream.
Variable DRI_WF_PLETH : Z.

(** The loop of [ParseMultipleWaveforms]: a turn goes round again only
    after a waveform of at least 6 bytes has been decoded, so
    [len data - offset] turns always suffice ([waveforms_loop_fuel]).
    Any error returns [nil] for the results. *)
Fixpoint waveforms_loop (fuel : nat) (parser : WaveformParser) (data : list byte)
    (offset : Z) (results : list WaveformJSON) : result (list WaveformJSON) :=
  match fuel with
  | O => Ok results
  | S fuel' =>
      if negb (offset <? len data) then Ok results
      else if len data <? offset + 6 then Ok results
      else
        b <- slice data offset (offset + 6) ;;
        match WaveformHeader.UnmarshalBinary b with
        | Panic p => Panic p
        | Err err =>
            Err (Errorf ("failed to parse header at offset " ++ itoa offset ++ ": "
                         ++ Error err))
        | Ok header =>
            let waveformLength := 6 + WaveformHeader.ActLen header * 2 in
            if len data <? offset + waveformLength
            then Err (Errorf ("incomplete waveform data at offset " ++ itoa offset))
            else
              waveformData <- slice data offset (offset + waveformLength) ;;
              match ParseWaveformData DRI_WF_PLETH parser waveformData with
              | Panic p => Panic p
              | Err err =>
                  Err (Errorf ("failed to parse waveform at offset " ++ itoa offset ++ ": "
                               ++ Error err))
              | Ok waveform =>
                  waveforms_loop fuel' parser data (offset + waveformLength)
                    (results ++ [waveform])
              end
        end
  end.

Definition ParseMultipleWaveforms (data : list byte) (subrecordType : Z)
  : result (list WaveformJSON) :=
  waveforms_loop (List.length data) (NewWaveformParser DRI_WF_PLETH subrecordType) data 0 [].
End WaveformStream.

(** ** Sample inputs *)

Definition bytes_of (l : list Z) : list byte := map byte.of_Z l.

Definition zeros (n : nat) : list byte := repeat Byte.x00 n.

(** A header with non-zero reserved fields, a negative main type and
    descriptors at the ends of the [int16] range. *)
Definition sample_header : DatexHeader.t :=
  DatexHeader.mk 40 Byte.x01 Byte.x06 12345 1700000000 Byte.x00 Byte.x07 513 (-2)
    [SrDesc.mk 0 Byte.x01; SrDesc.mk (-1) Byte.x10; SrDesc.mk 300 Byte.xff;
     SrDesc.mk 0 Byte.xff; SrDesc.mk 0 Byte.xff; SrDesc.mk 0 Byte.xff;
     SrDesc.mk (-32768) Byte.xff; SrDesc.mk 32767 Byte.x13].




(** ** The header layout in the words of the interface description

    Offsets 0:2 [RLen] (i16), 2 [RNbr], 3 [DriLevel], 4:6 [PlugID],
    6:10 [RTime], 10 [NSubnet], 11 [Reserved2], 12:14 [Reserved3],
    14:16 [RMainType] (i16), 16:40 eight descriptors of 3 bytes
    (offset i16, type u8), all little-endian. *)

Definition u16_at (data : list byte) (off : nat) : Z :=
  le_combine (firstn 2 (skipn off data)).

Definition u32_at (data : list byte) (off : nat) : Z :=
  le_combine (firstn 4 (skipn off data)).

Definition byte_at (data : list byte) (off : nat) : byte := nth off data Byte.x00.

Definition descriptor_at (data : list byte) (i : nat) : SrDesc.t :=
  {| SrDesc.SrOffset := int16 (u16_at data (16 + 3 * i));
     SrDesc.SrType := byte_at data (18 + 3 * i) |}.

Definition fixed_layout (data : list byte) : DatexHeader.t :=
  {| DatexHeader.RLen := int16 (u16_at data 0);
     DatexHeader.RNbr := byte_at data 2;
     DatexHeader.DriLevel := byte_at data 3;
     DatexHeader.PlugID := u16_at data 4;
     DatexHeader.RTime := u32_at data 6;
     DatexHeader.NSubnet := byte_at data 10;
     DatexHeader.Reserved2 := byte_at data 11;
     DatexHeader.Reserved3 := u16_at data 12;
     DatexHeader.RMainType := int16 (u16_at data 14);
     DatexHeader.SrDesc := map (descriptor_at data) (seq 0 8) |}.

(** ** The waveform conversion in the words of the testable property

    Control codes are the samples [<= -32000]; the divisor is 100 for
    the invasive pressure, plethysmograph and gas types, and 1 for the
    12-lead ECG and for every other type. *)

Definition type_divisor (DRI_WF_PLETH subrecordType : Z) : float :=
  if existsb (Z.eqb subrecordType)
       [DRI_WF_INVP5; DRI_WF_INVP6; DRI_WF_INVP7; DRI_WF_INVP8;
        DRI_WF_PLETH; DRI_WF_PLETH_2;
        DRI_WF_CO2; DRI_WF_O2; DRI_WF_N2O; DRI_WF_AA]
  then 100%float else 1%float.

(** The sample count a buffer declares: its first two bytes read as a
    little-endian [int16]. *)
Definition declared_ActLen (data : list byte) : Z := int16 (le_combine (firstn 2 data)).

(** The sub-header at the start of a buffer, field by field. *)
Definition wave_header (data : list byte) : WaveformHeader.t :=
  {| WaveformHeader.ActLen := declared_ActLen data;
     WaveformHeader.Status := u16_at data 2;
     WaveformHeader.Label := u16_at data 4 |}.

(** A test run over every [int16], by its two bytes. *)
Definition all_int16 (p : Z -> bool) : bool :=
  forallb (fun hi => forallb (fun lo => p (256 * Z.of_nat hi + Z.of_nat lo - 32768))
                             (seq 0 256))
          (seq 0 256).

Definition div_one_is_id (s : Z) : bool :=
  PrimFloat.Leibniz.eqb (PrimFloat.div (float64 s) 1%float) (float64 s).

(** Sample buffers: three samples declared and delivered; three
    declared, two and a half delivered; minus one declared. *)
Definition wave_ok : list byte := bytes_of [3; 0; 1; 0; 0; 0; 196; 9; 0; 131; 100; 0].
Definition wave_short : list byte := bytes_of [3; 0; 1; 0; 0; 0; 196; 9; 0; 131; 100].
Definition wave_negative : list byte := bytes_of [255; 255; 1; 0; 0; 0; 196; 9; 0; 131].

(** An alarm record of 40 bytes: [RLen = 40], main type 4, every
    descriptor an end-of-list sentinel. *)
Definition alarm_record : list byte :=
  bytes_of [40; 0; 1; 6; 0; 0; 0; 0; 0; 0; 0; 0; 0; 0; 4; 0;
            0; 0; 255; 0; 0; 255; 0; 0; 255; 0; 0; 255;
            0; 0; 255; 0; 0; 255; 0; 0; 255; 0; 0; 255].

(** The same record with main type 0 (physiological data). *)
Definition phdb_record : list byte :=
  bytes_of [40; 0; 1; 6; 0; 0; 0; 0; 0; 0; 0; 0; 0; 0; 0; 0;
            0; 0; 255; 0; 0; 255; 0; 0; 255; 0; 0; 255;
            0; 0; 255; 0; 0; 255; 0; 0; 255; 0; 0; 255].

(** A record of 40 bytes that declares a length of 1000. *)
Definition overlong_record (mainType : Z) : list byte :=
  bytes_of [232; 3; 2; 6; 0; 0; 0; 0; 0; 0; 0; 0; 0; 0; mainType; 0;
            0; 0; 255; 0; 0; 255; 0; 0; 255; 0; 0; 255;
            0; 0; 255; 0; 0; 255; 0; 0; 255; 0; 0; 255].

(** Three records, the second with a declared length beyond the end
    of the buffer. *)
Definition alarm_stream3 : list byte := alarm_record ++ overlong_record 4 ++ alarm_record.
Definition trend_stream3 : list byte := phdb_record ++ overlong_record 0 ++ phdb_record.

(** A header whose first descriptor is [{offset, type}] and whose
    other seven are end-of-list sentinels. *)
Definition header_with_slot0 (offset : Z) (type : byte) : DatexHeader.t :=
  DatexHeader.mk 40 Byte.x01 Byte.x06 0 0 Byte.x00 Byte.x00 0 0
    (SrDesc.mk offset type :: repeat (SrDesc.mk 0 Byte.xff) 7).

Definition empty_AlarmJSON : AlarmJSON :=
  {| aj_UnixTimestamp := 0; aj_RecordType := "Alarm Data"; aj_RecordNumber := 1;
     aj_DriLevel := 6; aj_DriLevelDesc := "2001 '01"; aj_PlugID := 0;
     aj_MainType := 4; aj_MainTypeName := "Alarm Data"; aj_Subrecords := [];
     aj_AlarmData := None; aj_IsValid := true; aj_ParseErrors := [] |}.

(** The entries a scan appends for the slots [i], [i+1], ... given
    the body decoded for each, and a property of each slot's body. *)
Fixpoint entries_from {D E : Type} (entry : Z -> D -> E) (i : Z) (ds : list D) : list E :=
  match ds with
  | [] => []
  | d :: ds' => entry i d :: entries_from entry (i + 1) ds'
  end.

Fixpoint all_from {D : Type} (P : Z -> D -> Prop) (i : Z) (ds : list D) : Prop :=
  match ds with
  | [] => True
  | d :: ds' => P i d /\ all_from P (i + 1) ds'
  end.

(** When the alarm scan may decode the body of slot [i], and when the
    trend scan may. *)
Definition alarm_slot_decodable (header : DatexHeader.t) (data : list byte) (i : Z) : Prop :=
  SrDesc.IsEndOfList (DatexHeader.SrDesc_at header i) = false /\
  0 <= SrDesc.SrOffset (DatexHeader.SrDesc_at header i) < len data.

Definition trend_slot_decodable (record : DatexRecord.t) (i : Z) : Prop :=
  SrDesc.IsEndOfList (DatexHeader.SrDesc_at (DatexRecord.Header record) i) = false /\
  SrDesc.SrOffset (DatexHeader.SrDesc_at (DatexRecord.Header record) i)
  < len (DatexRecord.Data record).

(** What the splitters accept as a record boundary: a length prefix
    that is positive and within the buffer; and a prefix that is not. *)
Definition well_delimited (r : list byte) : Prop :=
  2 <= len r /\ u16_at r 0 = len r.

Definition corrupt_length (rest : list byte) : Prop :=
  2 <= len rest /\ (u16_at rest 0 <= 0 \/ len rest < u16_at rest 0).

(** A signed 16-bit field and a group header, by their place in a
    buffer. *)
Definition i16_at (data : list byte) (off : nat) : Z := int16 (u16_at data off).

Definition group_header_at (data : list byte) : GroupHeader.t :=
  {| GroupHeader.Status := u16_at data 0; GroupHeader.Label := u16_at data 2 |}.

(** The samples a waveform buffer holds after its 6-byte sub-header. *)
Definition samples_at (data : list byte) (n : nat) : list Z :=
  map (fun k => i16_at data (6 + 2 * k)) (seq 0 n).

(** A buffer that declares a sample count and holds at least that many
    samples; a waveform record, which holds exactly that many; one cut
    short. *)
Definition wave_holds (data : list byte) : Prop :=
  0 <= declared_ActLen data /\ 6 + 2 * declared_ActLen data <= len data.

Definition wave_record (r : list byte) : Prop :=
  0 <= declared_ActLen r /\ len r = 6 + 2 * declared_ActLen r.

Definition wave_incomplete (r : list byte) : Prop :=
  6 <= len r /\ len r < 6 + 2 * declared_ActLen r.

(** The little-endian bytes of a list of samples. *)
Definition sample_bytes (samples : list Z) : list byte :=
  flat_map (fun s => le_split 2 (uint16 s)) samples.

(** An alarm display slot and an alarm status message, field by field
    from the bytes of a buffer: a slot is 95 bytes, a message 8 bytes,
    five slots and five reserved words. *)
Definition alarm_display_at (data : list byte) : AlarmDisplay.t :=
  {| AlarmDisplay.Text := firstn 80 data;
     AlarmDisplay.TextChanged := negb (byte.unsigned (byte_at data 80) =? 0);
     AlarmDisplay.Color := byte_at data 81;
     AlarmDisplay.ColorChanged := negb (byte.unsigned (byte_at data 82) =? 0);
     AlarmDisplay.Reserved := map (fun k => i16_at data (83 + 2 * k)) (seq 0 6) |}.

Definition alarm_status_at (data : list byte) : AlarmStatusMessage.t :=
  {| AlarmStatusMessage.Reserved := i16_at data 0;
     AlarmStatusMessage.SoundOnOff := negb (byte.unsigned (byte_at data 2) =? 0);
     AlarmStatusMessage.Reserved2 := i16_at data 3;
     AlarmStatusMessage.Reserved3 := i16_at data 5;
     AlarmStatusMessage.SilenceInfo := byte_at data 7;
     AlarmStatusMessage.AlDisp :=
       map (fun k => alarm_display_at (skipn (8 + 95 * k) data)) (seq 0 5);
     AlarmStatusMessage.Reserved4 := map (fun k => i16_at data (483 + 2 * k)) (seq 0 5) |}.

Definition sample_aux : AuxiliaryPhysiologicalInfo.t :=
  {| AuxiliaryPhysiologicalInfo.NibpTime := 1700000000;
     AuxiliaryPhysiologicalInfo.Reserved1 := -1;
     AuxiliaryPhysiologicalInfo.CoTime := 0;
     AuxiliaryPhysiologicalInfo.PcwpTime := 4294967295;
     AuxiliaryPhysiologicalInfo.PatBsa := 185;
     AuxiliaryPhysiologicalInfo.Reserved := repeat Byte.x2a 98 |}.

(** The bytes of a text before its first NUL. *)
Fixpoint until_nul (text : list byte) : list byte :=
  match text with
  | [] => []
  | b :: rest => if byte.unsigned b =? 0 then [] else b :: until_nul rest
  end.

(** The color byte of slot [i] of an alarm status message. *)
Definition color_of (a : AlarmStatusMessage.t) (i : Z) : Z :=
  byte.unsigned (AlarmDisplay.Color (AlarmStatusMessage.AlDisp_at a i)).

(** Two trend records too short to decode: 2 and 3 bytes, each
    declaring its own length. *)
Definition short_trend_2 : list byte := bytes_of [2; 0].
Definition short_trend_3 : list byte := bytes_of [3; 0; 9].

(** ** Facts about the run-time operations *)

Lemma len_nonneg {A} (s : list A) : 0 <= len s.
Proof. unfold len. lia. Qed.

Lemma len_skipn {A} (s : list A) (n : nat) :
  len (skipn n s) = Z.max 0 (len s - Z.of_nat n).
Proof. unfold len. rewrite length_skipn. lia. Qed.

Lemma len_firstn {A} (s : list A) (n : nat) :
  len (firstn n s) = Z.min (Z.of_nat n) (len s).
Proof. unfold len. rewrite length_firstn. lia. Qed.

Lemma len_app {A} (s1 s2 : list A) : len (s1 ++ s2) = len s1 + len s2.
Proof. unfold len. rewrite length_app. lia. Qed.

Lemma len_cons {A} (x : A) (s : list A) : len (x :: s) = 1 + len s.
Proof. unfold len. cbn [List.length]. lia. Qed.

Lemma len_repeat {A} (x : A) (n : nat) : len (repeat x n) = Z.of_nat n.
Proof. unfold len. now rewrite repeat_length. Qed.

(** Side conditions on lengths. *)
Ltac len_solve :=
  repeat rewrite ?len_skipn, ?len_firstn, ?len_repeat, ?len_app, ?len_cons;
  lia.

Lemma elem_ok {A} (d : A) (s : list A) (i : Z) :
  0 <= i < len s -> elem s i = Ok (nth (Z.to_nat i) s d).
Proof.
  intros H. unfold elem.
  destruct (i <? 0) eqn:E1; [lia|]. destruct (len s <=? i) eqn:E2; [lia|].
  cbn [orb]. destruct (nth_error s (Z.to_nat i)) eqn:E.
  - now rewrite (nth_error_nth _ _ d E).
  - apply nth_error_None in E. unfold len in H. lia.
Qed.

Lemma elem_oob {A} (s : list A) (i : Z) :
  len s <= i -> elem s i = Panic (IndexOutOfRange i (len s)).
Proof.
  intros H. unfold elem. destruct (i <? 0); [reflexivity|].
  destruct (len s <=? i) eqn:E; [reflexivity|lia].
Qed.

Lemma slice_from_ok {A} (s : list A) (lo : Z) :
  0 <= lo <= len s -> slice_from s lo = Ok (skipn (Z.to_nat lo) s).
Proof.
  intros H. unfold slice_from.
  destruct (lo <? 0) eqn:E1; [lia|]. destruct (len s <? lo) eqn:E2; [lia|]. reflexivity.
Qed.

Lemma slice_ok {A} (s : list A) (lo hi : Z) :
  0 <= lo <= hi -> hi <= len s ->
  slice s lo hi = Ok (firstn (Z.to_nat (hi - lo)) (skipn (Z.to_nat lo) s)).
Proof.
  intros H1 H2. unfold slice.
  destruct (hi <? 0) eqn:E1; [lia|]. destruct (len s <? hi) eqn:E2; [lia|].
  destruct (lo <? 0) eqn:E3; [lia|]. destruct (hi <? lo) eqn:E4; [lia|]. reflexivity.
Qed.

Lemma Uint16_ok (b : list byte) :
  2 <= len b -> LittleEndian.Uint16 b = Ok (le_combine (firstn 2 b)).
Proof.
  intros H. unfold LittleEndian.Uint16. rewrite (elem_ok Byte.x00) by lia. reflexivity.
Qed.

Lemma Uint32_ok (b : list byte) :
  4 <= len b -> LittleEndian.Uint32 b = Ok (le_combine (firstn 4 b)).
Proof.
  intros H. unfold LittleEndian.Uint32. rewrite (elem_ok Byte.x00) by lia. reflexivity.
Qed.

Lemma set_elem_ok {A} (s : list A) (i : Z) (x : A) :
  0 <= i < len s ->
  set_elem s i x = Ok (firstn (Z.to_nat i) s ++ x :: skipn (S (Z.to_nat i)) s).
Proof.
  intros H. unfold set_elem. rewrite (elem_ok x) by lia. reflexivity.
Qed.

Lemma nth_skipn {A} (d : A) (s : list A) (n k : nat) :
  nth k (skipn n s) d = nth (n + k) s d.
Proof.
  revert s. induction n as [|n IH]; intros s; [reflexivity|].
  destruct s as [|x s]; [now destruct k|]. cbn [skipn Nat.add nth]. apply IH.
Qed.

Lemma firstn_firstn_same {A} (s : list A) (n : nat) : firstn n (firstn n s) = firstn n s.
Proof. rewrite firstn_firstn. now rewrite Nat.min_id. Qed.

Lemma SrDesc_UnmarshalBinary_ok (b : list byte) :
  3 <= len b ->
  SrDesc.UnmarshalBinary b =
  Ok {| SrDesc.SrOffset := int16 (le_combine (firstn 2 b)); SrDesc.SrType := nth 2 b Byte.x00 |}.
Proof.
  intros H. unfold SrDesc.UnmarshalBinary, SrDesc.Size.
  destruct (len b <? 3) eqn:E; [lia|].
  rewrite slice_ok by lia. cbn [bind].
  rewrite Uint16_ok by (rewrite len_firstn, len_skipn; lia). cbn [bind].
  rewrite (elem_ok Byte.x00) by lia. cbn [bind].
  change (Z.to_nat (2 - 0)) with 2%nat. change (Z.to_nat 0) with 0%nat.
  change (Z.to_nat 2) with 2%nat. cbn [skipn].
  now rewrite firstn_firstn_same.
Qed.

Lemma DatexHeader_UnmarshalBinary_short (data : list byte) :
  len data < 40 -> DatexHeader.UnmarshalBinary data = Err ErrInvalidDataLength.
Proof.
  intros H. unfold DatexHeader.UnmarshalBinary.
  change DatexHeader.Size with 40. destruct (len data <? 40) eqn:E; [reflexivity|lia].
Qed.

Lemma DatexHeader_UnmarshalBinary_ok (data : list byte) :
  40 <= len data -> DatexHeader.UnmarshalBinary data = Ok (fixed_layout data).
Proof.
  intros H. unfold DatexHeader.UnmarshalBinary.
  change DatexHeader.Size with 40. destruct (len data <? 40) eqn:E; [lia|]. clear E.
  cbv zeta. change SrDesc.Size with 3.
  repeat (first [ rewrite slice_from_ok by len_solve
                | rewrite Uint16_ok by len_solve
                | rewrite Uint32_ok by len_solve
                | rewrite (elem_ok Byte.x00 data) by len_solve ]; cbn [bind]).
  cbn [for_loop bind].
  repeat (first [ rewrite slice_from_ok by len_solve
                | rewrite SrDesc_UnmarshalBinary_ok by len_solve
                | rewrite set_elem_ok by len_solve ]; cbn [bind]).
  cbn. unfold fixed_layout, descriptor_at, u16_at, u32_at, byte_at. cbn [map seq].
  rewrite !nth_skipn. reflexivity.
Qed.

Lemma le_combine_2 (v : Z) :
  le_combine [byte.of_Z v; byte.of_Z (Z.shiftr v 8)] = v mod 65536.
Proof. change (le_combine (le_split 2 v) = v mod 65536). now rewrite le_combine_split. Qed.

Lemma le_combine_4 (v : Z) :
  le_combine [byte.of_Z v; byte.of_Z (Z.shiftr v 8);
              byte.of_Z (Z.shiftr (Z.shiftr v 8) 8);
              byte.of_Z (Z.shiftr (Z.shiftr (Z.shiftr v 8) 8) 8)] = v mod 4294967296.
Proof.
  change (le_combine (le_split 4 v) = v mod 4294967296). now rewrite le_combine_split.
Qed.

Lemma int16_uint16 (z : Z) : is_int16 z -> int16 (uint16 z mod 65536) = z.
Proof.
  unfold is_int16, int16, uint16. intros H.
  rewrite Z.mod_mod by lia.
  rewrite Z.add_mod_idemp_l by lia.
  rewrite Z.mod_small; lia.
Qed.

Lemma uint16_small (z : Z) : is_uint16 z -> z mod 65536 = z.
Proof. unfold is_uint16. intros H. now apply Z.mod_small. Qed.

Lemma uint32_small (z : Z) : is_uint32 z -> z mod 4294967296 = z.
Proof. unfold is_uint32. intros H. now apply Z.mod_small. Qed.

Lemma DatexHeader_roundtrip (h : DatexHeader.t) :
  DatexHeader.wf h ->
  exists buf, DatexHeader.MarshalBinary h = Ok buf /\ len buf = 40 /\
              DatexHeader.UnmarshalBinary buf = Ok h.
Proof.
  intros [H1 H2 H3 H4 H5 H6 H7].
  destruct h as [rlen rnbr dl pid rt ns r2 r3 mt descs]. cbn in *.
  do 8 (destruct descs as [|[? ?] descs]; [discriminate H6|]).
  destruct descs; [|discriminate H6]. clear H6.
  repeat match goal with
         | H : Forall _ (_ :: _) |- _ => inversion H; subst; clear H
         end.
  unfold SrDesc.wf in *. cbn in *.
  eexists. split; [|split].
  - cbv -[byte.of_Z Z.shiftr uint16]. reflexivity.
  - reflexivity.
  - cbv -[byte.of_Z Z.shiftr uint16 int16 le_combine].
    rewrite !le_combine_2, le_combine_4.
    rewrite !int16_uint16 by assumption.
    rewrite !uint16_small, uint32_small by assumption.
    reflexivity.
Qed.

(** ** The physiological database record *)

Lemma BasicPhysiologicalData_UnmarshalBinary_ok (data : list byte) :
  BasicPhysiologicalData.UnmarshalBinary data = Ok (BasicPhysiologicalData.mk data).
Proof.
  unfold BasicPhysiologicalData.UnmarshalBinary, make.
  pose proof (len_nonneg data) as H. destruct (len data <? 0) eqn:E; [lia|].
  cbn [bind]. unfold copy. do 2 f_equal.
  rewrite repeat_length. unfold len. rewrite Nat2Z.id.
  rewrite firstn_all. rewrite skipn_all2 by (rewrite repeat_length; lia).
  apply app_nil_r.
Qed.

(** C1 (code defect). [PhysiologicalDatabaseRecord.UnmarshalBinary]
    never decodes [Marker], [Reserved] and [ClDriLvlSubt]: on every
    buffer of at least 8 bytes the Basic payload takes every byte after
    [Time], so the read of [Marker] is at index [len data], outside the
    buffer, and the call panics. *)
Theorem PhysiologicalDatabaseRecord_UnmarshalBinary_panics (data : list byte) :
  8 <= len data ->
  PhysiologicalDatabaseRecord.UnmarshalBinary data
  = Panic (IndexOutOfRange (len data) (len data)).
Proof.
  intros H. unfold PhysiologicalDatabaseRecord.UnmarshalBinary.
  destruct (len data <? 8) eqn:E; [lia|]. clear E. cbv zeta.
  rewrite slice_from_ok by lia. cbn [bind].
  rewrite Uint32_ok by len_solve. cbn [bind].
  rewrite slice_from_ok by lia. cbn [bind].
  rewrite BasicPhysiologicalData_UnmarshalBinary_ok. cbn [bind].
  unfold BasicPhysiologicalData.Size. cbn [BasicPhysiologicalData.Data].
  replace (0 + 4 + len (skipn (Z.to_nat (0 + 4)) data)) with (len data) by len_solve.
  rewrite elem_oob by lia. reflexivity.
Qed.

Lemma PhysiologicalDatabaseRecord_UnmarshalBinary_panics_witness :
  8 <= len (zeros 8) /\
  PhysiologicalDatabaseRecord.UnmarshalBinary (zeros 8) = Panic (IndexOutOfRange 8 8).
Proof.
  split; [vm_compute; discriminate|].
  apply (PhysiologicalDatabaseRecord_UnmarshalBinary_panics (zeros 8)).
  vm_compute; discriminate.
Defined.

(** ** The record header *)

(** C2 as stated fails: a slice of 32 bytes is refused. *)
Lemma DatexHeader_UnmarshalBinary_32_refused :
  ~ (forall data : list byte,
        (32 <= len data -> exists h, DatexHeader.UnmarshalBinary data = Ok h) /\
        (DatexHeader.UnmarshalBinary data = Err ErrInvalidDataLength <-> len data < 32)).
Proof.
  intros H. destruct (H (zeros 32)) as [H1 _].
  destruct H1 as [h Hh]; [vm_compute; discriminate|].
  vm_compute in Hh. discriminate Hh.
Qed.

(** C2 (amended). For every byte slice of length at least 40,
    [DatexHeader.UnmarshalBinary] succeeds and decodes the fixed-offset
    fields in little-endian order; it returns the [InvalidLength] error
    exactly when the slice is shorter than 40 bytes. *)
Theorem DatexHeader_UnmarshalBinary_spec (data : list byte) :
  (40 <= len data -> DatexHeader.UnmarshalBinary data = Ok (fixed_layout data)) /\
  (DatexHeader.UnmarshalBinary data = Err ErrInvalidDataLength <-> len data < 40).
Proof.
  split; [apply DatexHeader_UnmarshalBinary_ok|]. split.
  - intros H. destruct (Z_lt_le_dec (len data) 40) as [Hlt|Hge]; [assumption|].
    rewrite DatexHeader_UnmarshalBinary_ok in H by assumption. discriminate H.
  - apply DatexHeader_UnmarshalBinary_short.
Qed.

Lemma DatexHeader_UnmarshalBinary_spec_witness :
  40 <= len (zeros 40) /\
  DatexHeader.UnmarshalBinary (zeros 40) = Ok (fixed_layout (zeros 40)).
Proof.
  split; [vm_compute; discriminate|].
  apply (proj1 (DatexHeader_UnmarshalBinary_spec (zeros 40))).
  vm_compute; discriminate.
Defined.

(** C9. Decoding the bytes produced by encoding a header yields the
    header again, reserved fields included (nothing is zeroed): for
    every value of the Go type [DatexHeader], [MarshalBinary] returns
    40 bytes on which [UnmarshalBinary] returns that value. *)
Theorem DatexHeader_decode_encode (h : DatexHeader.t) :
  DatexHeader.wf h ->
  (buf <- DatexHeader.MarshalBinary h ;; DatexHeader.UnmarshalBinary buf) = Ok h.
Proof.
  intros H. destruct (DatexHeader_roundtrip h H) as [buf [Hm [_ Hu]]].
  rewrite Hm. exact Hu.
Qed.

Lemma sample_header_wf : DatexHeader.wf sample_header.
Proof.
  constructor; cbn; unfold is_int16, is_uint16, is_uint32; try lia; try reflexivity.
  repeat constructor; unfold SrDesc.wf, is_int16; cbn; lia.
Defined.

Lemma DatexHeader_decode_encode_witness :
  DatexHeader.wf sample_header /\
  (buf <- DatexHeader.MarshalBinary sample_header ;; DatexHeader.UnmarshalBinary buf)
  = Ok sample_header.
Proof.
  split; [exact sample_header_wf|].
  exact (DatexHeader_decode_encode sample_header sample_header_wf).
Defined.

(** ** The alarm status message *)




(** ** Waveform samples *)

Lemma all_int16_spec (p : Z -> bool) :
  all_int16 p = true -> forall s, is_int16 s -> p s = true.
Proof.
  unfold all_int16, is_int16. intros H s Hs.
  assert (Hhi : 0 <= (s + 32768) / 256 < 256).
  { split; [apply Z.div_pos; lia | apply Z.div_lt_upper_bound; lia]. }
  pose proof (Z.mod_pos_bound (s + 32768) 256 ltac:(lia)) as Hlo.
  rewrite forallb_forall in H.
  assert (H1 := H (Z.to_nat ((s + 32768) / 256)) ltac:(apply in_seq; lia)).
  rewrite forallb_forall in H1.
  assert (H2 := H1 (Z.to_nat ((s + 32768) mod 256)) ltac:(apply in_seq; lia)).
  rewrite !Z2Nat.id in H2 by lia.
  replace (256 * ((s + 32768) / 256) + (s + 32768) mod 256 - 32768) with s in H2
    by (rewrite <- Z.div_mod by lia; lia).
  exact H2.
Qed.

Lemma float64_div_one (s : Z) :
  is_int16 s -> PrimFloat.div (float64 s) 1%float = float64 s.
Proof.
  intros H. apply FloatAxioms.Leibniz.eqb_spec.
  apply (all_int16_spec div_one_is_id); [vm_compute; reflexivity | exact H].
Qed.

(** C6. For every 16-bit sample [s] and every subrecord type: if
    [s <= -32000] the converted value is NaN; if [s > -32000] it is
    [s] divided by the divisor of the type, 100 for the invasive
    pressure, plethysmograph and gas types and 1 for the 12-lead ECG and
    every other type. ([DRI_WF_PLETH] is any constant other than that of
    the 12-lead ECG, as the cases of a Go [switch] must differ.) *)
Theorem ConvertSampleToPhysicalValue_spec (DRI_WF_PLETH s subrecordType : Z) :
  is_int16 s ->
  DRI_WF_PLETH <> DRI_WF_ECG12 ->
  (s <= -32000 ->
   PrimFloat.is_nan (ConvertSampleToPhysicalValue DRI_WF_PLETH s subrecordType) = true) /\
  (s > -32000 ->
   ConvertSampleToPhysicalValue DRI_WF_PLETH s subrecordType
   = PrimFloat.div (float64 s) (type_divisor DRI_WF_PLETH subrecordType)).
Proof.
  intros Hs Hp. unfold ConvertSampleToPhysicalValue, IsControlCode. split; intros H.
  - destruct (s <=? -32000) eqn:E; [reflexivity|lia].
  - destruct (s <=? -32000) eqn:E; [lia|]. clear E.
    unfold type_divisor. cbn [existsb].
    destruct (subrecordType =? DRI_WF_ECG12) eqn:E12.
    + apply Z.eqb_eq in E12. subst subrecordType.
      replace (DRI_WF_ECG12 =? DRI_WF_PLETH) with false
        by (symmetry; apply Z.eqb_neq; congruence).
      cbn. now rewrite float64_div_one.
    + destruct (subrecordType =? DRI_WF_INVP5), (subrecordType =? DRI_WF_INVP6),
        (subrecordType =? DRI_WF_INVP7), (subrecordType =? DRI_WF_INVP8),
        (subrecordType =? DRI_WF_PLETH), (subrecordType =? DRI_WF_PLETH_2),
        (subrecordType =? DRI_WF_CO2), (subrecordType =? DRI_WF_O2),
        (subrecordType =? DRI_WF_N2O), (subrecordType =? DRI_WF_AA);
        cbn [orb]; try reflexivity.
      now rewrite float64_div_one.
Qed.

Lemma ConvertSampleToPhysicalValue_spec_witness :
  is_int16 (-32000) /\ is_int16 2500 /\ 8 <> DRI_WF_ECG12 /\
  PrimFloat.is_nan (ConvertSampleToPhysicalValue 8 (-32000) DRI_WF_CO2) = true /\
  ConvertSampleToPhysicalValue 8 2500 DRI_WF_CO2 = 25%float /\
  ConvertSampleToPhysicalValue 8 2500 DRI_WF_ECG12 = 2500%float.
Proof.
  split; [unfold is_int16; lia|]. split; [unfold is_int16; lia|].
  split; [discriminate|]. split; [|split].
  - apply (ConvertSampleToPhysicalValue_spec 8 (-32000) DRI_WF_CO2);
      [unfold is_int16; lia | discriminate | lia].
  - rewrite (proj2 (ConvertSampleToPhysicalValue_spec 8 2500 DRI_WF_CO2
                      ltac:(unfold is_int16; lia) ltac:(discriminate)))
      by lia.
    reflexivity.
  - rewrite (proj2 (ConvertSampleToPhysicalValue_spec 8 2500 DRI_WF_ECG12
                      ltac:(unfold is_int16; lia) ltac:(discriminate)))
      by lia.
    reflexivity.
Defined.

Lemma WaveformHeader_of_prefix (data : list byte) :
  6 <= len data ->
  (b <- slice_to data 6 ;; WaveformHeader.UnmarshalBinary b) = Ok (wave_header data).
Proof.
  intros H. unfold slice_to. rewrite slice_ok by lia. cbn [bind].
  change (Z.to_nat (6 - 0)) with 6%nat. change (Z.to_nat 0) with 0%nat. cbn [skipn].
  unfold WaveformHeader.UnmarshalBinary. change WaveformHeader.Size with 6.
  assert (Hl : len (firstn 6 data) = 6) by (rewrite len_firstn; lia).
  rewrite Hl. cbn [Z.ltb Z.compare Pos.compare Pos.compare_cont].
  rewrite !slice_ok by lia. cbn [bind].
  rewrite !Uint16_ok by len_solve. cbn [bind].
  change (Z.to_nat (2 - 0)) with 2%nat. change (Z.to_nat (4 - 2)) with 2%nat.
  change (Z.to_nat (6 - 4)) with 2%nat. change (Z.to_nat 0) with 0%nat.
  change (Z.to_nat 2) with 2%nat. change (Z.to_nat 4) with 4%nat.
  change (skipn 0 (firstn 6 data)) with (firstn 6 data).
  rewrite !firstn_firstn_same. rewrite !skipn_firstn_comm. rewrite !firstn_firstn.
  reflexivity.
Qed.

(** C7. A buffer that declares [ActLen = N] and holds fewer than
    [6 + 2N] bytes is refused with a length error, and no sample array
    is produced: [ParseWaveformData] returns no structure, and
    [WaveformData.UnmarshalBinary] leaves the samples of its receiver as
    they were. *)
Theorem waveform_decode_short_buffer (DRI_WF_PLETH : Z) (wp : WaveformParser)
    (w : WaveformData.t) (data : list byte) :
  len data < 6 + 2 * declared_ActLen data ->
  ParseWaveformData DRI_WF_PLETH wp data
  = Err (Errorf (if len data <? 6
                 then "data too short: " ++ itoa (len data) ++ " bytes"
                 else "data length mismatch: expected "
                      ++ itoa (6 + declared_ActLen data * 2)
                      ++ ", got " ++ itoa (len data))) /\
  snd (WaveformData.UnmarshalBinary w data) = Err ErrInvalidDataLength /\
  WaveformData.Samples (fst (WaveformData.UnmarshalBinary w data)) = WaveformData.Samples w.
Proof.
  intros H. unfold ParseWaveformData, WaveformData.UnmarshalBinary.
  change WaveformHeader.Size with 6.
  destruct (len data <? 6) eqn:E6; [repeat split; reflexivity|].
  assert (H6 : 6 <= len data) by lia.
  pose proof (WaveformHeader_of_prefix data H6) as Hh.
  rewrite Hh.
  unfold slice_to in Hh |- *. rewrite slice_ok in Hh |- * by lia. cbn [bind] in Hh |- *.
  rewrite Hh. cbn [wave_header WaveformHeader.ActLen].
  destruct (len data <? 6 + declared_ActLen data * 2) eqn:E; [|lia].
  repeat split; reflexivity.
Qed.

Lemma waveform_decode_short_buffer_witness :
  len wave_short < 6 + 2 * declared_ActLen wave_short /\
  ParseWaveformData 8 (NewWaveformParser 8 DRI_WF_CO2) wave_short
  = Err (Errorf "data length mismatch: expected 12, got 11") /\
  snd (WaveformData.UnmarshalBinary WaveformData.zero wave_short) = Err ErrInvalidDataLength /\
  WaveformData.Samples (fst (WaveformData.UnmarshalBinary WaveformData.zero wave_short)) = [].
Proof.
  split; [vm_compute; reflexivity|].
  apply (waveform_decode_short_buffer 8 (NewWaveformParser 8 DRI_WF_CO2)
           WaveformData.zero wave_short).
  vm_compute. reflexivity.
Defined.

(** C10. On a buffer of at least 6 bytes whose first two bytes declare
    a negative [ActLen], the declared-length test passes
    ([6 + 2*ActLen <= len]) and both decoders go on to allocate a sample
    array of negative length, which panics: they return neither a result
    nor an error. Only [ValidateWaveformData], which the decoders do not
    call, refuses the buffer, after its own length test has passed. *)
Theorem waveform_decode_negative_ActLen (DRI_WF_PLETH : Z) (wp : WaveformParser)
    (w : WaveformData.t) (data : list byte) :
  6 <= len data ->
  declared_ActLen data < 0 ->
  6 + 2 * declared_ActLen data <= len data /\
  ParseWaveformData DRI_WF_PLETH wp data
  = Panic (MakeSliceLenOutOfRange (declared_ActLen data)) /\
  snd (WaveformData.UnmarshalBinary w data)
  = Panic (MakeSliceLenOutOfRange (declared_ActLen data)) /\
  ValidateWaveformData data
  = Err (Errorf ("invalid act_len: " ++ itoa (declared_ActLen data))).
Proof.
  intros H6 Hn. split; [lia|].
  unfold ParseWaveformData, WaveformData.UnmarshalBinary, ValidateWaveformData.
  change WaveformHeader.Size with 6.
  destruct (len data <? 6) eqn:E6; [lia|].
  pose proof (WaveformHeader_of_prefix data H6) as Hh.
  rewrite Hh.
  unfold slice_to in Hh |- *. rewrite slice_ok in Hh |- * by lia. cbn [bind] in Hh |- *.
  rewrite Hh. cbn [wave_header WaveformHeader.ActLen].
  destruct (len data <? 6 + declared_ActLen data * 2) eqn:E; [lia|].
  unfold read_samples, make.
  destruct (declared_ActLen data <? 0) eqn:En; [|lia].
  repeat split; reflexivity.
Qed.

Lemma waveform_decode_negative_ActLen_witness :
  6 <= len wave_negative /\
  declared_ActLen wave_negative < 0 /\
  6 + 2 * declared_ActLen wave_negative <= len wave_negative /\
  ParseWaveformData 8 (NewWaveformParser 8 DRI_WF_CO2) wave_negative
  = Panic (MakeSliceLenOutOfRange (declared_ActLen wave_negative)) /\
  snd (WaveformData.UnmarshalBinary WaveformData.zero wave_negative)
  = Panic (MakeSliceLenOutOfRange (declared_ActLen wave_negative)) /\
  ValidateWaveformData wave_negative
  = Err (Errorf ("invalid act_len: " ++ itoa (declared_ActLen wave_negative))).
Proof.
  split; [vm_compute; discriminate|]. split; [vm_compute; reflexivity|].
  apply (waveform_decode_negative_ActLen 8 (NewWaveformParser 8 DRI_WF_CO2)
           WaveformData.zero wave_negative);
    vm_compute; [discriminate | reflexivity].
Defined.

(** The worked example of the waveform decoder: a CO2 subrecord with
    [ActLen = 3], status [0x0001] and samples 2500, -32000, 100 decodes
    to a gap flag, physical values 25, NaN (a control code) and 1, at 25
    samples per second. *)
Lemma waveform_example :
  exists w,
    ParseWaveformData 8 (NewWaveformParser 8 DRI_WF_CO2) wave_ok = Ok w /\
    hj_HasGap (wj_Header w) = true /\
    map sj_RawValue (wj_Samples w) = [2500; -32000; 100] /\
    map sj_IsControlCode (wj_Samples w) = [false; true; false] /\
    map sj_PhysicalValue (wj_Samples w) = [25%float; PrimFloat.nan; 1%float] /\
    wj_SamplingRate w = 25.
Proof. eexists. split; [vm_compute; reflexivity|]. repeat split. Qed.

(** ** Alarm records *)

Lemma ParseAlarmData_refuses (data : list byte) (errs : list string) :
  32 <= len data ->
  AlarmParser.ParseAlarmData data errs
  = (Err ErrInvalidDataLength,
     errs ++ ["failed to parse header: DRI error: invalid data length"%string]).
Proof.
  intros H. unfold AlarmParser.ParseAlarmData.
  destruct (len data <? 32) eqn:E; [lia|]. clear E.
  unfold slice_to. rewrite slice_ok by lia. cbn [bind].
  rewrite DatexHeader_UnmarshalBinary_short by len_solve.
  reflexivity.
Qed.

(** C3 (code defect). On every buffer of at least 32 bytes, whatever
    main type its header holds, [ParseAlarmData] fails before it
    compares the main type: it hands the 32-byte prefix to a header
    decoder that wants 40 bytes, and returns [ErrInvalidDataLength], not
    the type-mismatch error. No alarm structure is returned. *)
Theorem ParseAlarmData_never_reaches_type_check (data : list byte) (errs : list string) :
  32 <= len data ->
  fst (AlarmParser.ParseAlarmData data errs) = Err ErrInvalidDataLength /\
  fst (AlarmParser.ParseAlarmData data errs)
  <> Err (Errorf "invalid record type for alarm data").
Proof.
  intros H. rewrite ParseAlarmData_refuses by assumption. cbn [fst].
  split; [reflexivity|discriminate].
Qed.

Lemma ParseAlarmData_never_reaches_type_check_witness :
  32 <= len phdb_record /\
  DatexHeader.RMainType (fixed_layout phdb_record) = DRI_MT_PHDB /\
  fst (AlarmParser.ParseAlarmData phdb_record []) = Err ErrInvalidDataLength /\
  fst (AlarmParser.ParseAlarmData phdb_record [])
  <> Err (Errorf "invalid record type for alarm data").
Proof.
  split; [vm_compute; discriminate|]. split; [reflexivity|].
  apply (ParseAlarmData_never_reaches_type_check phdb_record []).
  vm_compute; discriminate.
Defined.

(** ** The multi-record splitters *)

Lemma slice_mid {A} (pre r post : list A) :
  slice (pre ++ r ++ post) (len pre) (len pre + len r) = Ok r.
Proof.
  pose proof (len_nonneg pre). pose proof (len_nonneg r). pose proof (len_nonneg post).
  rewrite slice_ok by (rewrite ?len_app; lia).
  replace (Z.to_nat (len pre + len r - len pre)) with (List.length r) by (unfold len; lia).
  replace (Z.to_nat (len pre)) with (List.length pre) by (unfold len; lia).
  rewrite skipn_app, skipn_all, Nat.sub_diag. cbn [app skipn].
  rewrite firstn_app, firstn_all, Nat.sub_diag. cbn [firstn]. now rewrite app_nil_r.
Qed.

Lemma slice_mid_2 (pre r post : list byte) :
  2 <= len r ->
  (b <- slice (pre ++ r ++ post) (len pre) (len pre + 2) ;; LittleEndian.Uint16 b)
  = Ok (u16_at r 0).
Proof.
  intros H.
  assert (Hl : len (firstn 2 r) = 2) by (rewrite len_firstn; lia).
  rewrite <- (firstn_skipn 2 r) at 1. rewrite <- app_assoc.
  replace (len pre + 2) with (len pre + len (firstn 2 r)) by lia.
  rewrite slice_mid. cbn [bind].
  rewrite Uint16_ok by lia. now rewrite firstn_firstn_same.
Qed.

Lemma ParseMultipleAlarms_decodes_nothing (data : list byte) (errs : list string) :
  AlarmParser.ParseMultipleAlarms data errs
  = (Ok [],
     if len data <? 32 then errs
     else errs ++ ["failed to parse header at offset 0: DRI error: invalid data length"%string]).
Proof.
  unfold AlarmParser.ParseMultipleAlarms.
  destruct data as [|b data]; [reflexivity|].
  change (List.length (b :: data)) with (S (List.length data)).
  assert (Hpos : 0 < len (b :: data))
    by (rewrite len_cons; pose proof (len_nonneg data); lia).
  generalize dependent (b :: data). intros d Hpos.
  cbn [AlarmParser.alarms_loop].
  destruct (0 <? len d) eqn:E0; [|lia]. cbn [negb].
  unfold pbind, lift, try, ret, addError.
  rewrite slice_from_ok by lia. change (skipn (Z.to_nat 0) d) with d.
  destruct (len d <? 32) eqn:E32; [reflexivity|].
  rewrite slice_ok by lia. cbn [bind].
  rewrite DatexHeader_UnmarshalBinary_short by len_solve.
  reflexivity.
Qed.

Section TrendFacts.
Variable DatexRecord_UnmarshalBinary : list byte -> result DatexRecord.t.
Variable DatexHeader_IsValid : DatexHeader.t -> bool.
Variable PhysiologicalSubrecords : Type.
Variable PhysiologicalSubrecords_UnmarshalBinary :
  list byte -> result PhysiologicalSubrecords.

Abbreviation TrendJSON := (TrendParser.TrendJSON PhysiologicalSubrecords).
Abbreviation ParseTrendData :=
  (TrendParser.ParseTrendData DatexRecord_UnmarshalBinary DatexHeader_IsValid
     PhysiologicalSubrecords PhysiologicalSubrecords_UnmarshalBinary).
Abbreviation trends_loop :=
  (TrendParser.trends_loop DatexRecord_UnmarshalBinary DatexHeader_IsValid
     PhysiologicalSubrecords PhysiologicalSubrecords_UnmarshalBinary).
Abbreviation trends_turn :=
  (TrendParser.trends_turn DatexRecord_UnmarshalBinary DatexHeader_IsValid
     PhysiologicalSubrecords PhysiologicalSubrecords_UnmarshalBinary).
Abbreviation ParseMultipleTrends :=
  (TrendParser.ParseMultipleTrends DatexRecord_UnmarshalBinary DatexHeader_IsValid
     PhysiologicalSubrecords PhysiologicalSubrecords_UnmarshalBinary).

Lemma trends_loop_end (fuel : nat) (data : list byte) (offset : Z)
    (trends : list TrendJSON) (errs : list string) :
  len data <= offset -> trends_loop fuel data offset trends errs = (Ok trends, errs).
Proof.
  intros H. destruct fuel; [reflexivity|]. cbn [TrendParser.trends_loop].
  destruct (offset <? len data) eqn:E; [lia|]. reflexivity.
Qed.

Lemma trends_loop_corrupt (fuel : nat) (pre rest : list byte)
    (trends : list TrendJSON) (errs : list string) :
  corrupt_length rest ->
  trends_loop fuel (pre ++ rest) (len pre) trends errs = (Ok trends, errs).
Proof.
  intros [H2 Hc]. destruct fuel; [reflexivity|]. cbn [TrendParser.trends_loop].
  pose proof (len_nonneg pre).
  destruct (len pre <? len (pre ++ rest)) eqn:E1; [|rewrite len_app in E1; lia].
  cbn [negb].
  destruct (len (pre ++ rest) <? len pre + 2) eqn:E2; [rewrite len_app in E2; lia|].
  unfold pbind, lift.
  pose proof (slice_mid_2 pre rest [] H2) as Hs. rewrite app_nil_r in Hs. rewrite Hs.
  destruct ((u16_at rest 0 <=? 0) || (len (pre ++ rest) <? len pre + u16_at rest 0)) eqn:E3;
    [reflexivity|].
  apply orb_false_elim in E3. destruct E3 as [E3 E4]. rewrite len_app in E4. lia.
Qed.

Lemma trends_loop_record (fuel : nat) (pre r post : list byte)
    (trends : list TrendJSON) (errs : list string) :
  well_delimited r ->
  trends_loop (S fuel) (pre ++ r ++ post) (len pre) trends errs
  = trends_turn fuel (pre ++ r ++ post) r (len pre) trends errs.
Proof.
  intros [H2 Hr]. cbn [TrendParser.trends_loop].
  pose proof (len_nonneg pre). pose proof (len_nonneg post).
  destruct (len pre <? len (pre ++ r ++ post)) eqn:E1; [|rewrite !len_app in E1; lia].
  cbn [negb].
  destruct (len (pre ++ r ++ post) <? len pre + 2) eqn:E2;
    [rewrite !len_app in E2; lia|].
  unfold pbind at 1. unfold lift at 1. rewrite slice_mid_2 by assumption. rewrite Hr.
  destruct ((len r <=? 0) || (len (pre ++ r ++ post) <? len pre + len r)) eqn:E3.
  { apply orb_true_elim in E3. rewrite !len_app in E3. destruct E3 as [E3|E3]; lia. }
  unfold pbind, lift, try, TrendParser.trends_turn. rewrite slice_mid.
  destruct (ParseTrendData r errs) as [[t|e|q] errs']; reflexivity.
Qed.

(** Enough fuel: any two amounts of at least [len data - offset] turns
    give the same run. *)
Lemma trends_loop_fuel (fuel1 fuel2 : nat) (data : list byte) (offset : Z)
    (trends : list TrendJSON) (errs : list string) :
  len data - offset <= Z.of_nat fuel1 ->
  len data - offset <= Z.of_nat fuel2 ->
  trends_loop fuel1 data offset trends errs = trends_loop fuel2 data offset trends errs.
Proof.
  revert fuel2 offset trends errs.
  induction fuel1 as [|fuel1 IH]; intros fuel2 offset trends errs H1 H2.
  - rewrite !trends_loop_end by lia. reflexivity.
  - destruct fuel2 as [|fuel2]; [rewrite !trends_loop_end by lia; reflexivity|].
    cbn [TrendParser.trends_loop].
    destruct (negb (offset <? len data)); [reflexivity|].
    destruct (len data <? offset + 2); [reflexivity|].
    unfold pbind, lift, try, ret, addError.
    destruct (b <- slice data offset (offset + 2) ;; LittleEndian.Uint16 b)%go
      as [n|e|q]; try reflexivity.
    destruct ((n <=? 0) || (len data <? offset + n)) eqn:E; [reflexivity|].
    apply orb_false_elim in E. destruct E as [E _].
    destruct (slice data offset (offset + n)) as [b|e|q]; try reflexivity.
    destruct (ParseTrendData b errs) as [[t|e|q] errs']; try reflexivity;
      apply IH; lia.
Qed.

(** The scan over a run of well-delimited records followed by a
    corrupt length is the scan over the run alone: it stops there, what
    follows is never read, and the diagnostics are those of the records
    decoded, with nothing added for the corrupt length. *)
Lemma trends_loop_stops (rs : list (list byte)) (rest : list byte) :
  Forall well_delimited rs ->
  corrupt_length rest ->
  forall (fuel1 fuel2 : nat) (pre : list byte) (trends : list TrendJSON) (errs : list string),
    len (List.concat rs) <= Z.of_nat fuel1 ->
    len (List.concat rs) <= Z.of_nat fuel2 ->
    trends_loop fuel1 (pre ++ List.concat rs ++ rest) (len pre) trends errs
    = trends_loop fuel2 (pre ++ List.concat rs) (len pre) trends errs.
Proof.
  intros Hrs Hc. induction Hrs as [|r rs Hr Hrs IH]; intros fuel1 fuel2 pre trends errs H1 H2.
  - cbn [List.concat app]. rewrite trends_loop_corrupt by assumption.
    rewrite trends_loop_end by (rewrite app_nil_r; lia). reflexivity.
  - cbn [List.concat] in *. rewrite len_app in H1, H2.
    pose proof (len_nonneg (List.concat rs)). destruct Hr as [Hr2 Hr].
    destruct fuel1 as [|fuel1]; [lia|]. destruct fuel2 as [|fuel2]; [lia|].
    rewrite <- (app_assoc r (List.concat rs) rest).
    rewrite (trends_loop_record fuel1 pre r (List.concat rs ++ rest)) by (split; assumption).
    rewrite (trends_loop_record fuel2 pre r (List.concat rs)) by (split; assumption).
    unfold TrendParser.trends_turn.
    replace (len pre + len r) with (len (pre ++ r)) by apply len_app.
    replace (pre ++ r ++ List.concat rs ++ rest) with ((pre ++ r) ++ List.concat rs ++ rest)
      by (now rewrite <- app_assoc).
    replace (pre ++ r ++ List.concat rs) with ((pre ++ r) ++ List.concat rs)
      by (now rewrite <- app_assoc).
    destruct (ParseTrendData r errs) as [[t|e|q] errs']; try reflexivity;
      apply IH; lia.
Qed.

Lemma ParseMultipleTrends_stops (rs : list (list byte)) (rest : list byte)
    (errs : list string) :
  Forall well_delimited rs ->
  corrupt_length rest ->
  ParseMultipleTrends (List.concat rs ++ rest) errs = ParseMultipleTrends (List.concat rs) errs.
Proof.
  intros Hrs Hc. unfold TrendParser.ParseMultipleTrends.
  apply (trends_loop_stops rs rest Hrs Hc _ _ [] [] errs).
  - unfold len. rewrite length_app. lia.
  - unfold len. lia.
Qed.
End TrendFacts.

Lemma alarms_loop_end (fuel : nat) (data : list byte) (offset : Z)
    (alarms : list AlarmJSON) (errs : list string) :
  len data <= offset ->
  AlarmParser.alarms_loop fuel data offset alarms errs = (Ok alarms, errs).
Proof.
  intros H. destruct fuel; [reflexivity|]. cbn [AlarmParser.alarms_loop].
  destruct (offset <? len data) eqn:E; [lia|]. reflexivity.
Qed.

(** Enough fuel, for the alarm splitter. *)
Lemma alarms_loop_fuel (fuel1 fuel2 : nat) (data : list byte) (offset : Z)
    (alarms : list AlarmJSON) (errs : list string) :
  len data - offset <= Z.of_nat fuel1 ->
  len data - offset <= Z.of_nat fuel2 ->
  AlarmParser.alarms_loop fuel1 data offset alarms errs
  = AlarmParser.alarms_loop fuel2 data offset alarms errs.
Proof.
  revert fuel2 offset alarms errs.
  induction fuel1 as [|fuel1 IH]; intros fuel2 offset alarms errs H1 H2.
  - rewrite !alarms_loop_end by lia. reflexivity.
  - destruct fuel2 as [|fuel2]; [rewrite !alarms_loop_end by lia; reflexivity|].
    cbn [AlarmParser.alarms_loop].
    destruct (negb (offset <? len data)); [reflexivity|].
    unfold pbind, lift, try, ret, addError.
    destruct (slice_from data offset) as [rest|e|q]; try reflexivity.
    destruct (len rest <? 32); [reflexivity|].
    destruct (b <- slice data offset (offset + 32) ;; DatexHeader.UnmarshalBinary b)%go
      as [h|e|q]; try reflexivity.
    destruct ((DatexHeader.RLen h <=? 0) || (len data <? offset + DatexHeader.RLen h)) eqn:E;
      [reflexivity|].
    apply orb_false_elim in E. destruct E as [E _].
    destruct (slice data offset (offset + DatexHeader.RLen h)) as [b|e|q]; try reflexivity.
    destruct (AlarmParser.ParseAlarmData b errs) as [[t|e|q] errs']; try reflexivity;
      apply IH; lia.
Qed.

(** C5 (code defect). On a three-record stream whose second record
    declares a length beyond the end of the buffer, neither splitter
    does what is claimed. [ParseMultipleTrends] stops at the corrupt
    length and keeps what it decoded before, but adds no diagnostic: its
    run is the run on record 1 alone, whatever the record decoder, and on
    a stream that starts with the corrupt length it returns no record and
    leaves the diagnostics as they were. [ParseMultipleAlarms] does not
    decode record 1: it fails on the first header and returns no record
    at all. *)
Theorem splitters_on_corrupt_length :
  (forall (DatexRecord_UnmarshalBinary : list byte -> result DatexRecord.t)
          (DatexHeader_IsValid : DatexHeader.t -> bool)
          (PhysiologicalSubrecords : Type)
          (PhysiologicalSubrecords_UnmarshalBinary : list byte -> result PhysiologicalSubrecords)
          (errs : list string),
      TrendParser.ParseMultipleTrends DatexRecord_UnmarshalBinary DatexHeader_IsValid
        PhysiologicalSubrecords PhysiologicalSubrecords_UnmarshalBinary trend_stream3 errs
      = TrendParser.ParseMultipleTrends DatexRecord_UnmarshalBinary DatexHeader_IsValid
          PhysiologicalSubrecords PhysiologicalSubrecords_UnmarshalBinary phdb_record errs
      /\
      TrendParser.ParseMultipleTrends DatexRecord_UnmarshalBinary DatexHeader_IsValid
        PhysiologicalSubrecords PhysiologicalSubrecords_UnmarshalBinary
        (overlong_record 0 ++ phdb_record) errs
      = (Ok [], errs)) /\
  (forall errs : list string,
      AlarmParser.ParseMultipleAlarms alarm_stream3 errs
      = (Ok [],
         errs ++ ["failed to parse header at offset 0: DRI error: invalid data length"%string])).
Proof.
  assert (Hc : corrupt_length (overlong_record 0 ++ phdb_record)).
  { split; [vm_compute; discriminate|]. right. vm_compute. reflexivity. }
  split.
  - intros D V P U errs. split.
    + apply (ParseMultipleTrends_stops D V P U [phdb_record]
               (overlong_record 0 ++ phdb_record) errs); [|exact Hc].
      constructor; [|constructor]. split; [vm_compute; discriminate|reflexivity].
    + apply (ParseMultipleTrends_stops D V P U [] (overlong_record 0 ++ phdb_record) errs);
        [constructor|exact Hc].
  - intros errs. rewrite ParseMultipleAlarms_decodes_nothing. reflexivity.
Qed.

(** ** The subrecord scans *)

(** C8 (code defect). The scans do not produce 8 entries for every
    header: the trend scan panics on an active slot with a negative
    offset (the alarm scan tests [SrOffset >= 0], the trend scan does
    not), and on an active slot of a physiological type with 8 bytes of
    body (the record decoder reads past the end); the alarm scan panics
    on an alarm status body of 483 to 492 bytes. *)
Theorem subrecord_scans_panic :
  fst (TrendParser.parseSubrecords
         (DatexRecord.mk (header_with_slot0 (-1) Byte.x10) (zeros 10)) [] [])
  = Panic (SliceBoundsOutOfRange (-1) 10) /\
  fst (TrendParser.parseSubrecords
         (DatexRecord.mk (header_with_slot0 0 Byte.x10) (zeros 8)) [] [])
  = Panic (IndexOutOfRange 8 8) /\
  fst (AlarmParser.parseAlarmSubrecords
         (header_with_slot0 0 Byte.x01) (zeros 483) empty_AlarmJSON [])
  = Panic (IndexOutOfRange 1 0).
Proof. repeat split; vm_compute; reflexivity. Qed.

(** What holds of the scans when they return: no early exit at a
    sentinel, one entry per slot in index order, and a body only for a
    slot that is not a sentinel and whose offset passes the test. *)
Section Scan.
Variables (S D E : Type).
Variable entries : S -> list E.
Variable append : S -> E -> S.
Hypothesis entries_append : forall s e, entries (append s e) = entries s ++ [e].
Variable body : Z -> parser D.
Variable entry : Z -> D -> E.

Let step (i : Z) (s : S) : parser S :=
  pbind (body i) (fun d => ret (append s (entry i d))).

Lemma scan_returns (n : nat) :
  forall (i : Z) (s : S) (errs : list string) (s' : S) (errs' : list string),
    pfor_loop n i step s errs = (Ok s', errs') ->
    exists ds, List.length ds = n /\
               entries s' = entries s ++ entries_from entry i ds /\
               all_from (fun k d => exists e1 e2, body k e1 = (Ok d, e2)) i ds.
Proof.
  induction n as [|n IH]; intros i s errs s' errs' H.
  - cbn in H. injection H as <- <-. exists []. cbn. now rewrite app_nil_r.
  - cbn [pfor_loop] in H. unfold pbind at 1 in H. unfold step at 1 in H.
    unfold pbind at 1 in H.
    destruct (body i errs) as [[d|e|q] errs1] eqn:Hb; try discriminate H.
    cbn [ret] in H. apply IH in H. destruct H as [ds [Hl [He Ha]]].
    exists (d :: ds). cbn [List.length entries_from all_from].
    split; [congruence|]. split.
    + rewrite He, entries_append, <- app_assoc. reflexivity.
    + split; [now exists errs, errs1 | exact Ha].
Qed.

Lemma scan_total (n : nat) :
  forall (i : Z) (s : S) (errs : list string),
    (forall k e, i <= k < i + Z.of_nat n -> exists d e', body k e = (Ok d, e')) ->
    exists s' errs', pfor_loop n i step s errs = (Ok s', errs').
Proof.
  induction n as [|n IH]; intros i s errs H.
  - now exists s, errs.
  - cbn [pfor_loop]. unfold pbind at 1. unfold step at 1. unfold pbind at 1.
    destruct (H i errs ltac:(lia)) as [d [e' Hb]]. rewrite Hb. cbn [ret].
    apply IH. intros k e Hk. apply H. lia.
Qed.
End Scan.

Lemma alarm_body_decodable (header : DatexHeader.t) (data : list byte) (i : Z)
    (errs errs' : list string) (m : AlarmStatusMessage.t) :
  AlarmParser.subrecord_body header data i errs = (Ok (Some m), errs') ->
  alarm_slot_decodable header data i.
Proof.
  unfold AlarmParser.subrecord_body, alarm_slot_decodable, SrDesc.IsValid, SrDesc.IsEndOfList.
  destruct (byte.unsigned (SrDesc.SrType (DatexHeader.SrDesc_at header i))
            =? DRI_EOL_SUBR_LIST); cbn [negb andb]; [discriminate|].
  destruct (0 <=? SrDesc.SrOffset (DatexHeader.SrDesc_at header i)) eqn:E1;
    cbn [andb]; [|discriminate].
  destruct (SrDesc.SrOffset (DatexHeader.SrDesc_at header i) <? len data) eqn:E2;
    [|discriminate].
  intros _. split; [reflexivity|lia].
Qed.

Lemma trend_body_decodable (record : DatexRecord.t) (i : Z)
    (errs errs' : list string) (d : SubrecordData) :
  TrendParser.subrecord_body record i errs = (Ok (Some d), errs') ->
  trend_slot_decodable record i.
Proof.
  unfold TrendParser.subrecord_body, trend_slot_decodable, SrDesc.IsValid, SrDesc.IsEndOfList.
  destruct (byte.unsigned (SrDesc.SrType (DatexHeader.SrDesc_at (DatexRecord.Header record) i))
            =? DRI_EOL_SUBR_LIST); cbn [negb]; [discriminate|].
  destruct (SrDesc.SrOffset (DatexHeader.SrDesc_at (DatexRecord.Header record) i)
            <? len (DatexRecord.Data record)) eqn:E2; [|discriminate].
  intros _. split; [reflexivity|lia].
Qed.

Lemma all_from_impl {D : Type} (P Q : Z -> D -> Prop) (ds : list D) :
  forall i, (forall k d, P k d -> Q k d) -> all_from P i ds -> all_from Q i ds.
Proof.
  induction ds as [|d ds IH]; intros i H Ha; [exact I|].
  destruct Ha as [H1 H2]. split; [now apply H | now apply (IH (i + 1))].
Qed.

Lemma parseAlarmSubrecords_returns (header : DatexHeader.t) (data : list byte)
    (alarmJSON alarmJSON' : AlarmJSON) (errs errs' : list string) :
  AlarmParser.parseAlarmSubrecords header data alarmJSON errs = (Ok alarmJSON', errs') ->
  exists ds, List.length ds = 8%nat /\
             aj_Subrecords alarmJSON'
             = aj_Subrecords alarmJSON
               ++ entries_from (AlarmParser.subrecord_entry header) 0 ds /\
             all_from (fun i d => d <> None -> alarm_slot_decodable header data i) 0 ds.
Proof.
  intros H.
  destruct (scan_returns AlarmJSON _ _ aj_Subrecords
              (fun j e => aj_with_Subrecords j (aj_Subrecords j ++ [e]))
              (fun _ _ => eq_refl)
              (AlarmParser.subrecord_body header data)
              (AlarmParser.subrecord_entry header) 8 0 alarmJSON errs alarmJSON' errs' H)
    as [ds [Hl [He Ha]]].
  exists ds. repeat split; try assumption.
  revert Ha. apply all_from_impl. intros k [m|] [e1 [e2 Hb]] Hd; [|congruence].
  exact (alarm_body_decodable _ _ _ _ _ _ Hb).
Qed.

Lemma parseSubrecords_returns (record : DatexRecord.t)
    (subrecords subrecords' : list SubrecordJSON) (errs errs' : list string) :
  TrendParser.parseSubrecords record subrecords errs = (Ok subrecords', errs') ->
  exists ds, List.length ds = 8%nat /\
             subrecords' = subrecords ++ entries_from (TrendParser.subrecord_entry record) 0 ds /\
             all_from (fun i d => d <> None -> trend_slot_decodable record i) 0 ds.
Proof.
  intros H.
  destruct (scan_returns (list SubrecordJSON) _ _ (fun l => l) (fun l e => l ++ [e])
              (fun _ _ => eq_refl)
              (TrendParser.subrecord_body record)
              (TrendParser.subrecord_entry record) 8 0 subrecords errs subrecords' errs' H)
    as [ds [Hl [He Ha]]].
  exists ds. repeat split; try assumption.
  revert Ha. apply all_from_impl. intros k [d|] [e1 [e2 Hb]] Hd; [|congruence].
  exact (trend_body_decodable _ _ _ _ _ Hb).
Qed.

(** The scans do return when no slot is decodable, sentinels at any
    position included: eight entries, none with a body. *)
Lemma parseSubrecords_no_body (record : DatexRecord.t) (subrecords : list SubrecordJSON)
    (errs : list string) :
  (forall i, 0 <= i < 8 -> ~ trend_slot_decodable record i) ->
  exists subrecords',
    TrendParser.parseSubrecords record subrecords errs = (Ok subrecords', errs) /\
    subrecords'
    = subrecords
      ++ entries_from (TrendParser.subrecord_entry record) 0 (repeat None 8).
Proof.
  intros H. eexists. split; [|reflexivity].
  assert (Hb : forall i e, 0 <= i < 8 -> TrendParser.subrecord_body record i e = (Ok None, e)).
  { intros i e Hi. specialize (H i Hi). unfold trend_slot_decodable in H.
    unfold TrendParser.subrecord_body, SrDesc.IsValid. unfold SrDesc.IsEndOfList in H.
    destruct (byte.unsigned (SrDesc.SrType (DatexHeader.SrDesc_at (DatexRecord.Header record) i))
              =? DRI_EOL_SUBR_LIST); cbn [negb]; [reflexivity|].
    destruct (SrDesc.SrOffset (DatexHeader.SrDesc_at (DatexRecord.Header record) i)
              <? len (DatexRecord.Data record)) eqn:E; [|reflexivity].
    exfalso. apply H. split; [reflexivity|lia]. }
  unfold TrendParser.parseSubrecords. cbn [pfor_loop]. unfold pbind, ret.
  rewrite !Hb by lia. cbn [entries_from repeat]. rewrite <- !app_assoc. reflexivity.
Qed.

(** * Further properties of the decoders *)

(** ** Descriptors and header slots *)

(** X1. A subrecord descriptor survives its encoding: decoding the
    three bytes [MarshalBinary] returns gives the descriptor back, for
    every [int16] offset and every type byte. *)
Theorem SrDesc_decode_encode (s : SrDesc.t) :
  SrDesc.wf s ->
  (buf <- SrDesc.MarshalBinary s ;; SrDesc.UnmarshalBinary buf) = Ok s.
Proof.
  destruct s as [off ty]. unfold SrDesc.wf. cbn [SrDesc.SrOffset]. intros H.
  cbv -[byte.of_Z Z.shiftr uint16 int16 le_combine].
  rewrite le_combine_2, int16_uint16 by assumption. reflexivity.
Qed.

Lemma SrDesc_decode_encode_witness :
  SrDesc.wf (SrDesc.mk (-32768) Byte.xff) /\
  (buf <- SrDesc.MarshalBinary (SrDesc.mk (-32768) Byte.xff) ;; SrDesc.UnmarshalBinary buf)
  = Ok (SrDesc.mk (-32768) Byte.xff).
Proof.
  assert (H : SrDesc.wf (SrDesc.mk (-32768) Byte.xff))
    by (unfold SrDesc.wf, is_int16; cbn; lia).
  split; [exact H|]. exact (SrDesc_decode_encode _ H).
Defined.

Lemma nth_array_set_same {A} (d : A) (a : list A) (i : Z) (x : A) :
  0 <= i < len a -> nth (Z.to_nat i) (array_set a i x) d = x.
Proof.
  intros H. unfold array_set.
  rewrite app_nth2 by (rewrite length_firstn; unfold len in H; lia).
  rewrite length_firstn.
  replace (Z.to_nat i - Nat.min (Z.to_nat i) (List.length a))%nat with 0%nat
    by (unfold len in H; lia).
  reflexivity.
Qed.

Lemma nth_array_set_other {A} (d : A) (a : list A) (i j : Z) (x : A) :
  0 <= i < len a -> 0 <= j -> j <> i ->
  nth (Z.to_nat j) (array_set a i x) d = nth (Z.to_nat j) a d.
Proof.
  intros Hi Hj Hne. unfold array_set. unfold len in Hi.
  destruct (Z_lt_le_dec j i) as [Hlt|Hge].
  - rewrite app_nth1 by (rewrite length_firstn; lia).
    apply nth_firstn_lt || (rewrite nth_firstn; destruct (Nat.ltb_spec (Z.to_nat j) (Z.to_nat i)); [reflexivity|lia]).
  - rewrite app_nth2 by (rewrite length_firstn; lia).
    rewrite length_firstn.
    replace (Z.to_nat j - Nat.min (Z.to_nat i) (List.length a))%nat
      with (S (Z.to_nat j - S (Z.to_nat i)))%nat by lia.
    cbn [nth]. rewrite nth_skipn. f_equal. lia.
Qed.

Lemma length_array_set {A} (a : list A) (i : Z) (x : A) :
  0 <= i < len a -> List.length (array_set a i x) = List.length a.
Proof.
  intros H. unfold array_set, len in *.
  rewrite length_app, length_firstn. cbn [List.length]. rewrite length_skipn. lia.
Qed.

(** X2. [SetSubrecord] writes one slot and nothing else: for an index
    in 0..7 the slot reads back as written, every other slot and every
    header field is as before; for any other index the call fails and
    nothing is returned to read. *)
Theorem SetSubrecord_spec (h : DatexHeader.t) (index srOffset : Z) (srType : byte) :
  List.length (DatexHeader.SrDesc h) = 8%nat ->
  (0 <= index < 8 ->
   exists h',
     DatexHeader.SetSubrecord h index srOffset srType = Ok h' /\
     DatexHeader.GetSubrecordType h' index = srType /\
     DatexHeader.GetSubrecordOffset h' index = srOffset /\
     (forall j, j <> index ->
                DatexHeader.GetSubrecordType h' j = DatexHeader.GetSubrecordType h j /\
                DatexHeader.GetSubrecordOffset h' j = DatexHeader.GetSubrecordOffset h j) /\
     DatexHeader.with_SrDesc h' (DatexHeader.SrDesc h) = h /\
     List.length (DatexHeader.SrDesc h') = 8%nat) /\
  (~ 0 <= index < 8 ->
   DatexHeader.SetSubrecord h index srOffset srType
   = Err (Errorf ("invalid subrecord index: " ++ itoa index))).
Proof.
  intros Hl. assert (Hlen : len (DatexHeader.SrDesc h) = 8) by (unfold len; lia).
  unfold DatexHeader.SetSubrecord. split; intros Hi.
  - destruct (index <? 0) eqn:E1; [lia|]. destruct (8 <=? index) eqn:E2; [lia|].
    cbn [orb]. eexists. split; [reflexivity|].
    unfold DatexHeader.GetSubrecordType, DatexHeader.GetSubrecordOffset,
      DatexHeader.SrDesc_at, DatexHeader.with_SrDesc. cbn [DatexHeader.SrDesc].
    destruct (0 <=? index) eqn:E3; [|lia]. destruct (index <? 8) eqn:E4; [|lia].
    cbn [andb]. rewrite nth_array_set_same by lia. cbn [SrDesc.SrType SrDesc.SrOffset].
    repeat split.
    + destruct ((0 <=? j) && (j <? 8)) eqn:Ej; [|reflexivity].
      rewrite nth_array_set_other by lia. reflexivity.
    + destruct ((0 <=? j) && (j <? 8)) eqn:Ej; [|reflexivity].
      rewrite nth_array_set_other by lia. reflexivity.
    + now destruct h.
    + rewrite length_array_set by lia. exact Hl.
  - destruct ((index <? 0) || (8 <=? index)) eqn:E; [reflexivity|].
    apply orb_false_elim in E. lia.
Qed.

Lemma SetSubrecord_spec_witness :
  List.length (DatexHeader.SrDesc sample_header) = 8%nat /\
  DatexHeader.SetSubrecord sample_header 8 0 Byte.x01
  = Err (Errorf "invalid subrecord index: 8").
Proof.
  split; [reflexivity|].
  apply (proj2 (SetSubrecord_spec sample_header 8 0 Byte.x01 eq_refl)). lia.
Defined.

(** X3. [GetActiveSubrecordCount] is the number of descriptors whose
    type is not the end-of-list sentinel, wherever in the table they
    are; after [ClearSubrecords] it is 0 and all eight slots read as
    sentinels with offset 0. *)
Theorem GetActiveSubrecordCount_spec (h : DatexHeader.t) :
  List.length (DatexHeader.SrDesc h) = 8%nat ->
  DatexHeader.GetActiveSubrecordCount h
  = len (filter SrDesc.IsValid (DatexHeader.SrDesc h)) /\
  DatexHeader.GetActiveSubrecordCount (DatexHeader.ClearSubrecords h) = 0 /\
  DatexHeader.SrDesc (DatexHeader.ClearSubrecords h)
  = repeat (SrDesc.mk 0 Byte.xff) 8.
Proof.
  intros Hl. destruct h as [rlen rnbr dl pid rt ns r2 r3 mt descs]. cbn in Hl.
  do 8 (destruct descs as [|? descs]; [discriminate Hl|]).
  destruct descs; [|discriminate Hl]. clear Hl.
  split; [|split; reflexivity].
  unfold DatexHeader.GetActiveSubrecordCount, DatexHeader.SrDesc_at.
  cbn [DatexHeader.SrDesc fold_left filter].
  change (Z.to_nat 0) with 0%nat. change (Z.to_nat 1) with 1%nat.
  change (Z.to_nat 2) with 2%nat. change (Z.to_nat 3) with 3%nat.
  change (Z.to_nat 4) with 4%nat. change (Z.to_nat 5) with 5%nat.
  change (Z.to_nat 6) with 6%nat. change (Z.to_nat 7) with 7%nat.
  cbn [nth].
  destruct (SrDesc.IsValid t), (SrDesc.IsValid t0), (SrDesc.IsValid t1),
    (SrDesc.IsValid t2), (SrDesc.IsValid t3), (SrDesc.IsValid t4),
    (SrDesc.IsValid t5), (SrDesc.IsValid t6); reflexivity.
Qed.

Lemma GetActiveSubrecordCount_spec_witness :
  DatexHeader.GetActiveSubrecordCount sample_header = 3 /\
  DatexHeader.GetActiveSubrecordCount (DatexHeader.ClearSubrecords sample_header) = 0.
Proof.
  destruct (GetActiveSubrecordCount_spec sample_header eq_refl) as [H1 [H2 _]].
  split; [rewrite H1; reflexivity | exact H2].
Defined.

(** X4. [ZeroReservedFields] makes [ValidateReservedFields] pass and
    touches only the three reserved fields; validation passes exactly
    for the headers that zeroing leaves unchanged. *)
Theorem ZeroReservedFields_spec (h : DatexHeader.t) :
  DatexHeader.ValidateReservedFields (DatexHeader.ZeroReservedFields h) = Ok tt /\
  (DatexHeader.ValidateReservedFields h = Ok tt <-> DatexHeader.ZeroReservedFields h = h).
Proof.
  split; [reflexivity|].
  destruct h as [rlen rnbr dl pid rt ns r2 r3 mt descs].
  unfold DatexHeader.ValidateReservedFields, DatexHeader.ZeroReservedFields.
  cbn [DatexHeader.NSubnet DatexHeader.Reserved2 DatexHeader.Reserved3 DatexHeader.RLen
       DatexHeader.RNbr DatexHeader.DriLevel DatexHeader.PlugID DatexHeader.RTime
       DatexHeader.RMainType DatexHeader.SrDesc].
  split.
  - destruct (byte.unsigned ns =? 0) eqn:E1; cbn [negb]; [|discriminate].
    destruct (byte.unsigned r2 =? 0) eqn:E2; cbn [negb]; [|discriminate].
    destruct (r3 =? 0) eqn:E3; cbn [negb]; [|discriminate]. intros _.
    apply Z.eqb_eq in E1, E2, E3.
    apply (byte.unsigned_inj _ Byte.x00) in E1. apply (byte.unsigned_inj _ Byte.x00) in E2.
    now subst.
  - intros H. injection H as <- <- <-. reflexivity.
Qed.

(** ** Alarm records are never decoded *)

(** X5. [ValidateAlarmData] accepts no buffer at all: one shorter than
    32 bytes is too short, and of any other only the first 32 bytes go
    to the header decoder, which wants 40. *)
Theorem ValidateAlarmData_rejects_all (data : list byte) :
  ValidateAlarmData data
  = Err (Errorf (if len data <? 32 then "data too short for alarm record"
                 else "invalid header: DRI error: invalid data length")).
Proof.
  unfold ValidateAlarmData. destruct (len data <? 32) eqn:E; [reflexivity|].
  unfold slice_to. rewrite slice_ok by lia. cbn [bind].
  rewrite DatexHeader_UnmarshalBinary_short by len_solve. reflexivity.
Qed.

(** X6. No input makes the alarm parser return a record:
    [ParseAlarmData] fails with [ErrInvalidDataLength] on every buffer
    and leaves exactly one new diagnostic, and [ParseMultipleAlarms]
    returns the empty list without an error, with at most one new
    diagnostic. *)
Theorem alarm_parsers_return_no_record (data : list byte) (errs : list string) :
  (exists msg, AlarmParser.ParseAlarmData data errs
               = (Err ErrInvalidDataLength, errs ++ [msg])) /\
  (exists msgs, AlarmParser.ParseMultipleAlarms data errs = (Ok [], errs ++ msgs) /\
                (List.length msgs <= 1)%nat).
Proof.
  split.
  - destruct (Z_lt_le_dec (len data) 32) as [H|H].
    + unfold AlarmParser.ParseAlarmData. destruct (len data <? 32) eqn:E; [|lia].
      eexists. reflexivity.
    + rewrite ParseAlarmData_refuses by assumption. eexists. reflexivity.
  - rewrite ParseMultipleAlarms_decodes_nothing. destruct (len data <? 32).
    + exists []. rewrite app_nil_r. split; [reflexivity|cbn; lia].
    + eexists. split; [reflexivity|cbn; lia].
Qed.

(** ** The data class bits *)


(** ** Bit fields of the NMT group *)

(** X8. The three counters packed in [Ptc] tile its sixteen bits: the
    post-tetanic count is 0..31, the TOF count 0..15, the stimulus
    current 0..127, and together they determine the word; the stimulus
    mode and the pulse width are 0..3, so their descriptions never
    take the default branch. *)
Theorem NMT_bit_fields (n : NMTGroup.t) :
  uint16 (NMTGroup.Ptc n)
  = NMTGroup.GetPostTetanicCount n + 32 * NMTGroup.GetTOFCount n
    + 512 * NMTGroup.GetStimulusCurrent n /\
  0 <= NMTGroup.GetPostTetanicCount n < 32 /\
  0 <= NMTGroup.GetTOFCount n < 16 /\
  0 <= NMTGroup.GetStimulusCurrent n < 128 /\
  0 <= NMTGroup.GetStimulusMode n < 4 /\
  0 <= NMTGroup.GetPulseWidth n < 4 /\
  NMTGroup.GetStimulusModeDescription n <> "Unknown stimulus mode"%string /\
  NMTGroup.GetPulseWidthDescription n <> "Unknown pulse width"%string.
Proof.
  assert (Hm : 0 <= NMTGroup.GetStimulusMode n < 4).
  { unfold NMTGroup.GetStimulusMode. change 3 with (Z.ones 2).
    rewrite Z.land_ones by lia. apply Z.mod_pos_bound. lia. }
  assert (Hw : 0 <= NMTGroup.GetPulseWidth n < 4).
  { unfold NMTGroup.GetPulseWidth. change 3 with (Z.ones 2).
    rewrite Z.land_ones by lia. apply Z.mod_pos_bound. lia. }
  unfold NMTGroup.GetStimulusModeDescription, NMTGroup.GetPulseWidthDescription.
  cbv zeta.
  unfold NMTGroup.GetPostTetanicCount, NMTGroup.GetTOFCount, NMTGroup.GetStimulusCurrent,
    uint16.
  change 31 with (Z.ones 5). change 15 with (Z.ones 4). change 127 with (Z.ones 7).
  rewrite !Z.land_ones, !Z.shiftr_div_pow2 by lia.
  change (2 ^ 5) with 32. change (2 ^ 4) with 16. change (2 ^ 7) with 128.
  change (2 ^ 9) with 512.
  repeat split; try (apply Z.mod_pos_bound; lia); try lia.
  - generalize (NMTGroup.Ptc n). intros p.
    pose proof (Z.div_mod p 32 ltac:(lia)).
    pose proof (Z.div_mod (p / 32) 16 ltac:(lia)).
    pose proof (Z.div_mod (p / 32 / 16) 128 ltac:(lia)).
    pose proof (Z.mod_pos_bound p 32 ltac:(lia)).
    pose proof (Z.mod_pos_bound (p / 32) 16 ltac:(lia)).
    pose proof (Z.mod_pos_bound (p / 32 / 16) 128 ltac:(lia)).
    replace (p / 512) with (p / 32 / 16) by (rewrite Z.div_div by lia; reflexivity).
    symmetry. apply (Z.mod_unique_pos _ _ (p / 32 / 16 / 128)); lia.
  - destruct (Z.eqb_spec (NMTGroup.GetStimulusMode n) 0); [discriminate|].
    destruct (Z.eqb_spec (NMTGroup.GetStimulusMode n) 1); [discriminate|].
    destruct (Z.eqb_spec (NMTGroup.GetStimulusMode n) 2); [discriminate|].
    destruct (Z.eqb_spec (NMTGroup.GetStimulusMode n) 3); [discriminate|]. lia.
  - destruct (Z.eqb_spec (NMTGroup.GetPulseWidth n) 0); [discriminate|].
    destruct (Z.eqb_spec (NMTGroup.GetPulseWidth n) 1); [discriminate|].
    destruct (Z.eqb_spec (NMTGroup.GetPulseWidth n) 2); [discriminate|].
    destruct (Z.eqb_spec (NMTGroup.GetPulseWidth n) 3); [discriminate|]. lia.
Qed.

(** ** The parameter group decoders *)

Lemma u16_at_skipn (data : list byte) (off : nat) :
  le_combine (firstn 2 (skipn off data)) = u16_at data off.
Proof. reflexivity. Qed.

Lemma read_int16_ok (data : list byte) (offset : Z) :
  0 <= offset -> offset + 2 <= len data ->
  read_int16 data offset = Ok (i16_at data (Z.to_nat offset)).
Proof.
  intros H1 H2. unfold read_int16. rewrite slice_from_ok by lia. cbn [bind].
  rewrite Uint16_ok by len_solve. reflexivity.
Qed.

Lemma GroupHeader_UnmarshalBinary_ok (data : list byte) :
  4 <= len data -> GroupHeader.UnmarshalBinary data = Ok (group_header_at data).
Proof.
  intros H. unfold GroupHeader.UnmarshalBinary. change GroupHeader.Size with 4.
  destruct (len data <? 4) eqn:E; [lia|].
  rewrite !slice_ok by lia. cbn [bind]. rewrite !Uint16_ok by len_solve. cbn [bind].
  change (Z.to_nat (2 - 0)) with 2%nat. change (Z.to_nat (4 - 2)) with 2%nat.
  change (Z.to_nat 0) with 0%nat. change (Z.to_nat 2) with 2%nat.
  rewrite !firstn_firstn_same. reflexivity.
Qed.

Ltac group_decode :=
  intros;
  match goal with
  | |- context [len ?d <? ?n] =>
      let E := fresh "E" in
      destruct (len d <? n) eqn:E; [reflexivity|];
      assert (n <= len d) by lia; clear E;
      cbv zeta;
      try (rewrite (slice_from_ok d 0) by lia;
           change (skipn (Z.to_nat 0) d) with d; cbn [bind];
           rewrite GroupHeader_UnmarshalBinary_ok by lia; cbn [bind])
  end;
  change GroupHeader.Size with 4;
  repeat (rewrite read_int16_ok by lia; cbn [bind]);
  reflexivity.

(** X9. Each parameter group decoder checks the length once and then
    reads fixed offsets: a buffer shorter than the group is refused
    with [ErrInvalidDataLength], any other decodes, whatever its bytes,
    to the header words at 0 and 2 and the signed little-endian fields
    that follow; no buffer makes a decoder panic and bytes past the
    group are ignored. *)
Theorem group_decoders_layout (data : list byte) :
  O2Group.UnmarshalBinary data
  = (if len data <? 8 then Err ErrInvalidDataLength
     else Ok (O2Group.mk (group_header_at data) (i16_at data 4) (i16_at data 6))) /\
  N2OGroup.UnmarshalBinary data
  = (if len data <? 8 then Err ErrInvalidDataLength
     else Ok (N2OGroup.mk (group_header_at data) (i16_at data 4) (i16_at data 6))) /\
  AnesthesiaAgentGroup.UnmarshalBinary data
  = (if len data <? 10 then Err ErrInvalidDataLength
     else Ok (AnesthesiaAgentGroup.mk (group_header_at data)
                (i16_at data 4) (i16_at data 6) (i16_at data 8))) /\
  FlowVolumeGroup.UnmarshalBinary data
  = (if len data <? 20 then Err ErrInvalidDataLength
     else Ok (FlowVolumeGroup.mk (group_header_at data)
                (i16_at data 4) (i16_at data 6) (i16_at data 8) (i16_at data 10)
                (i16_at data 12) (i16_at data 14) (i16_at data 16) (i16_at data 18))) /\
  COWedgeGroup.UnmarshalBinary data
  = (if len data <? 12 then Err ErrInvalidDataLength
     else Ok (COWedgeGroup.mk (group_header_at data)
                (i16_at data 4) (i16_at data 6) (i16_at data 8) (i16_at data 10))) /\
  NMTGroup.UnmarshalBinary data
  = (if len data <? 10 then Err ErrInvalidDataLength
     else Ok (NMTGroup.mk (group_header_at data)
                (i16_at data 4) (i16_at data 6) (i16_at data 8))) /\
  ECGExtraGroup.UnmarshalBinary data
  = (if len data <? 6 then Err ErrInvalidDataLength
     else Ok (ECGExtraGroup.mk (i16_at data 0) (i16_at data 2) (i16_at data 4))) /\
  SvO2Group.UnmarshalBinary data
  = (if len data <? 6 then Err ErrInvalidDataLength
     else Ok (SvO2Group.mk (group_header_at data) (i16_at data 4))).
Proof.
  unfold O2Group.UnmarshalBinary, N2OGroup.UnmarshalBinary,
    AnesthesiaAgentGroup.UnmarshalBinary, FlowVolumeGroup.UnmarshalBinary,
    COWedgeGroup.UnmarshalBinary, NMTGroup.UnmarshalBinary,
    ECGExtraGroup.UnmarshalBinary, SvO2Group.UnmarshalBinary.
  change O2Group.Size with 8. change N2OGroup.Size with 8.
  change AnesthesiaAgentGroup.Size with 10. change FlowVolumeGroup.Size with 20.
  change COWedgeGroup.Size with 12. change NMTGroup.Size with 10.
  change ECGExtraGroup.Size with 6. change SvO2Group.Size with 6.
  repeat split; group_decode.
Qed.

(** ** Waveform subrecords, sample by sample *)

Lemma length_samples_at (data : list byte) (n : nat) :
  List.length (samples_at data n) = n.
Proof. unfold samples_at. now rewrite length_map, length_seq. Qed.

Lemma samples_at_S (data : list byte) (n : nat) :
  samples_at data (S n) = samples_at data n ++ [i16_at data (6 + 2 * n)].
Proof. unfold samples_at. rewrite seq_S, map_app. reflexivity. Qed.

Lemma read_samples_loop (data : list byte) (m : nat) :
  forall k : nat,
    6 + 2 * Z.of_nat (k + m) <= len data ->
    for_loop m (Z.of_nat k)
      (fun i samples =>
         let offset := 6 + i * 2 in
         b <- slice data offset (offset + 2) ;;
         u <- LittleEndian.Uint16 b ;;
         set_elem samples i (int16 u))
      (samples_at data k ++ repeat 0 m)
    = Ok (samples_at data (k + m)).
Proof.
  induction m as [|m IH]; intros k H.
  - cbn [for_loop repeat]. now rewrite app_nil_r, Nat.add_0_r.
  - cbn [for_loop]. cbv zeta in IH |- *.
    rewrite slice_ok by lia. cbn [bind].
    rewrite Uint16_ok by len_solve. cbn [bind].
    rewrite set_elem_ok
      by (rewrite len_app, len_repeat; unfold len; rewrite length_samples_at; lia).
    cbn [bind]. rewrite Nat2Z.id.
    rewrite firstn_app, skipn_app, length_samples_at.
    rewrite (firstn_all2 (samples_at data k)) by (rewrite length_samples_at; lia).
    rewrite (skipn_all2 (samples_at data k)) by (rewrite length_samples_at; lia).
    replace (k - k)%nat with 0%nat by lia. replace (S k - k)%nat with 1%nat by lia.
    change (firstn 0 (repeat 0 (S m))) with (@nil Z).
    change (skipn 1 (repeat 0 (S m))) with (repeat 0 m). rewrite app_nil_r.
    change ([] ++ repeat 0 m) with (repeat 0 m).
    replace (Z.to_nat (6 + Z.of_nat k * 2 + 2 - (6 + Z.of_nat k * 2))) with 2%nat by lia.
    rewrite firstn_firstn_same.
    replace (Z.to_nat (6 + Z.of_nat k * 2)) with (6 + 2 * k)%nat by lia.
    change (int16 (le_combine (firstn 2 (skipn (6 + 2 * k) data))))
      with (i16_at data (6 + 2 * k)).
    replace (samples_at data k ++ i16_at data (6 + 2 * k) :: repeat 0 m)
      with (samples_at data (S k) ++ repeat 0 m)
      by (rewrite samples_at_S, <- app_assoc; reflexivity).
    replace (Z.of_nat k + 1) with (Z.of_nat (S k)) by lia.
    rewrite IH by lia. f_equal. f_equal. lia.
Qed.

Lemma read_samples_ok (data : list byte) (n : Z) :
  0 <= n -> 6 + 2 * n <= len data ->
  read_samples data 6 n = Ok (samples_at data (Z.to_nat n)).
Proof.
  intros H0 H. unfold read_samples, make.
  destruct (n <? 0) eqn:E; [lia|]. cbn [bind].
  apply (read_samples_loop data (Z.to_nat n) 0). lia.
Qed.

Lemma WaveformHeader_UnmarshalBinary_firstn (data : list byte) :
  6 <= len data ->
  WaveformHeader.UnmarshalBinary (firstn 6 data) = Ok (wave_header data).
Proof.
  intros H. pose proof (WaveformHeader_of_prefix data H) as Hh.
  unfold slice_to in Hh. rewrite slice_ok in Hh by lia. exact Hh.
Qed.

Section WaveformFacts.
Variable DRI_WF_PLETH : Z.
Variable wp : WaveformParser.

Lemma ParseWaveformData_header (data : list byte) :
  6 <= len data ->
  ParseWaveformData DRI_WF_PLETH wp data
  = (if len data <? 6 + declared_ActLen data * 2
     then Err (Errorf ("data length mismatch: expected "
                       ++ itoa (6 + declared_ActLen data * 2)
                       ++ ", got " ++ itoa (len data)))
     else samples <- read_samples data 6 (declared_ActLen data) ;;
          convertToJSON DRI_WF_PLETH wp (wave_header data) samples).
Proof.
  intros H. unfold ParseWaveformData.
  destruct (len data <? 6) eqn:E; [lia|].
  unfold slice_to. rewrite slice_ok by lia. cbn [bind].
  change (Z.to_nat (6 - 0)) with 6%nat. change (skipn (Z.to_nat 0) data) with data.
  rewrite WaveformHeader_UnmarshalBinary_firstn by assumption. reflexivity.
Qed.

Lemma ParseWaveformData_ok (data : list byte) :
  wave_holds data ->
  ParseWaveformData DRI_WF_PLETH wp data
  = convertToJSON DRI_WF_PLETH wp (wave_header data)
      (samples_at data (Z.to_nat (declared_ActLen data))).
Proof.
  intros [H0 H]. rewrite ParseWaveformData_header by lia.
  destruct (len data <? 6 + declared_ActLen data * 2) eqn:E; [lia|].
  rewrite read_samples_ok by lia. reflexivity.
Qed.

Lemma convert_samples_RawValue (i : Z) (samples : list Z) :
  map sj_RawValue (convert_samples DRI_WF_PLETH wp i samples) = samples.
Proof.
  revert i. induction samples as [|x l IH]; intros i; [reflexivity|].
  cbn [convert_samples map sj_RawValue]. now rewrite IH.
Qed.

Lemma convert_samples_Index (i : Z) (samples : list Z) :
  map sj_Index (convert_samples DRI_WF_PLETH wp i samples)
  = map (fun k => i + Z.of_nat k) (seq 0 (List.length samples)).
Proof.
  revert i. induction samples as [|x l IH]; intros i; [reflexivity|].
  cbn [convert_samples map sj_Index List.length seq]. rewrite IH.
  rewrite <- seq_shift, map_map. f_equal; [lia|]. apply map_ext. intros k. lia.
Qed.

Lemma convert_samples_values (i : Z) (samples : list Z) :
  Forall (fun s => sj_PhysicalValue s
                   = ConvertSampleToPhysicalValue DRI_WF_PLETH (sj_RawValue s)
                       (subrecordType wp) /\
                   sj_IsControlCode s = IsControlCode (sj_RawValue s) /\
                   sj_Unit s = getUnit DRI_WF_PLETH (subrecordType wp))
         (convert_samples DRI_WF_PLETH wp i samples).
Proof.
  revert i. induction samples as [|x l IH]; intros i; cbn [convert_samples].
  - constructor.
  - constructor; [repeat split | apply IH].
Qed.

Lemma u16_at_firstn (data : list byte) (n off : nat) :
  (off + 2 <= n)%nat -> u16_at (firstn n data) off = u16_at data off.
Proof.
  intros H. unfold u16_at. rewrite skipn_firstn_comm, firstn_firstn.
  replace (Nat.min 2 (n - off)) with 2%nat by lia. reflexivity.
Qed.

Lemma samples_at_firstn (data : list byte) (n m : nat) :
  (6 + 2 * m <= n)%nat -> samples_at (firstn n data) m = samples_at data m.
Proof.
  intros H. unfold samples_at. apply map_ext_in. intros k Hk. apply in_seq in Hk.
  unfold i16_at. rewrite u16_at_firstn by lia. reflexivity.
Qed.

Lemma wave_header_firstn (data : list byte) (n : nat) :
  (6 <= n)%nat -> wave_header (firstn n data) = wave_header data.
Proof.
  intros H. unfold wave_header, declared_ActLen.
  rewrite !u16_at_firstn by lia.
  change (le_combine (firstn 2 (firstn n data))) with (u16_at (firstn n data) 0).
  rewrite u16_at_firstn by lia. reflexivity.
Qed.

(** X10. A buffer that declares [ActLen = N >= 0] and holds at least
    [6 + 2N] bytes always decodes: the result has exactly [N] samples,
    numbered from 0, whose raw values are the little-endian [int16]
    words at offsets 6, 8, ...; each physical value, control-code flag
    and unit is that of its raw value; the header fields are the three
    words of the sub-header; and bytes past the declared samples play
    no part in the result. *)
Theorem ParseWaveformData_decodes (data : list byte) :
  wave_holds data ->
  exists w,
    ParseWaveformData DRI_WF_PLETH wp data = Ok w /\
    wj_TotalSamples w = declared_ActLen data /\
    map sj_RawValue (wj_Samples w) = samples_at data (Z.to_nat (declared_ActLen data)) /\
    map sj_Index (wj_Samples w) = map Z.of_nat (seq 0 (Z.to_nat (declared_ActLen data))) /\
    Forall (fun s => sj_PhysicalValue s
                     = ConvertSampleToPhysicalValue DRI_WF_PLETH (sj_RawValue s)
                         (subrecordType wp) /\
                     sj_IsControlCode s = IsControlCode (sj_RawValue s) /\
                     sj_Unit s = getUnit DRI_WF_PLETH (subrecordType wp))
           (wj_Samples w) /\
    hj_ActLen (wj_Header w) = declared_ActLen data /\
    hj_Status (wj_Header w) = u16_at data 2 /\
    hj_Label (wj_Header w) = u16_at data 4 /\
    ParseWaveformData DRI_WF_PLETH wp
      (firstn (Z.to_nat (6 + 2 * declared_ActLen data)) data) = Ok w.
Proof.
  intros Hh. pose proof Hh as [H0 H].
  rewrite ParseWaveformData_ok by assumption.
  eexists. split; [reflexivity|].
  cbn [wj_TotalSamples wj_Samples wj_Header hj_ActLen hj_Status hj_Label
       wave_header WaveformHeader.ActLen WaveformHeader.Status WaveformHeader.Label].
  repeat split.
  - unfold len. rewrite length_samples_at. lia.
  - apply convert_samples_RawValue.
  - rewrite convert_samples_Index, length_samples_at. reflexivity.
  - apply convert_samples_values.
  - set (n := Z.to_nat (6 + 2 * declared_ActLen data)).
    assert (Hn : (6 <= n)%nat) by lia.
    assert (Hd : declared_ActLen (firstn n data) = declared_ActLen data).
    { change (WaveformHeader.ActLen (wave_header (firstn n data))
              = WaveformHeader.ActLen (wave_header data)).
      now rewrite wave_header_firstn. }
    rewrite ParseWaveformData_ok
      by (unfold wave_holds; rewrite Hd, len_firstn; lia).
    rewrite Hd, wave_header_firstn by assumption.
    rewrite samples_at_firstn by lia. reflexivity.
Qed.

(** X11. [ValidateWaveformData] accepts exactly the buffers that
    [ParseWaveformData] decodes, namely those of at least 6 bytes that
    declare a sample count [N >= 0] and hold at least [6 + 2N] bytes;
    what the validator refuses, the decoder does not decode. *)
Theorem ValidateWaveformData_iff_decodes (data : list byte) :
  (ValidateWaveformData data = Ok tt <-> wave_holds data) /\
  (wave_holds data <-> exists w, ParseWaveformData DRI_WF_PLETH wp data = Ok w).
Proof.
  unfold wave_holds.
  destruct (Z_lt_le_dec (len data) 6) as [H6|H6].
  { pose proof (len_nonneg data).
    unfold ValidateWaveformData, ParseWaveformData.
    destruct (len data <? 6) eqn:E; [|lia].
    split; split; intros Hx; try discriminate Hx; try lia.
    destruct Hx as [w Hw]. discriminate Hw. }
  rewrite ParseWaveformData_header by assumption.
  unfold ValidateWaveformData. destruct (len data <? 6) eqn:E; [lia|]. clear E.
  unfold slice_to. rewrite slice_ok by lia. cbn [bind].
  change (Z.to_nat (6 - 0)) with 6%nat. change (skipn (Z.to_nat 0) data) with data.
  rewrite WaveformHeader_UnmarshalBinary_firstn by assumption.
  cbn [wave_header WaveformHeader.ActLen].
  destruct (len data <? 6 + declared_ActLen data * 2) eqn:E1.
  { split; split; intros Hx; try discriminate Hx; try lia.
    destruct Hx as [w Hw]. discriminate Hw. }
  destruct (declared_ActLen data <? 0) eqn:E2.
  { split; split; intros Hx; try discriminate Hx; try lia.
    destruct Hx as [w Hw]. unfold read_samples, make in Hw. rewrite E2 in Hw.
    discriminate Hw. }
  split; split; intros Hx; try reflexivity; try lia.
  rewrite read_samples_ok by lia. eexists. reflexivity.
Qed.
End WaveformFacts.

Lemma ParseWaveformData_decodes_witness :
  wave_holds wave_ok /\
  exists w,
    ParseWaveformData 8 (NewWaveformParser 8 DRI_WF_CO2) wave_ok = Ok w /\
    wj_TotalSamples w = 3 /\
    map sj_RawValue (wj_Samples w) = [2500; -32000; 100].
Proof.
  assert (H : wave_holds wave_ok) by (split; vm_compute; discriminate).
  split; [exact H|].
  destruct (ParseWaveformData_decodes 8 (NewWaveformParser 8 DRI_WF_CO2) wave_ok H)
    as [w [H1 [H2 [H3 _]]]].
  exists w. split; [exact H1|]. split; [exact H2 | exact H3].
Defined.

(** ** Encoding a waveform and reading it back *)

Lemma WaveformHeader_MarshalBinary_ok (h : WaveformHeader.t) :
  WaveformHeader.MarshalBinary h
  = Ok (le_split 2 (uint16 (WaveformHeader.ActLen h))
        ++ le_split 2 (WaveformHeader.Status h) ++ le_split 2 (WaveformHeader.Label h)).
Proof. reflexivity. Qed.

Lemma length_sample_bytes (samples : list Z) :
  List.length (sample_bytes samples) = (2 * List.length samples)%nat.
Proof.
  induction samples as [|x l IH]; [reflexivity|].
  change (sample_bytes (x :: l)) with (le_split 2 (uint16 x) ++ sample_bytes l).
  rewrite length_app, IH, length_le_split. cbn [List.length]. lia.
Qed.

Lemma skipn_repeat_sub {A} (x : A) (n m : nat) :
  skipn n (repeat x m) = repeat x (m - n).
Proof.
  revert m. induction n as [|n IH]; intros m.
  - now rewrite Nat.sub_0_r.
  - destruct m as [|m]; [reflexivity|]. cbn [repeat skipn Nat.sub]. apply IH.
Qed.

Lemma put_samples_ok (samples : list Z) :
  forall (i : Z) (pre : list byte),
    0 <= i -> len pre = 6 + i * 2 ->
    WaveformData.put_samples samples i (pre ++ repeat Byte.x00 (2 * List.length samples))
    = Ok (pre ++ sample_bytes samples).
Proof.
  induction samples as [|x l IH]; intros i pre Hi Hp.
  - reflexivity.
  - cbn [WaveformData.put_samples List.length].
    replace (2 * S (List.length l))%nat with (S (S (2 * List.length l))) by lia.
    change WaveformHeader.Size with 6. unfold through.
    rewrite slice_from_ok by (rewrite len_app; pose proof (len_nonneg (A:=byte)
      (repeat Byte.x00 (S (S (2 * List.length l))))); lia).
    replace (Z.to_nat (6 + i * 2)) with (List.length pre) by (unfold len in Hp; lia).
    rewrite skipn_app, skipn_all, Nat.sub_diag. cbn [bind app skipn repeat].
    rewrite firstn_app, firstn_all, Nat.sub_diag. cbn [firstn]. rewrite app_nil_r.
    unfold LittleEndian.PutUint16. rewrite (elem_ok Byte.x00) by (rewrite !len_cons;
      pose proof (len_nonneg (A:=byte) (repeat Byte.x00 (2 * List.length l))); lia).
    cbn [bind]. unfold copy.
    change (le_split 2 (uint16 x))
      with [byte.of_Z (uint16 x); byte.of_Z (Z.shiftr (uint16 x) 8)].
    cbn [List.length firstn skipn app]. rewrite firstn_nil. cbn [app].
    change (pre ++ byte.of_Z (uint16 x) :: byte.of_Z (Z.shiftr (uint16 x) 8)
                :: repeat Byte.x00 (2 * List.length l))
      with (pre ++ [byte.of_Z (uint16 x); byte.of_Z (Z.shiftr (uint16 x) 8)]
                ++ repeat Byte.x00 (2 * List.length l)).
    rewrite app_assoc. rewrite IH by (rewrite ?len_app, ?len_cons; unfold len in *;
                                       cbn [List.length]; lia).
    rewrite <- app_assoc. reflexivity.
Qed.

Lemma samples_of_bytes (samples : list Z) :
  Forall is_int16 samples ->
  forall pre : list byte,
    map (fun k => i16_at (pre ++ sample_bytes samples) (List.length pre + 2 * k))
        (seq 0 (List.length samples))
    = samples.
Proof.
  induction 1 as [|x l Hx Hl IH]; intros pre; [reflexivity|].
  cbn [List.length seq map]. f_equal.
  - unfold i16_at, u16_at. rewrite Nat.mul_0_r, Nat.add_0_r.
    rewrite skipn_app, skipn_all, Nat.sub_diag.
    change (sample_bytes (x :: l))
      with ([byte.of_Z (uint16 x); byte.of_Z (Z.shiftr (uint16 x) 8)] ++ sample_bytes l).
    cbn [app skipn firstn].
    rewrite le_combine_2. apply int16_uint16. exact Hx.
  - rewrite <- seq_shift, map_map.
    rewrite <- (IH (pre ++ le_split 2 (uint16 x))) at 2.
    apply map_ext. intros k. f_equal.
    + unfold sample_bytes. cbn [flat_map]. now rewrite <- app_assoc.
    + rewrite length_app, length_le_split. lia.
Qed.

(** X12. A waveform whose header counts its samples survives its
    encoding: [MarshalBinary] returns [6 + 2N] bytes, and
    [UnmarshalBinary] on them gives back the header and every sample,
    whatever the receiver held before. *)
Theorem WaveformData_decode_encode (w w0 : WaveformData.t) :
  WaveformHeader.wf (WaveformData.Header w) ->
  Forall is_int16 (WaveformData.Samples w) ->
  WaveformHeader.ActLen (WaveformData.Header w) = len (WaveformData.Samples w) ->
  exists buf,
    WaveformData.MarshalBinary w = Ok buf /\
    len buf = 6 + 2 * len (WaveformData.Samples w) /\
    WaveformData.UnmarshalBinary w0 buf = (w, Ok tt).
Proof.
  destruct w as [[actlen status label] samples].
  cbn [WaveformData.Header WaveformData.Samples WaveformHeader.ActLen].
  intros [Ha Hs Hl] Hsm Hn.
  cbn [WaveformHeader.ActLen WaveformHeader.Status WaveformHeader.Label] in Ha, Hs, Hl.
  pose proof (len_nonneg samples) as Hpos.
  set (hb := le_split 2 (uint16 actlen) ++ le_split 2 status ++ le_split 2 label).
  assert (Hhb : len hb = 6) by reflexivity.
  exists (hb ++ sample_bytes samples).
  assert (Hlen : len (hb ++ sample_bytes samples) = 6 + 2 * len samples).
  { rewrite len_app, Hhb. unfold len. rewrite length_sample_bytes. lia. }
  split; [|split; [exact Hlen|]].
  - unfold WaveformData.MarshalBinary. rewrite WaveformHeader_MarshalBinary_ok.
    cbn [bind WaveformData.Header WaveformData.Samples WaveformHeader.ActLen
         WaveformHeader.Status WaveformHeader.Label].
    fold hb. unfold WaveformData.Size, make. change WaveformHeader.Size with 6.
    cbn [WaveformData.Samples].
    destruct (6 + len samples * 2 <? 0) eqn:E; [lia|]. cbn [bind].
    replace (copy (repeat Byte.x00 (Z.to_nat (6 + len samples * 2))) hb)
      with (hb ++ repeat Byte.x00 (2 * List.length samples)).
    + apply put_samples_ok; lia.
    + unfold copy. rewrite repeat_length.
      rewrite firstn_all2 by (change (List.length hb) with 6%nat; unfold len in *; lia).
      f_equal. change (List.length hb) with 6%nat. rewrite skipn_repeat_sub.
      f_equal. unfold len. lia.
  - unfold WaveformData.UnmarshalBinary. change WaveformHeader.Size with 6.
    rewrite Hlen. destruct (6 + 2 * len samples <? 6) eqn:E; [lia|]. clear E.
    rewrite WaveformHeader_of_prefix by lia.
    assert (Hw : wave_header (hb ++ sample_bytes samples)
                 = WaveformHeader.mk actlen status label).
    { unfold wave_header, declared_ActLen, u16_at, hb.
      change (le_split 2 (uint16 actlen))
        with [byte.of_Z (uint16 actlen); byte.of_Z (Z.shiftr (uint16 actlen) 8)].
      change (le_split 2 status) with [byte.of_Z status; byte.of_Z (Z.shiftr status 8)].
      change (le_split 2 label) with [byte.of_Z label; byte.of_Z (Z.shiftr label 8)].
      cbn [app firstn skipn].
      rewrite !le_combine_2. rewrite int16_uint16 by assumption.
      rewrite !uint16_small by assumption. reflexivity. }
    rewrite Hw. cbn [WaveformHeader.ActLen]. rewrite Hn.
    destruct (6 + 2 * len samples <? 6 + len samples * 2) eqn:E; [lia|]. clear E.
    rewrite read_samples_ok by lia.
    unfold samples_at. unfold len. rewrite Nat2Z.id.
    change 6%nat with (List.length hb) at 1.
    rewrite (samples_of_bytes samples Hsm hb). reflexivity.
Qed.

Lemma WaveformData_decode_encode_witness :
  exists buf,
    WaveformData.MarshalBinary (WaveformData.mk (WaveformHeader.mk 2 5 7) [-3; 700])
    = Ok buf /\
    len buf = 6 + 2 * 2 /\
    WaveformData.UnmarshalBinary WaveformData.zero buf
    = (WaveformData.mk (WaveformHeader.mk 2 5 7) [-3; 700], Ok tt).
Proof.
  apply (WaveformData_decode_encode
           (WaveformData.mk (WaveformHeader.mk 2 5 7) [-3; 700]) WaveformData.zero).
  - split; unfold is_int16, is_uint16; cbn; lia.
  - repeat constructor; unfold is_int16; lia.
  - reflexivity.
Defined.

(** ** The waveform splitter *)

Lemma slice_len {A} (s b : list A) (lo hi : Z) :
  slice s lo hi = Ok b -> len b = hi - lo.
Proof.
  unfold slice. destruct ((hi <? 0) || (len s <? hi)) eqn:E1; [discriminate|].
  destruct ((lo <? 0) || (hi <? lo)) eqn:E2; [discriminate|].
  apply orb_false_elim in E1, E2. intros H. injection H as <-.
  rewrite len_firstn, len_skipn. lia.
Qed.

Section WaveformStreamFacts.
Variable DRI_WF_PLETH : Z.
Variable wp : WaveformParser.

Lemma waveforms_loop_end (fuel : nat) (data : list byte) (offset : Z)
    (results : list WaveformJSON) :
  len data < offset + 6 ->
  waveforms_loop DRI_WF_PLETH fuel wp data offset results = Ok results.
Proof.
  intros H. destruct fuel; [reflexivity|]. cbn [waveforms_loop].
  destruct (negb (offset <? len data)); [reflexivity|].
  destruct (len data <? offset + 6) eqn:E; [reflexivity|lia].
Qed.

(** Enough fuel, for the waveform splitter: a turn goes round again
    only after a waveform of at least 6 bytes. *)
Lemma waveforms_loop_fuel (fuel1 fuel2 : nat) (data : list byte) (offset : Z)
    (results : list WaveformJSON) :
  len data - offset <= Z.of_nat fuel1 ->
  len data - offset <= Z.of_nat fuel2 ->
  waveforms_loop DRI_WF_PLETH fuel1 wp data offset results
  = waveforms_loop DRI_WF_PLETH fuel2 wp data offset results.
Proof.
  revert fuel2 offset results.
  induction fuel1 as [|fuel1 IH]; intros fuel2 offset results H1 H2.
  - rewrite !waveforms_loop_end by lia. reflexivity.
  - destruct fuel2 as [|fuel2]; [rewrite !waveforms_loop_end by lia; reflexivity|].
    cbn [waveforms_loop].
    destruct (negb (offset <? len data)); [reflexivity|].
    destruct (len data <? offset + 6); [reflexivity|].
    destruct (slice data offset (offset + 6)) as [b|e|q]; try reflexivity. cbn [bind].
    destruct (WaveformHeader.UnmarshalBinary b) as [h|e|q]; try reflexivity.
    destruct (len data <? offset + (6 + WaveformHeader.ActLen h * 2)); [reflexivity|].
    destruct (slice data offset (offset + (6 + WaveformHeader.ActLen h * 2)))
      as [r|e|q] eqn:Es; try reflexivity. cbn [bind].
    apply slice_len in Es.
    destruct (ParseWaveformData DRI_WF_PLETH wp r) as [w|e|q] eqn:Ep; try reflexivity.
    assert (6 <= len r).
    { unfold ParseWaveformData in Ep. destruct (len r <? 6) eqn:E; [discriminate|lia]. }
    apply IH; lia.
Qed.

Lemma waveforms_loop_record (fuel : nat) (pre r post : list byte)
    (results : list WaveformJSON) (w : WaveformJSON) :
  wave_record r ->
  ParseWaveformData DRI_WF_PLETH wp r = Ok w ->
  waveforms_loop DRI_WF_PLETH (S fuel) wp (pre ++ r ++ post) (len pre) results
  = waveforms_loop DRI_WF_PLETH fuel wp (pre ++ r ++ post) (len pre + len r)
      (results ++ [w]).
Proof.
  intros [H0 Hr] Hw. cbn [waveforms_loop].
  pose proof (len_nonneg pre). pose proof (len_nonneg post).
  destruct (len pre <? len (pre ++ r ++ post)) eqn:E1; [|rewrite !len_app in E1; lia].
  cbn [negb].
  destruct (len (pre ++ r ++ post) <? len pre + 6) eqn:E2; [rewrite !len_app in E2; lia|].
  assert (Hs : slice (pre ++ r ++ post) (len pre) (len pre + 6) = Ok (firstn 6 r)).
  { rewrite <- (firstn_skipn 6 r) at 1. rewrite <- app_assoc.
    replace (len pre + 6) with (len pre + len (firstn 6 r)) by (rewrite len_firstn; lia).
    apply slice_mid. }
  rewrite Hs. cbn [bind].
  rewrite WaveformHeader_UnmarshalBinary_firstn by lia.
  cbn [wave_header WaveformHeader.ActLen].
  replace (6 + declared_ActLen r * 2) with (len r) by lia.
  destruct (len (pre ++ r ++ post) <? len pre + len r) eqn:E3;
    [rewrite !len_app in E3; lia|].
  rewrite slice_mid. cbn [bind]. rewrite Hw. reflexivity.
Qed.

Lemma waveforms_loop_incomplete (fuel : nat) (pre r : list byte)
    (results : list WaveformJSON) :
  wave_incomplete r ->
  waveforms_loop DRI_WF_PLETH (S fuel) wp (pre ++ r) (len pre) results
  = Err (Errorf ("incomplete waveform data at offset " ++ itoa (len pre))).
Proof.
  intros [H6 Hr]. cbn [waveforms_loop]. pose proof (len_nonneg pre).
  destruct (len pre <? len (pre ++ r)) eqn:E1; [|rewrite !len_app in E1; lia].
  cbn [negb].
  destruct (len (pre ++ r) <? len pre + 6) eqn:E2; [rewrite !len_app in E2; lia|].
  assert (Hs : slice (pre ++ r) (len pre) (len pre + 6) = Ok (firstn 6 r)).
  { rewrite <- (firstn_skipn 6 r) at 1.
    replace (len pre + 6) with (len pre + len (firstn 6 r)) by (rewrite len_firstn; lia).
    apply slice_mid. }
  rewrite Hs. cbn [bind].
  rewrite WaveformHeader_UnmarshalBinary_firstn by lia.
  cbn [wave_header WaveformHeader.ActLen].
  destruct (len (pre ++ r) <? len pre + (6 + declared_ActLen r * 2)) eqn:E3;
    [reflexivity|rewrite !len_app in E3; lia].
Qed.

Lemma wave_record_holds (r : list byte) : wave_record r -> wave_holds r.
Proof. intros [H0 H]. split; lia. Qed.

(** The scan over a run of waveform records decodes each of them and
    arrives after the run with one result per record. *)
Lemma waveforms_loop_run (rs : list (list byte)) :
  Forall wave_record rs ->
  exists ws,
    Forall2 (fun r w => ParseWaveformData DRI_WF_PLETH wp r = Ok w) rs ws /\
    forall (fuel : nat) (pre rest : list byte) (results : list WaveformJSON),
      waveforms_loop DRI_WF_PLETH (List.length rs + fuel) wp
        (pre ++ List.concat rs ++ rest) (len pre) results
      = waveforms_loop DRI_WF_PLETH fuel wp
          (pre ++ List.concat rs ++ rest) (len pre + len (List.concat rs))
          (results ++ ws).
Proof.
  induction 1 as [|r rs Hr Hrs [ws [Hws IH]]].
  - exists []. split; [constructor|]. intros fuel pre rest results.
    cbn [List.length List.concat Nat.add]. change (len (@nil byte)) with 0.
    now rewrite Z.add_0_r, app_nil_r.
  - assert (Hex : exists w, ParseWaveformData DRI_WF_PLETH wp r = Ok w)
      by (rewrite ParseWaveformData_ok by (apply wave_record_holds; exact Hr);
          eexists; reflexivity).
    destruct Hex as [w Hw].
    exists (w :: ws). split; [constructor; assumption|].
    intros fuel pre rest results. cbn [List.length List.concat Nat.add].
    rewrite <- (app_assoc r).
    rewrite (waveforms_loop_record _ pre r _ results w Hr Hw).
    replace (pre ++ r ++ List.concat rs ++ rest) with ((pre ++ r) ++ List.concat rs ++ rest)
      by (now rewrite <- app_assoc).
    replace (len pre + len r) with (len (pre ++ r)) by apply len_app.
    rewrite IH. rewrite !len_app.
    f_equal; try lia; rewrite <- ?app_assoc; reflexivity.
Qed.

Lemma wave_records_length (rs : list (list byte)) :
  Forall wave_record rs -> (6 * List.length rs <= List.length (List.concat rs))%nat.
Proof.
  induction 1 as [|r rs [H0 Hr] Hrs IH]; [cbn; lia|].
  cbn [List.concat List.length]. rewrite length_app. unfold len in Hr. lia.
Qed.
End WaveformStreamFacts.

(** X13. A stream of whole waveform records, followed by a fragment
    too short to hold a sub-header, splits into one result per record,
    in order, each being what [ParseWaveformData] returns for that
    record alone; the fragment is dropped without an error. *)
Theorem ParseMultipleWaveforms_stream (DRI_WF_PLETH : Z) (rs : list (list byte))
    (tail : list byte) (subrecordType : Z) :
  Forall wave_record rs ->
  len tail < 6 ->
  exists ws,
    ParseMultipleWaveforms DRI_WF_PLETH (List.concat rs ++ tail) subrecordType = Ok ws /\
    Forall2 (fun r w =>
               ParseWaveformData DRI_WF_PLETH
                 (NewWaveformParser DRI_WF_PLETH subrecordType) r = Ok w) rs ws.
Proof.
  intros Hrs Ht.
  destruct (waveforms_loop_run DRI_WF_PLETH (NewWaveformParser DRI_WF_PLETH subrecordType)
              rs Hrs) as [ws [Hws Hrun]].
  exists ws. split; [|exact Hws].
  unfold ParseMultipleWaveforms.
  pose proof (wave_records_length rs Hrs) as Hl.
  replace (List.length (List.concat rs ++ tail))
    with (List.length rs + (List.length (List.concat rs ++ tail) - List.length rs))%nat
    by (rewrite length_app; lia).
  rewrite (Hrun _ [] tail []). cbn [app]. change (len (@nil byte)) with 0.
  apply waveforms_loop_end. rewrite len_app. lia.
Qed.

Lemma ParseMultipleWaveforms_stream_witness :
  exists ws,
    ParseMultipleWaveforms 8 (List.concat [wave_ok; wave_ok] ++ bytes_of [1; 2; 3]) DRI_WF_CO2
    = Ok ws /\
    Forall2 (fun r w => ParseWaveformData 8 (NewWaveformParser 8 DRI_WF_CO2) r = Ok w)
            [wave_ok; wave_ok] ws.
Proof.
  apply (ParseMultipleWaveforms_stream 8 [wave_ok; wave_ok] (bytes_of [1; 2; 3]) DRI_WF_CO2).
  - repeat constructor; vm_compute; discriminate.
  - vm_compute. reflexivity.
Defined.

(** X14. One record cut short spoils the whole stream: when whole
    records are followed by a sub-header whose declared samples are not
    all there, [ParseMultipleWaveforms] returns the error naming the
    offset of that record and none of the records decoded before it. *)
Theorem ParseMultipleWaveforms_incomplete (DRI_WF_PLETH : Z) (rs : list (list byte))
    (r : list byte) (subrecordType : Z) :
  Forall wave_record rs ->
  wave_incomplete r ->
  ParseMultipleWaveforms DRI_WF_PLETH (List.concat rs ++ r) subrecordType
  = Err (Errorf ("incomplete waveform data at offset " ++ itoa (len (List.concat rs)))).
Proof.
  intros Hrs Hr.
  destruct (waveforms_loop_run DRI_WF_PLETH (NewWaveformParser DRI_WF_PLETH subrecordType)
              rs Hrs) as [ws [Hws Hrun]].
  unfold ParseMultipleWaveforms.
  pose proof (wave_records_length rs Hrs) as Hl.
  assert (H6 : (6 <= List.length r)%nat) by (destruct Hr as [H6 _]; unfold len in H6; lia).
  replace (List.length (List.concat rs ++ r))
    with (List.length rs + S (List.length (List.concat rs ++ r) - List.length rs - 1))%nat
    by (rewrite length_app; lia).
  rewrite (Hrun _ [] r []). cbn [app]. change (len (@nil byte)) with 0.
  rewrite Z.add_0_l. apply waveforms_loop_incomplete. exact Hr.
Qed.

Lemma ParseMultipleWaveforms_incomplete_witness :
  ParseMultipleWaveforms 8 (List.concat [wave_ok] ++ wave_short) DRI_WF_CO2
  = Err (Errorf "incomplete waveform data at offset 12").
Proof.
  apply (ParseMultipleWaveforms_incomplete 8 [wave_ok] wave_short DRI_WF_CO2).
  - repeat constructor; vm_compute; discriminate.
  - split; vm_compute; [discriminate | reflexivity].
Defined.

(** ** Auxiliary physiological information *)

(** X15. An auxiliary information record survives its encoding:
    [MarshalBinary] returns 114 bytes and [UnmarshalBinary] on them
    gives back every field, the 98 reserved bytes included. *)
Theorem AuxiliaryPhysiologicalInfo_decode_encode (a : AuxiliaryPhysiologicalInfo.t) :
  AuxiliaryPhysiologicalInfo.wf a ->
  exists buf,
    AuxiliaryPhysiologicalInfo.MarshalBinary a = Ok buf /\
    len buf = 114 /\
    AuxiliaryPhysiologicalInfo.UnmarshalBinary buf = Ok a.
Proof.
  intros [H1 H2 H3 H4 H5 H6].
  destruct a as [nibp r1 co pcwp bsa res]. cbn in *.
  do 98 (destruct res as [|? res]; [discriminate H6|]).
  destruct res; [|discriminate H6]. clear H6.
  eexists. split; [|split].
  - cbv -[byte.of_Z Z.shiftr uint16]. reflexivity.
  - reflexivity.
  - cbv -[byte.of_Z Z.shiftr uint16 int16 le_combine].
    rewrite !le_combine_2, !le_combine_4.
    rewrite !int16_uint16 by assumption.
    rewrite !uint32_small by assumption.
    reflexivity.
Qed.

Lemma AuxiliaryPhysiologicalInfo_decode_encode_witness :
  exists buf,
    AuxiliaryPhysiologicalInfo.MarshalBinary sample_aux = Ok buf /\
    len buf = 114 /\
    AuxiliaryPhysiologicalInfo.UnmarshalBinary buf = Ok sample_aux.
Proof.
  apply (AuxiliaryPhysiologicalInfo_decode_encode sample_aux).
  split; unfold is_uint32, is_int16; cbn; lia.
Defined.

(** ** Alarm status messages *)

Lemma Uint16_short (b : list byte) :
  len b < 2 -> LittleEndian.Uint16 b = Panic (IndexOutOfRange 1 (len b)).
Proof.
  intros H. unfold LittleEndian.Uint16. rewrite elem_oob by lia. reflexivity.
Qed.

Lemma AlarmDisplay_UnmarshalBinary_ok (data : list byte) :
  95 <= len data -> AlarmDisplay.UnmarshalBinary data = Ok (alarm_display_at data).
Proof.
  intros H. unfold AlarmDisplay.UnmarshalBinary. change AlarmDisplay.Size with 95.
  destruct (len data <? 95) eqn:E; [lia|]. clear E. cbv zeta.
  rewrite slice_ok by lia. cbn [bind].
  rewrite !(elem_ok Byte.x00 data) by lia. cbn [bind].
  cbn [for_loop bind].
  repeat (first [ rewrite slice_from_ok by len_solve
                | rewrite Uint16_ok by len_solve
                | rewrite set_elem_ok by len_solve ]; cbn [bind]).
  unfold alarm_display_at, i16_at, u16_at, byte_at. cbn [map seq].
  f_equal. f_equal.
  unfold copy. rewrite repeat_length.
  change (Z.to_nat (0 + 80 - 0)) with 80%nat. change (Z.to_nat 0) with 0%nat.
  change (skipn 0 data) with data. rewrite firstn_firstn_same.
  rewrite skipn_all2 by (rewrite repeat_length, length_firstn; unfold len in H; lia).
  apply app_nil_r.
Qed.

(** X16. [AlarmDisplay.UnmarshalBinary] refuses a buffer shorter than
    95 bytes and decodes every other, whatever its bytes: the text is
    the first 80 bytes, the two flags are "byte 80 is not 0" and "byte 82
    is not 0", the color is byte 81, and six signed words follow. *)
Theorem AlarmDisplay_UnmarshalBinary_layout (data : list byte) :
  AlarmDisplay.UnmarshalBinary data
  = (if len data <? 95 then Err ErrInvalidDataLength else Ok (alarm_display_at data)).
Proof.
  destruct (len data <? 95) eqn:E.
  - unfold AlarmDisplay.UnmarshalBinary. change AlarmDisplay.Size with 95.
    now rewrite E.
  - apply AlarmDisplay_UnmarshalBinary_ok. lia.
Qed.

Ltac alarm_status_step :=
  first [ rewrite slice_from_ok by len_solve
        | rewrite Uint16_ok by len_solve
        | rewrite Uint16_short by len_solve
        | rewrite AlarmDisplay_UnmarshalBinary_ok by len_solve
        | rewrite set_elem_ok by len_solve ];
  cbn [bind].

Lemma AlarmStatusMessage_displays (data : list byte) :
  483 <= len data ->
  AlarmStatusMessage.UnmarshalBinary data
  = ('(reserved4, _) <- for_loop 5 0 (fun i '(reserved4, offset) =>
        b <- slice_from data offset ;;
        u <- LittleEndian.Uint16 b ;;
        reserved4 <- set_elem reserved4 i (int16 u) ;;
        Ok (reserved4, offset + 2)) (repeat 0 5, 483) ;;
     Ok {| AlarmStatusMessage.Reserved := i16_at data 0;
           AlarmStatusMessage.SoundOnOff := negb (byte.unsigned (byte_at data 2) =? 0);
           AlarmStatusMessage.Reserved2 := i16_at data 3;
           AlarmStatusMessage.Reserved3 := i16_at data 5;
           AlarmStatusMessage.SilenceInfo := byte_at data 7;
           AlarmStatusMessage.AlDisp :=
             map (fun k => alarm_display_at (skipn (8 + 95 * k) data)) (seq 0 5);
           AlarmStatusMessage.Reserved4 := reserved4 |}).
Proof.
  intros H. unfold AlarmStatusMessage.UnmarshalBinary.
  change AlarmStatusMessage.Size with 483. change AlarmDisplay.Size with 95.
  destruct (len data <? 483) eqn:E; [lia|]. clear E. cbv zeta.
  repeat (first [ rewrite slice_from_ok by len_solve
                | rewrite Uint16_ok by len_solve
                | rewrite (elem_ok Byte.x00 data) by len_solve ]; cbn [bind]).
  cbn [for_loop]. cbn [bind].
  do 5 (rewrite slice_from_ok by len_solve; cbn [bind];
        rewrite AlarmDisplay_UnmarshalBinary_ok by len_solve; cbn [bind];
        rewrite set_elem_ok by len_solve; cbn [bind]).
  reflexivity.
Qed.

(** X17. [AlarmStatusMessage.UnmarshalBinary] has three outcomes, by
    length alone. Below 483 bytes, the size it declares, it returns
    [ErrInvalidDataLength]. The five display slots are 95 bytes each and
    not 93, so the message takes 493 bytes: from 483 to 492 bytes the
    length test passes and the read of the trailing reserved words runs
    off the buffer, which panics. From 493 bytes on it decodes, whatever
    the bytes, to the fixed layout. *)
Theorem AlarmStatusMessage_UnmarshalBinary_outcomes (data : list byte) :
  AlarmStatusMessage.UnmarshalBinary data
  = (if len data <? 483 then Err ErrInvalidDataLength
     else if len data <? 493 then Panic (IndexOutOfRange 1 ((len data - 483) mod 2))
     else Ok (alarm_status_at data)).
Proof.
  destruct (len data <? 483) eqn:E1.
  { unfold AlarmStatusMessage.UnmarshalBinary. change AlarmStatusMessage.Size with 483.
    now rewrite E1. }
  rewrite AlarmStatusMessage_displays by lia.
  destruct (len data <? 493) eqn:E2.
  - assert (Hc : len data = 483 \/ len data = 484 \/ len data = 485 \/ len data = 486 \/
                 len data = 487 \/ len data = 488 \/ len data = 489 \/ len data = 490 \/
                 len data = 491 \/ len data = 492) by lia.
    cbn [for_loop].
    repeat destruct Hc as [Hc|Hc]; rewrite Hc;
      repeat alarm_status_step;
      rewrite ?len_skipn, ?Hc; reflexivity.
  - cbn [for_loop]. repeat alarm_status_step.
    unfold alarm_status_at, i16_at, u16_at. cbn [map seq]. reflexivity.
Qed.

(** ** Alarm texts *)

Lemma until_nul_prefix (l : list byte) :
  firstn (List.length (until_nul l)) l = until_nul l.
Proof.
  induction l as [|b l IH]; [reflexivity|]. cbn [until_nul].
  destruct (byte.unsigned b =? 0); [reflexivity|].
  cbn [List.length firstn]. now rewrite IH.
Qed.

Lemma until_nul_zeros (l : list byte) (n : nat) :
  until_nul (l ++ repeat Byte.x00 n) = until_nul l.
Proof.
  induction l as [|b l IH].
  - destruct n; reflexivity.
  - cbn [app until_nul]. destruct (byte.unsigned b =? 0); [reflexivity|]. now rewrite IH.
Qed.

Lemma text_end_spec (text : list byte) (n : nat) :
  forall i : nat,
    (i + n <= List.length text)%nat ->
    AlarmDisplay.text_end text n (Z.of_nat i) (Z.of_nat i)
    = Z.of_nat i + len (until_nul (firstn n (skipn i text))).
Proof.
  induction n as [|n IH]; intros i H.
  - cbn [AlarmDisplay.text_end firstn until_nul]. change (len (@nil byte)) with 0. lia.
  - cbn [AlarmDisplay.text_end]. rewrite Nat2Z.id.
    destruct (skipn i text) as [|b rest] eqn:Es.
    { apply (f_equal (@List.length byte)) in Es. rewrite length_skipn in Es.
      cbn [List.length] in Es. lia. }
    assert (Hn : nth i text Byte.x00 = b).
    { rewrite <- (Nat.add_0_r i), <- nth_skipn, Es. reflexivity. }
    assert (Hr : skipn (S i) text = rest).
    { change (S i) with (1 + i)%nat. rewrite <- skipn_skipn, Es. reflexivity. }
    rewrite Hn. cbn [firstn until_nul].
    destruct (byte.unsigned b =? 0).
    + change (len (@nil byte)) with 0. lia.
    + replace (Z.of_nat i + 1) with (Z.of_nat (S i)) by lia.
      rewrite IH by lia. rewrite Hr, len_cons. lia.
Qed.

(** X18. What [SetAlarmText] stores, [GetAlarmText] reads back up to
    the first NUL: the text returned is the first 80 bytes of the text
    given, cut before their first zero byte. A text of at most 80 bytes
    without a zero byte is returned whole; no other field of the slot
    changes. *)
Theorem GetAlarmText_SetAlarmText (a : AlarmDisplay.t) (text : list byte) :
  AlarmDisplay.GetAlarmText (AlarmDisplay.SetAlarmText a text) = until_nul (firstn 80 text) /\
  List.length (AlarmDisplay.Text (AlarmDisplay.SetAlarmText a text)) = 80%nat /\
  AlarmDisplay.Color (AlarmDisplay.SetAlarmText a text) = AlarmDisplay.Color a /\
  AlarmDisplay.TextChanged (AlarmDisplay.SetAlarmText a text) = AlarmDisplay.TextChanged a /\
  AlarmDisplay.ColorChanged (AlarmDisplay.SetAlarmText a text) = AlarmDisplay.ColorChanged a /\
  AlarmDisplay.Reserved (AlarmDisplay.SetAlarmText a text) = AlarmDisplay.Reserved a.
Proof.
  assert (Ht : AlarmDisplay.Text (AlarmDisplay.SetAlarmText a text)
               = firstn 80 text ++ repeat Byte.x00 (80 - List.length (firstn 80 text))).
  { unfold AlarmDisplay.SetAlarmText. cbv zeta. cbn [AlarmDisplay.Text].
    assert (Hf : firstn (Z.to_nat (if 80 <? len text then 80 else len text)) text
                 = firstn 80 text).
    { destruct (80 <? len text) eqn:E; [reflexivity|].
      unfold len in *. rewrite Nat2Z.id.
      rewrite !firstn_all2 by lia. reflexivity. }
    rewrite Hf. unfold copy. rewrite repeat_length, firstn_firstn_same.
    now rewrite skipn_repeat_sub. }
  assert (Hl : List.length (AlarmDisplay.Text (AlarmDisplay.SetAlarmText a text)) = 80%nat).
  { rewrite Ht, length_app, repeat_length, length_firstn. lia. }
  split; [|split; [exact Hl|repeat split]].
  unfold AlarmDisplay.GetAlarmText.
  rewrite (text_end_spec _ 80 0) by lia.
  change (Z.of_nat 0) with 0. rewrite Z.add_0_l. unfold len. rewrite Nat2Z.id.
  cbn [skipn]. rewrite <- Hl at 1. rewrite firstn_all.
  rewrite until_nul_prefix. rewrite Ht. apply until_nul_zeros.
Qed.

(** X19. [GetHighestPriorityAlarm] returns the first slot whose color
    byte is smallest among the slots with a color from 1 to 254, and
    nothing when every color is 0 or 255: a slot of color 255 counts as
    active in [GetActiveAlarmCount], which is the number of slots with a
    nonzero color, yet is never returned. *)
Theorem GetHighestPriorityAlarm_spec (a : AlarmStatusMessage.t) :
  match AlarmStatusMessage.GetHighestPriorityAlarm a with
  | Some i =>
      0 <= i < 5 /\ 1 <= color_of a i < 255 /\
      forall j, 0 <= j < 5 -> 1 <= color_of a j ->
                color_of a i <= color_of a j /\ (j < i -> color_of a i < color_of a j)
  | None => forall j, 0 <= j < 5 -> color_of a j = 0 \/ color_of a j = 255
  end /\
  AlarmStatusMessage.GetActiveAlarmCount a
  = len (filter (fun j => 1 <=? color_of a j) [0; 1; 2; 3; 4]).
Proof.
  unfold AlarmStatusMessage.GetHighestPriorityAlarm, AlarmStatusMessage.GetActiveAlarmCount,
    AlarmDisplay.IsActiveAlarm.
  change DRI_PR1 with 1.
  cbn [fold_left filter].
  assert (Hb : forall j, 0 <= color_of a j < 256)
    by (intros j; unfold color_of; apply byte.unsigned_range).
  pose proof (Hb 0) as H0. pose proof (Hb 1) as H1. pose proof (Hb 2) as H2.
  pose proof (Hb 3) as H3. pose proof (Hb 4) as H4. clear Hb.
  assert (Hj : forall (P : Z -> Prop),
             P 0 -> P 1 -> P 2 -> P 3 -> P 4 -> forall j, 0 <= j < 5 -> P j).
  { intros P P0 P1 P2 P3 P4 j Hj.
    assert (Hc : j = 0 \/ j = 1 \/ j = 2 \/ j = 3 \/ j = 4) by lia.
    repeat destruct Hc as [Hc|Hc]; subst j; assumption. }
  unfold color_of in *.
  split.
  - cbv beta iota.
    repeat (match goal with
            | |- context [Z.leb ?x ?y] => destruct (Z.leb_spec x y)
            | |- context [Z.ltb ?x ?y] => destruct (Z.ltb_spec x y)
            end; cbn [andb snd]; cbv beta iota);
      first [ split; [lia | split; [lia |] ] | idtac ];
      intros j Hjr; pattern j; apply Hj; try exact Hjr; cbv beta; lia.
  - cbv beta iota.
    repeat match goal with
           | |- context [Z.leb ?x ?y] => destruct (Z.leb_spec x y)
           end; reflexivity.
Qed.

(** ** The trend validator *)

Lemma u16_at_range (data : list byte) (off : nat) : 0 <= u16_at data off < 65536.
Proof.
  unfold u16_at.
  pose proof (le_combine_bound (firstn 2 (skipn off data))) as H.
  assert (Hl : (List.length (firstn 2 (skipn off data)) <= 2)%nat)
    by (rewrite length_firstn; lia).
  assert (2 ^ (8 * Z.of_nat (List.length (firstn 2 (skipn off data)))) <= 2 ^ 16)
    by (apply Z.pow_le_mono_r; lia).
  change (2 ^ 16) with 65536 in *. lia.
Qed.

Lemma uint16_int16 (z : Z) : 0 <= z < 65536 -> uint16 (int16 z) = z.
Proof.
  intros H. unfold uint16, int16.
  rewrite Zminus_mod_idemp_l.
  replace (z + 32768 - 32768) with z by lia. now apply Z.mod_small.
Qed.

(** X20. What [ValidateTrendData] tests, in terms of the header the
    buffer decodes to: the record length, read unsigned, is positive
    and within the buffer; the DRI level is 2 to 12; and the word at
    bytes 28 and 29 is not negative. That word is the offset of the
    fifth subrecord descriptor, not the main type, which sits at bytes
    14 and 15 and is not tested. *)
Theorem ValidateTrendData_spec (data : list byte) (h : DatexHeader.t) :
  DatexHeader.UnmarshalBinary data = Ok h ->
  (ValidateTrendData data = Ok tt <->
   0 < uint16 (DatexHeader.RLen h) <= len data /\
   2 <= byte.unsigned (DatexHeader.DriLevel h) <= 12 /\
   0 <= SrDesc.SrOffset (DatexHeader.SrDesc_at h 4)).
Proof.
  intros Hh.
  assert (H40 : 40 <= len data).
  { destruct (Z_lt_le_dec (len data) 40) as [Hs|Hs]; [|exact Hs].
    rewrite DatexHeader_UnmarshalBinary_short in Hh by assumption. discriminate Hh. }
  rewrite DatexHeader_UnmarshalBinary_ok in Hh by assumption.
  injection Hh as <-.
  unfold DatexHeader.SrDesc_at, fixed_layout.
  cbn [DatexHeader.RLen DatexHeader.DriLevel DatexHeader.SrDesc].
  change (nth (Z.to_nat 4) (map (descriptor_at data) (seq 0 8)) SrDesc.zero)
    with (descriptor_at data 4).
  unfold descriptor_at. cbn [SrDesc.SrOffset]. change (16 + 3 * 4)%nat with 28%nat.
  rewrite uint16_int16 by apply u16_at_range.
  unfold ValidateTrendData. change DRI_LEVEL_95 with 2. change DRI_LEVEL_06 with 12.
  destruct (len data <? 32) eqn:E; [lia|]. clear E.
  rewrite !slice_ok by lia. cbn [bind]. rewrite !Uint16_ok by len_solve. cbn [bind].
  rewrite (elem_ok Byte.x00) by lia. cbn [bind].
  change (Z.to_nat (2 - 0)) with 2%nat. change (Z.to_nat (30 - 28)) with 2%nat.
  change (Z.to_nat 0) with 0%nat. change (Z.to_nat 28) with 28%nat.
  change (Z.to_nat 3) with 3%nat.
  rewrite !firstn_firstn_same.
  change (le_combine (firstn 2 (skipn 0 data))) with (u16_at data 0).
  change (le_combine (firstn 2 (skipn 28 data))) with (u16_at data 28).
  change (nth 3 data Byte.x00) with (byte_at data 3).
  destruct (Z.leb_spec (u16_at data 0) 0);
    [cbn [orb]; split; [discriminate|lia]|].
  destruct (Z.ltb_spec (len data) (u16_at data 0));
    [cbn [orb]; split; [discriminate|lia]|].
  cbn [orb].
  destruct (Z.ltb_spec (byte.unsigned (byte_at data 3)) 2);
    [cbn [orb]; split; [discriminate|lia]|].
  destruct (Z.ltb_spec 12 (byte.unsigned (byte_at data 3)));
    [cbn [orb]; split; [discriminate|lia]|].
  cbn [orb].
  destruct (Z.ltb_spec (int16 (u16_at data 28)) 0); [split; [discriminate|lia]|].
  split; [lia|reflexivity].
Qed.

Lemma ValidateTrendData_spec_witness :
  DatexHeader.UnmarshalBinary phdb_record = Ok (fixed_layout phdb_record) /\
  (ValidateTrendData phdb_record = Ok tt <->
   0 < uint16 (DatexHeader.RLen (fixed_layout phdb_record)) <= len phdb_record /\
   2 <= byte.unsigned (DatexHeader.DriLevel (fixed_layout phdb_record)) <= 12 /\
   0 <= SrDesc.SrOffset (DatexHeader.SrDesc_at (fixed_layout phdb_record) 4)).
Proof.
  assert (H : DatexHeader.UnmarshalBinary phdb_record = Ok (fixed_layout phdb_record))
    by (vm_compute; reflexivity).
  split; [exact H|]. exact (ValidateTrendData_spec phdb_record _ H).
Defined.

(** ** Diagnostics of the trend splitter *)

Section TrendDiagnostics.
Variable DatexRecord_UnmarshalBinary : list byte -> result DatexRecord.t.
Variable DatexHeader_IsValid : DatexHeader.t -> bool.
Variable PhysiologicalSubrecords : Type.
Variable PhysiologicalSubrecords_UnmarshalBinary :
  list byte -> result PhysiologicalSubrecords.

Abbreviation TrendJSON' := (TrendParser.TrendJSON PhysiologicalSubrecords).
Abbreviation ParseTrendData' :=
  (TrendParser.ParseTrendData DatexRecord_UnmarshalBinary DatexHeader_IsValid
     PhysiologicalSubrecords PhysiologicalSubrecords_UnmarshalBinary).
Abbreviation trends_loop' :=
  (TrendParser.trends_loop DatexRecord_UnmarshalBinary DatexHeader_IsValid
     PhysiologicalSubrecords PhysiologicalSubrecords_UnmarshalBinary).
Abbreviation ParseMultipleTrends' :=
  (TrendParser.ParseMultipleTrends DatexRecord_UnmarshalBinary DatexHeader_IsValid
     PhysiologicalSubrecords PhysiologicalSubrecords_UnmarshalBinary).

(** X21. [ParseTrendData] starts by emptying the diagnostics of the
    parser, so [ParseMultipleTrends] keeps those of the last record
    only: when a record too short to decode is followed by another
    record, the result holds neither the diagnostics the parser had
    before the call nor the "Failed to parse trend at offset 0"
    message of the short record, which is skipped without a trace. *)
Theorem ParseMultipleTrends_forgets_diagnostics (r1 r2 : list byte) (errs : list string) :
  well_delimited r1 -> len r1 < 32 -> well_delimited r2 ->
  ParseMultipleTrends' (r1 ++ r2) errs
  = match ParseTrendData' r2 [] with
    | (Ok trend, errs2) => (Ok [trend], errs2)
    | (Err err, errs2) =>
        (Ok [], errs2 ++ [("Failed to parse trend at offset " ++ itoa (len r1) ++ ": "
                           ++ Error err)%string])
    | (Panic q, errs2) => (Panic q, errs2)
    end.
Proof.
  intros H1 Hs H2. unfold TrendParser.ParseMultipleTrends.
  pose proof H1 as [H1l _]. pose proof H2 as [H2l _].
  assert (Hf : exists fuel, List.length (r1 ++ r2) = S (S fuel)).
  { exists (List.length (r1 ++ r2) - 2)%nat. rewrite length_app. unfold len in *. lia. }
  destruct Hf as [fuel ->].
  assert (Hstep : forall e,
             trends_loop' (S fuel) (r1 ++ r2) (len r1) [] e
             = match ParseTrendData' r2 [] with
               | (Ok trend, errs2) => (Ok [trend], errs2)
               | (Err err, errs2) =>
                   (Ok [], errs2 ++ [("Failed to parse trend at offset " ++ itoa (len r1)
                                      ++ ": " ++ Error err)%string])
               | (Panic q, errs2) => (Panic q, errs2)
               end).
  { intros e.
    pose proof (trends_loop_record DatexRecord_UnmarshalBinary DatexHeader_IsValid
                  PhysiologicalSubrecords PhysiologicalSubrecords_UnmarshalBinary
                  fuel r1 r2 [] [] e H2) as Hr.
    rewrite app_nil_r in Hr. rewrite Hr. unfold TrendParser.trends_turn.
    change (ParseTrendData' r2 e) with (ParseTrendData' r2 []).
    destruct (ParseTrendData' r2 []) as [[t|err|q] errs2]; try reflexivity;
      rewrite (trends_loop_end DatexRecord_UnmarshalBinary DatexHeader_IsValid
                 PhysiologicalSubrecords PhysiologicalSubrecords_UnmarshalBinary)
        by (rewrite len_app; lia);
      reflexivity. }
  pose proof (trends_loop_record DatexRecord_UnmarshalBinary DatexHeader_IsValid
                PhysiologicalSubrecords PhysiologicalSubrecords_UnmarshalBinary
                (S fuel) [] r1 r2 [] errs H1) as Hr.
  cbn [app] in Hr. change (len (@nil byte)) with 0 in Hr. rewrite Hr.
  unfold TrendParser.trends_turn.
  assert (Hp1 : ParseTrendData' r1 errs
                = (Err (Errorf ("data too short for trend record: " ++ itoa (len r1)
                                ++ " bytes")), [])).
  { unfold TrendParser.ParseTrendData. destruct (len r1 <? 32) eqn:E; [reflexivity|lia]. }
  rewrite Hp1. rewrite Z.add_0_l. apply Hstep.
Qed.
End TrendDiagnostics.

Lemma ParseMultipleTrends_forgets_diagnostics_witness :
  TrendParser.ParseMultipleTrends (fun _ => Err ErrInvalidDataLength) (fun _ => true)
    unit (fun _ => Ok tt) (short_trend_2 ++ short_trend_3) ["earlier"%string]
  = (Ok [], ["Failed to parse trend at offset 2: data too short for trend record: 3 bytes"
             %string]).
Proof.
  apply (ParseMultipleTrends_forgets_diagnostics (fun _ => Err ErrInvalidDataLength)
           (fun _ => true) unit (fun _ => Ok tt) short_trend_2 short_trend_3
           ["earlier"%string]).
  - split; vm_compute; [discriminate | reflexivity].
  - vm_compute. reflexivity.
  - split; vm_compute; [discriminate | reflexivity].
Defined.

(** ** Status bits of a waveform *)

Lemma land_bit (s i : Z) :
  0 <= i -> negb (Z.land s (Z.shiftl 1 i) =? 0) = Z.testbit s i.
Proof.
  intros Hi. rewrite Z.shiftl_1_l.
  destruct (Z.testbit s i) eqn:Eb.
  - destruct (Z.eqb_spec (Z.land s (2 ^ i)) 0) as [E|E]; [|reflexivity].
    apply (f_equal (fun z => Z.testbit z i)) in E.
    rewrite Z.land_spec, Eb, Z.pow2_bits_true, Z.bits_0 in E by assumption.
    discriminate E.
  - destruct (Z.eqb_spec (Z.land s (2 ^ i)) 0) as [E|E]; [reflexivity|].
    exfalso. apply E. apply Z.bits_inj'. intros n Hn.
    rewrite Z.land_spec, Z.bits_0.
    destruct (Z.eq_dec n i) as [->|Hne].
    + now rewrite Eb.
    + rewrite (Z.pow2_bits_false i n) by lia. apply andb_false_r.
Qed.

(** X22. The status of a decoded waveform is reported bit by bit:
    the sixteen status bits of the JSON header are the binary digits of
    the status word, lowest first, and the three flags are its bits 0
    (gap), 2 (pacer detected) and 3 (lead off). *)
Theorem status_bits_spec (DRI_WF_PLETH : Z) (wp : WaveformParser)
    (header : WaveformHeader.t) (samples : list Z) :
  exists w,
    convertToJSON DRI_WF_PLETH wp header samples = Ok w /\
    hj_StatusBits (wj_Header w)
    = map (Z.testbit (WaveformHeader.Status header))
          [0; 1; 2; 3; 4; 5; 6; 7; 8; 9; 10; 11; 12; 13; 14; 15] /\
    hj_HasGap (wj_Header w) = Z.testbit (WaveformHeader.Status header) 0 /\
    hj_HasPacerDetected (wj_Header w) = Z.testbit (WaveformHeader.Status header) 2 /\
    hj_HasLeadOff (wj_Header w) = Z.testbit (WaveformHeader.Status header) 3.
Proof.
  eexists. split; [reflexivity|].
  cbn [wj_Header hj_StatusBits hj_HasGap hj_HasPacerDetected hj_HasLeadOff].
  unfold parseStatusBits, WaveformHeader.HasGap, WaveformHeader.HasPacerDetected,
    WaveformHeader.HasLeadOff.
  change WF_STATUS_GAP with (Z.shiftl 1 0).
  change WF_STATUS_PACER_DET with (Z.shiftl 1 2).
  change WF_STATUS_LEAD_OFF with (Z.shiftl 1 3).
  rewrite !land_bit by lia.
  split; [|repeat split].
  apply map_ext_in. intros i Hi. apply land_bit.
  cbn [In] in Hi. lia.
Qed.
